(** * Travel-agent AI: the agent tools, the dispatcher and the workflow executor

    A shallow embedding of [backend/app/agents] (the four agents' tools
    and their [process], [AgentManager.process] and
    [AgentManager.process_workflow]) and of the endpoints of
    [backend/app/api/api_v1/endpoints/agents.py] with their request
    models, together with the properties the specification states about
    them and further properties the code has.

    Python data is modelled by the type [value] of JSON-shaped objects,
    floats by the kernel's binary64 numbers, exceptions by the error
    monad [res], and the mutable tables of the agents by explicit state
    passing.  Everything the code obtains from outside the repository
    (the JSON codec, the text of an exception, the clock, the random
    token source, the standard output, pydantic's coercions) is a field
    of the class [Runtime]. *)

From Stdlib Require Import ZArith List String Ascii Bool Lia Floats.
From Stdlib Require Import Permutation Sorted DecimalString DecimalNat.
Import ListNotations.

Set Warnings "-inexact-float,-register-all".
Open Scope list_scope.
Open Scope string_scope.

(* ================================================================== *)
(** * Part I. Python values, exceptions and the primitives the code uses *)
(* ================================================================== *)

(** ** Values

    What [json.loads] produces and [json.dumps] accepts.  A [dict] keeps
    its insertion order, as Python's does, and all keys are strings. *)

Inductive value : Type :=
| VNone
| VBool (b : bool)
| VInt (z : Z)
| VFloat (f : float)
| VStr (s : string)
| VList (l : list value)
| VDict (d : list (string * value)).

Definition dict : Type := list (string * value).

(** ** Exceptions

    The subclasses of [Exception] the model raises (what is not an
    [Exception], such as a cancellation or an interrupt, is outside the
    model).  The argument describes the raise site; the text Python
    gives the exception is [str_exn] of the runtime. *)

Inductive exn : Type :=
| JSONDecodeError (detail : string)
| TypeError (detail : string)
| ValueError (detail : string)
| AttributeError (detail : string)
| KeyError (detail : string)
| OverflowError (detail : string)
| ZeroDivisionError (detail : string)
| ValidationError (detail : string)
| UnicodeEncodeError (detail : string)
| AgentFailure (detail : string).

Inductive res (A : Type) : Type :=
| Ok (a : A)
| Raise (e : exn).

Arguments Ok {A} a.
Arguments Raise {A} e.

(** ** The two monads: exceptions ([<-]), and exceptions over a mutable
    state ([<~])

    A raised exception keeps the state reached so far: Python does not
    roll a mutation back. *)

Definition bind {A B : Type} (m : res A) (k : A -> res B) : res B :=
  match m with
  | Ok a => k a
  | Raise e => Raise e
  end.

Definition ST (S A : Type) : Type := S -> res A * S.

Definition ret {S A : Type} (a : A) : ST S A := fun s => (Ok a, s).

Definition bind_st {S A B : Type} (m : ST S A) (k : A -> ST S B) : ST S B :=
  fun s => match m s with
           | (Ok a, s') => k a s'
           | (Raise e, s') => (Raise e, s')
           end.

Declare Scope monad_scope.
Delimit Scope monad_scope with monad.
Notation "x <- c1 ;; c2" := (bind c1 (fun x => c2))
  (at level 61, c1 at next level, right associativity) : monad_scope.
Notation "x <~ c1 ;; c2" := (bind_st c1 (fun x => c2))
  (at level 61, c1 at next level, right associativity) : monad_scope.
Notation "c1 ;;; c2" := (bind_st c1 (fun _ => c2))
  (at level 61, right associativity) : monad_scope.
Open Scope monad_scope.

Definition lift {S A : Type} (r : res A) : ST S A := fun s => (r, s).
Definition get_state {S : Type} : ST S S := fun s => (Ok s, s).
Definition put_state {S : Type} (s : S) : ST S unit := fun _ => (Ok tt, s).

(** [try: body  except Exception as e: handler e] *)
Definition try_except {A : Type} (body : res A) (handler : exn -> res A) : res A :=
  match body with
  | Ok a => Ok a
  | Raise e => handler e
  end.

Definition try_except_st {S A : Type} (body : ST S A) (handler : exn -> ST S A) : ST S A :=
  fun s => match body s with
           | (Ok a, s') => (Ok a, s')
           | (Raise e, s') => handler e s'
           end.

(** [mapM f l]: apply [f] to the elements from left to right, stopping
    at the first exception. *)
Fixpoint mapM {A B : Type} (f : A -> res B) (l : list A) : res (list B) :=
  match l with
  | [] => Ok []
  | x :: xs =>
      match f x with
      | Raise e => Raise e
      | Ok y => match mapM f xs with
                | Raise e => Raise e
                | Ok ys => Ok (y :: ys)
                end
      end
  end.

(** ** Dictionaries *)

Fixpoint dict_get {V : Type} (d : list (string * V)) (k : string) : option V :=
  match d with
  | [] => None
  | (k', v) :: rest => if String.eqb k' k then Some v else dict_get rest k
  end.

Definition dict_mem {V : Type} (k : string) (d : list (string * V)) : bool :=
  match dict_get d k with Some _ => true | None => false end.

(** [d[k] = v]: an existing key keeps its place, a new key goes last. *)
Fixpoint dict_set (d : dict) (k : string) (v : value) : dict :=
  match d with
  | [] => [(k, v)]
  | (k', v') :: rest =>
      if String.eqb k' k then (k', v) :: rest else (k', v') :: dict_set rest k v
  end.

(** [d.update(other)]: every binding of [other] is written into [d], in
    [other]'s order, overwriting the bindings [d] already has. *)
Definition dict_update (d other : dict) : dict :=
  fold_left (fun acc kv => dict_set acc (fst kv) (snd kv)) other d.

Definition dict_keys (d : dict) : list string := map fst d.
Definition dict_values (d : dict) : list value := map snd d.

(** ** Strings *)

Definition string_of_nat (n : nat) : string :=
  NilEmpty.string_of_uint (Nat.to_uint n).

Definition newline : string := String (ascii_of_nat 10) EmptyString.

Fixpoint chars (s : string) : list value :=
  match s with
  | EmptyString => []
  | String c rest => VStr (String c EmptyString) :: chars rest
  end.

Definition is_str (v : value) (s : string) : bool :=
  match v with
  | VStr s' => String.eqb s' s
  | _ => false
  end.

(** ** Object protocol *)

(** [bool(v)] *)
Definition truthy (v : value) : bool :=
  match v with
  | VNone => false
  | VBool b => b
  | VInt z => negb (Z.eqb z 0)
  | VFloat f => negb (PrimFloat.eqb f 0%float)
  | VStr s => negb (String.eqb s "")
  | VList l => match l with [] => false | _ => true end
  | VDict d => match d with [] => false | _ => true end
  end.

(** [o.get(k, default)]: only a dict has the method. *)
Definition py_get (o : value) (k : string) (default : value) : res value :=
  match o with
  | VDict d => Ok (match dict_get d k with Some v => v | None => default end)
  | _ => Raise (AttributeError "object has no attribute 'get'")
  end.

(** [o[k]] for a string [k]. *)
Definition py_getitem (o : value) (k : string) : res value :=
  match o with
  | VDict d => match dict_get d k with
               | Some v => Ok v
               | None => Raise (KeyError k)
               end
  | _ => Raise (TypeError "object is not subscriptable by a string")
  end.

(** [o[k] = v] for a string [k]: the updated object. *)
Definition py_setitem (o : value) (k : string) (v : value) : res value :=
  match o with
  | VDict d => Ok (VDict (dict_set d k v))
  | _ => Raise (TypeError "object does not support item assignment")
  end.

(** [k in d] for a dict [d] with string keys: hashing a list or a dict
    raises, and nothing but a string equals a string key. *)
Definition py_contains {V : Type} (d : list (string * V)) (k : value) : res bool :=
  match k with
  | VStr s => Ok (dict_mem s d)
  | VList _ | VDict _ => Raise (TypeError "unhashable type")
  | _ => Ok false
  end.

(** [d[k]] *)
Definition py_lookup {V : Type} (d : list (string * V)) (k : value) : res V :=
  match k with
  | VStr s => match dict_get d s with
              | Some v => Ok v
              | None => Raise (KeyError s)
              end
  | VList _ | VDict _ => Raise (TypeError "unhashable type")
  | _ => Raise (KeyError "not a key of the dict")
  end.

(** [iter(v)]: the elements a [for] loop, [min], [max] or [sorted] sees. *)
Definition py_iter (v : value) : res (list value) :=
  match v with
  | VList l => Ok l
  | VDict d => Ok (map VStr (dict_keys d))
  | VStr s => Ok (chars s)
  | _ => Raise (TypeError "object is not iterable")
  end.

(** ** Numbers

    A JSON number is an [int] ([VInt]) or a [float] ([VFloat], IEEE
    binary64); [True] and [False] count as [1] and [0]. *)

Inductive num : Type :=
| NInt (z : Z)
| NFloat (f : float).

Definition as_num (v : value) : option num :=
  match v with
  | VInt z => Some (NInt z)
  | VBool b => Some (NInt (if b then 1 else 0)%Z)
  | VFloat f => Some (NFloat f)
  | _ => None
  end.

(** [float(z)] for an [int]: rounded to nearest even, [OverflowError]
    beyond the range of a double. *)
Definition float_of_Z (z : Z) : res float :=
  match binary_normalize prec emax z 0 false with
  | S754_infinity _ => Raise (OverflowError "int too large to convert to float")
  | sf => Ok (SF2Prim sf)
  end.

Definition num_to_float (n : num) : res float :=
  match n with
  | NInt z => float_of_Z z
  | NFloat f => Ok f
  end.

(** [int(f)] for a [float]: truncation towards zero. *)
Definition float_trunc (f : float) : res Z :=
  match Prim2SF f with
  | S754_nan => Raise (ValueError "cannot convert float NaN to integer")
  | S754_infinity _ => Raise (OverflowError "cannot convert float infinity to integer")
  | S754_zero _ => Ok 0%Z
  | S754_finite s m e =>
      let a := (if 0 <=? e then Zpos m * 2 ^ e else Z.shiftr (Zpos m) (- e))%Z in
      Ok (if s then (- a)%Z else a)
  end.

(** The exact order between an [int] and a [float] ([None] for NaN). *)
Definition Z_compare_SF (z : Z) (f : spec_float) : option comparison :=
  match f with
  | S754_nan => None
  | S754_infinity s => Some (if s then Gt else Lt)
  | S754_zero _ => Some (Z.compare z 0)
  | S754_finite s m e =>
      let a := if s then Zneg m else Zpos m in
      Some (if 0 <=? e then Z.compare z (a * 2 ^ e) else Z.compare (z * 2 ^ (- e)) a)%Z
  end.

Definition num_compare (a b : num) : option comparison :=
  match a, b with
  | NInt x, NInt y => Some (Z.compare x y)
  | NFloat x, NFloat y => SFcompare (Prim2SF x) (Prim2SF y)
  | NInt x, NFloat y => Z_compare_SF x (Prim2SF y)
  | NFloat x, NInt y => option_map CompOpp (Z_compare_SF y (Prim2SF x))
  end.

Definition num_ltb (a b : num) : bool :=
  match num_compare a b with
  | Some Lt => true
  | _ => false
  end.

(** [a / b] for two [int]s: the correctly rounded quotient.  The
    quotient is computed with at least 63 bits and a sticky bit, then
    rounded once. *)
Definition int_truediv (a b : Z) : res float :=
  if (b =? 0)%Z then Raise (ZeroDivisionError "division by zero")
  else
    let neg := xorb (a <? 0)%Z (b <? 0)%Z in
    let n := Z.abs a in
    let d := Z.abs b in
    if (n =? 0)%Z then Ok (if neg then neg_zero else zero)
    else
      let shift := Z.max 0 (64 + Z.log2 d - Z.log2 n) in
      let q := (n * 2 ^ shift / d)%Z in
      let sticky := (if (n * 2 ^ shift) mod d =? 0 then 0 else 1)%Z in
      let m := (2 * q + sticky)%Z in
      match binary_normalize prec emax (if neg then - m else m)%Z (- shift - 1)%Z false with
      | S754_infinity _ =>
          Raise (OverflowError "integer division result too large for a float")
      | sf => Ok (SF2Prim sf)
      end.

(** [a / b] *)
Definition py_truediv (a b : value) : res float :=
  match as_num a, as_num b with
  | Some (NInt x), Some (NInt y) => int_truediv x y
  | Some x, Some y =>
      fx <- num_to_float x ;;
      fy <- num_to_float y ;;
      if PrimFloat.eqb fy 0%float
      then Raise (ZeroDivisionError "float division by zero")
      else Ok (fx / fy)%float
  | _, _ => Raise (TypeError "unsupported operand type(s) for /")
  end.

(** [f * w] for a float [f] *)
Definition py_float_mul (f : float) (w : value) : res float :=
  match as_num w with
  | Some n => fw <- num_to_float n ;; Ok (f * fw)%float
  | None => Raise (TypeError "unsupported operand type(s) for *")
  end.

(** ** The runtime: what the code gets from outside the repository *)

Class Runtime : Type := {
  (** [json.loads] and [json.dumps].  [json.dumps] is a total function:
      the tools serialize strings, numbers, booleans, [None] and what
      [json.loads] returned, in lists and in dicts with string keys,
      and on such values [json.dumps] with its default settings does
      not raise ([NaN] and the infinities are written out). *)
  json_loads : string -> res value;
  json_dumps : value -> string;
  (** [str(e)] of a caught exception *)
  str_exn : exn -> string;
  (** how a value that is not a string is written by an f-string *)
  py_repr : value -> string;
  (** [float(s)] and [int(s)] of a string *)
  float_of_str : string -> res float;
  int_of_str : string -> res Z;
  (** [a < b] when the operands are neither two numbers nor two strings *)
  py_lt_other : value -> value -> res bool;
  (** [a == b] *)
  py_eq : value -> value -> bool;
  (** pydantic's validation of [AgentInput(query=q, context=c)] when [q]
      is not a [str] or [c] is neither a dict nor [None] *)
  pydantic_coerce : value -> value -> res (string * value);
  (** [datetime.utcnow().isoformat()] at the n-th reading of the clock *)
  utcnow_isoformat : nat -> string;
  (** [uuid.uuid4().hex[:16]] at the n-th draw *)
  uuid4_hex16 : nat -> string;
  (** [sys.stdout.write] of a line: [Ok] when the line is written, the
      exception otherwise ([UnicodeEncodeError] when the stream's
      encoding has no code for one of its characters) *)
  stdout_write : string -> res unit
}.

Section Primitives.
Context {RT : Runtime}.

(** [f"{v}"] *)
Definition py_format (v : value) : string :=
  match v with
  | VStr s => s
  | _ => py_repr v
  end.

(** [float(v)] *)
Definition py_float (v : value) : res float :=
  match v with
  | VFloat f => Ok f
  | VInt z => float_of_Z z
  | VBool b => Ok (if b then 1%float else 0%float)
  | VStr s => float_of_str s
  | _ => Raise (TypeError "float() argument must be a string or a real number")
  end.

(** [int(v)] *)
Definition py_int (v : value) : res Z :=
  match v with
  | VInt z => Ok z
  | VBool b => Ok (if b then 1 else 0)%Z
  | VFloat f => float_trunc f
  | VStr s => int_of_str s
  | _ => Raise (TypeError "int() argument must be a string or a real number")
  end.

(** [a < b] and [a > b] *)
Definition py_lt (a b : value) : res bool :=
  match as_num a, as_num b with
  | Some x, Some y => Ok (num_ltb x y)
  | _, _ =>
      match a, b with
      | VStr s, VStr t => Ok (String.ltb s t)
      | _, _ => py_lt_other a b
      end
  end.

Definition py_gt (a b : value) : res bool := py_lt b a.

End Primitives.

(** ** [min], [max], [sorted] and slices *)

Section Collections.
Context {RT : Runtime} {K A : Type}.

(** [min(l, key=key)]: the keys are computed and compared from left to
    right; the first of the least elements wins. *)
Fixpoint min_scan (ltb : K -> K -> bool) (key : A -> res K)
    (best : A) (kbest : K) (l : list A) : res A :=
  match l with
  | [] => Ok best
  | x :: xs =>
      k <- key x ;;
      if ltb k kbest then min_scan ltb key x k xs else min_scan ltb key best kbest xs
  end.

Definition py_min_by (ltb : K -> K -> bool) (key : A -> res K) (l : list A) : res A :=
  match l with
  | [] => Raise (ValueError "min() arg is an empty sequence")
  | x :: xs => k <- key x ;; min_scan ltb key x k xs
  end.

(** [max(f(x) for x in l)]: the generator is consumed lazily, so every
    item is computed just before it is compared; the first of the
    greatest elements wins. *)
Fixpoint max_scan (f : A -> res value) (best : value) (l : list A) : res value :=
  match l with
  | [] => Ok best
  | x :: xs =>
      v <- f x ;;
      b <- py_gt v best ;;
      max_scan f (if b then v else best) xs
  end.

Definition py_max_gen (f : A -> res value) (l : list A) : res value :=
  match l with
  | [] => Raise (ValueError "max() arg is an empty sequence")
  | x :: xs => v <- f x ;; max_scan f v xs
  end.

(** [sorted(l, key=..., reverse=True)] on a list already paired with its
    keys: a stable sort in descending order (equal keys keep the order
    they had in [l]).  Python's list sort is stable, also with
    [reverse=True]; the insertion sort below is its result whenever
    [ltb] is a strict weak order on the keys. *)
Fixpoint insert_desc (ltb : K -> K -> bool) (x : K * A) (l : list (K * A)) : list (K * A) :=
  match l with
  | [] => [x]
  | y :: ys => if ltb (fst x) (fst y) then y :: insert_desc ltb x ys else x :: y :: ys
  end.

Fixpoint sort_desc (ltb : K -> K -> bool) (l : list (K * A)) : list (K * A) :=
  match l with
  | [] => []
  | x :: xs => insert_desc ltb x (sort_desc ltb xs)
  end.

(** The same with a comparison that may raise.  Which comparison
    raises first depends on the sorting algorithm; the outcome, the
    sorted list or an exception, does not when the keys are all
    comparable. *)
Fixpoint insert_descM (lt : K -> K -> res bool) (x : K * A) (l : list (K * A))
    : res (list (K * A)) :=
  match l with
  | [] => Ok [x]
  | y :: ys =>
      b <- lt (fst x) (fst y) ;;
      if b then (r <- insert_descM lt x ys ;; Ok (y :: r)) else Ok (x :: y :: ys)
  end.

Fixpoint sort_descM (lt : K -> K -> res bool) (l : list (K * A)) : res (list (K * A)) :=
  match l with
  | [] => Ok []
  | x :: xs => r <- sort_descM lt xs ;; insert_descM lt x r
  end.

(** [[x for x in l if p(x)]] *)
Fixpoint filterM (p : A -> res bool) (l : list A) : res (list A) :=
  match l with
  | [] => Ok []
  | x :: xs =>
      b <- p x ;;
      r <- filterM p xs ;;
      Ok (if b then x :: r else r)
  end.

(** [l[:limit]] *)
Definition py_slice_to (l : list A) (limit : value) : res (list A) :=
  match limit with
  | VNone => Ok l
  | VInt _ | VBool _ =>
      let n := match limit with
               | VInt z => z
               | VBool b => (if b then 1 else 0)%Z
               | _ => 0%Z
               end in
      if (0 <=? n)%Z then Ok (firstn (Z.to_nat n) l)
      else Ok (firstn (Z.to_nat (Z.of_nat (List.length l) + n)) l)
  | _ => Raise (TypeError "slice indices must be integers or None")
  end.

End Collections.

(** ** Results of a tool *)

Definition error_result (message : string) : value :=
  VDict [("status", VStr "error"); ("message", VStr message)].

(** The [except Exception as e] clause every tool ends with:
    [return json.dumps({"status": "error", "message": str(e)})]. *)
Definition tool_handler {RT : Runtime} (e : exn) : res string :=
  Ok (json_dumps (error_result (str_exn e))).

(* ================================================================== *)
(** * Part II. The agents' tools *)
(* ================================================================== *)

(** ** [optimizer_agent.py] *)

Module OptimizerAgent.
Section Tools.
Context {RT : Runtime}.

(** [lambda x: float(x.get("price", float('inf')))] *)
Definition price_key (x : value) : res float :=
  p <- py_get x "price" (VFloat infinity) ;;
  py_float p.

(** [lambda x: int(x.get("duration_minutes", float('inf')))] *)
Definition duration_key (x : value) : res Z :=
  d <- py_get x "duration_minutes" (VFloat infinity) ;;
  py_int d.

(** The [try] block of [_find_cheapest_option]. *)
Definition find_cheapest_option_body (query : string) : res string :=
  data <- json_loads query ;;
  options <- py_get data "options" (VList []) ;;
  if negb (truthy options)
  then Ok (json_dumps (error_result "No options provided"))
  else
    items <- py_iter options ;;
    cheapest <- py_min_by PrimFloat.ltb price_key items ;;
    Ok (json_dumps (VDict [("status", VStr "success"); ("result", cheapest)])).

Definition _find_cheapest_option (query : string) : res string :=
  try_except (find_cheapest_option_body query) tool_handler.

(** The [try] block of [_find_fastest_option]. *)
Definition find_fastest_option_body (query : string) : res string :=
  data <- json_loads query ;;
  options <- py_get data "options" (VList []) ;;
  if negb (truthy options)
  then Ok (json_dumps (error_result "No options provided"))
  else
    items <- py_iter options ;;
    fastest <- py_min_by Z.ltb duration_key items ;;
    Ok (json_dumps (VDict [("status", VStr "success"); ("result", fastest)])).

Definition _find_fastest_option (query : string) : res string :=
  try_except (find_fastest_option_body query) tool_handler.

(** [max(opt.get(field, 0) for opt in options) or 1] *)
Definition max_or_1 (field : string) (options : value) : res value :=
  opts <- py_iter options ;;
  m <- py_max_gen (fun opt => py_get opt field (VInt 0)) opts ;;
  Ok (if truthy m then m else VInt 1).

(** The closure [calculate_score] of [_recommend_based_on_preferences],
    with the variables [preferences] and [options] it captures. *)
Definition calculate_score (preferences options option : value) : res float :=
  let score := 0%float in
  price_weight <- py_get preferences "price_importance" (VFloat 0.5) ;;
  max_price <- max_or_1 "price" options ;;
  price <- py_get option "price" (VInt 0) ;;
  price_ratio <- py_truediv price max_price ;;
  price_term <- py_float_mul (1 - price_ratio) price_weight ;;
  let score := (score + price_term)%float in
  duration_weight <- py_get preferences "duration_importance" (VFloat 0.5) ;;
  max_duration <- max_or_1 "duration_minutes" options ;;
  duration <- py_get option "duration_minutes" (VInt 0) ;;
  duration_ratio <- py_truediv duration max_duration ;;
  duration_term <- py_float_mul (1 - duration_ratio) duration_weight ;;
  let score := (score + duration_term)%float in
  Ok score.

(** [sorted(options, key=calculate_score, reverse=True)]: the keys are
    computed first, in list order. *)
Definition rank (preferences options : value) : res (list value) :=
  items <- py_iter options ;;
  scores <- mapM (calculate_score preferences options) items ;;
  Ok (map snd (sort_desc PrimFloat.ltb (combine scores items))).

(** The [try] block of [_recommend_based_on_preferences]. *)
Definition recommend_based_on_preferences_body (query : string) : res string :=
  data <- json_loads query ;;
  options <- py_get data "options" (VList []) ;;
  preferences <- py_get data "preferences" (VDict []) ;;
  if negb (truthy options)
  then Ok (json_dumps (error_result "No options provided"))
  else
    ranked <- rank preferences options ;;
    Ok (json_dumps (VDict [("status", VStr "success");
                           ("result", match ranked with r :: _ => r | [] => VNone end);
                           ("all_ranked", VList ranked)])).

Definition _recommend_based_on_preferences (query : string) : res string :=
  try_except (recommend_based_on_preferences_body query) tool_handler.

End Tools.
End OptimizerAgent.

(** ** The state of an agent with an in-memory table

    [table] is the agent's dict ([self.notifications], resp.
    [self.transactions]); the other fields are the process environment
    its tools act on: how often the clock was read and a token drawn,
    and what was printed. *)

Record AgentState : Type := {
  table : dict;
  clock_reads : nat;
  uuid_draws : nat;
  stdout : list string
}.

Definition set_table (st : AgentState) (t : dict) : AgentState :=
  {| table := t; clock_reads := clock_reads st;
     uuid_draws := uuid_draws st; stdout := stdout st |}.

Section Effects.
Context {RT : Runtime}.

(** [datetime.utcnow().isoformat()] *)
Definition utcnow : ST AgentState string :=
  fun st => (Ok (utcnow_isoformat (clock_reads st)),
             {| table := table st; clock_reads := S (clock_reads st);
                uuid_draws := uuid_draws st; stdout := stdout st |}).

(** [uuid.uuid4().hex[:16]] *)
Definition uuid4 : ST AgentState string :=
  fun st => (Ok (uuid4_hex16 (uuid_draws st)),
             {| table := table st; clock_reads := clock_reads st;
                uuid_draws := S (uuid_draws st); stdout := stdout st |}).

(** [print(line)]: the line reaches the stream, or the write raises and
    nothing is printed. *)
Definition print (line : string) : ST AgentState unit :=
  fun st =>
    match stdout_write line with
    | Ok _ => (Ok tt,
               {| table := table st; clock_reads := clock_reads st;
                  uuid_draws := uuid_draws st; stdout := stdout st ++ [line] |})
    | Raise e => (Raise e, st)
    end.

(** [self.table[key] = v] *)
Definition table_set (key : string) (v : value) : ST AgentState unit :=
  fun st => (Ok tt, set_table st (dict_set (table st) key v)).

(** [self.table[key][field] = v]: the stored object is updated in
    place.  [key] is the object [key in self.table] was asked about;
    [py_lookup] raises unless it is a string, so the last case of the
    [match] is never reached. *)
Definition table_set_field (key : value) (field : string) (v : value) : ST AgentState unit :=
  st <~ get_state ;;
  entry <~ lift (py_lookup (table st) key) ;;
  entry' <~ lift (py_setitem entry field v) ;;
  match key with
  | VStr k => table_set k entry'
  | _ => ret tt
  end.

(** The same clause in a tool that acts on the agent's state. *)
Definition tool_handler_st {S : Type} (e : exn) : ST S string :=
  lift (tool_handler e).

End Effects.

(** ** [notification_agent.py] *)

Module NotificationAgent.
Section Tools.
Context {RT : Runtime}.

Definition notifications (self : AgentState) : dict := table self.

(** The [try] block of [_send_notification]. *)
Definition send_notification_body (query : string) : ST AgentState string :=
  data <~ lift (json_loads query) ;;
  self <~ get_state ;;
  let notification_id :=
    "notif_" ++ string_of_nat (List.length (notifications self) + 1) in
  user_id <~ lift (py_get data "user_id" VNone) ;;
  title <~ lift (py_get data "title" VNone) ;;
  message <~ lift (py_get data "message" VNone) ;;
  notification_type <~ lift (py_get data "notification_type" (VStr "email")) ;;
  metadata <~ lift (py_get data "metadata" (VDict [])) ;;
  created_at <~ utcnow ;;
  let notification :=
    VDict [("notification_id", VStr notification_id);
           ("user_id", user_id);
           ("title", title);
           ("message", message);
           ("notification_type", notification_type);
           ("metadata", metadata);
           ("is_read", VBool false);
           ("created_at", VStr created_at)] in
  (if is_str notification_type "email"
   then print ("[EMAIL] " ++ py_format title ++ newline ++ py_format message)
   else if is_str notification_type "sms"
   then print ("[SMS] " ++ py_format message)
   else print ("[PUSH] " ++ py_format title ++ ": " ++ py_format message)) ;;;
  table_set notification_id notification ;;;
  ret (json_dumps (VDict [("status", VStr "success");
                          ("notification_id", VStr notification_id);
                          ("message", VStr "Notification sent successfully")])).

Definition _send_notification (query : string) : ST AgentState string :=
  try_except_st (send_notification_body query) tool_handler_st.

Definition is_unread (n : value) : res bool :=
  r <- py_getitem n "is_read" ;; Ok (negb (truthy r)).

(** The [try] block of [_get_user_notifications]. *)
Definition get_user_notifications_body (query : string) : ST AgentState string :=
  data <~ lift (json_loads query) ;;
  user_id <~ lift (py_get data "user_id" VNone) ;;
  limit <~ lift (py_get data "limit" (VInt 10)) ;;
  unread_only <~ lift (py_get data "unread_only" (VBool false)) ;;
  self <~ get_state ;;
  user_notifications <~
    lift (filterM (fun n => u <- py_getitem n "user_id" ;; Ok (py_eq u user_id))
                  (dict_values (notifications self))) ;;
  user_notifications <~
    (if truthy unread_only
     then lift (filterM is_unread user_notifications)
     else ret user_notifications) ;;
  keys <~ lift (mapM (fun x => py_getitem x "created_at") user_notifications) ;;
  sorted <~ lift (sort_descM py_lt (combine keys user_notifications)) ;;
  let user_notifications := map snd sorted in
  shown <~ lift (py_slice_to user_notifications limit) ;;
  unread <~ lift (filterM is_unread user_notifications) ;;
  ret (json_dumps
         (VDict [("status", VStr "success");
                 ("notifications", VList shown);
                 ("total", VInt (Z.of_nat (List.length user_notifications)));
                 ("unread_count", VInt (Z.of_nat (List.length unread)))])).

Definition _get_user_notifications (query : string) : ST AgentState string :=
  try_except_st (get_user_notifications_body query) tool_handler_st.

(** The [try] block of [_mark_notification_read]. *)
Definition mark_notification_read_body (query : string) : ST AgentState string :=
  data <~ lift (json_loads query) ;;
  notification_id <~ lift (py_get data "notification_id" VNone) ;;
  self <~ get_state ;;
  present <~ lift (py_contains (notifications self) notification_id) ;;
  if negb present
  then ret (json_dumps (error_result "Notification not found"))
  else
    table_set_field notification_id "is_read" (VBool true) ;;;
    read_at <~ utcnow ;;
    table_set_field notification_id "read_at" (VStr read_at) ;;;
    ret (json_dumps (VDict [("status", VStr "success");
                            ("message", VStr "Notification marked as read")])).

Definition _mark_notification_read (query : string) : ST AgentState string :=
  try_except_st (mark_notification_read_body query) tool_handler_st.

End Tools.
End NotificationAgent.

(** ** [payment_agent.py] *)

Module PaymentAgent.
Section Tools.
Context {RT : Runtime}.

Definition transactions (self : AgentState) : dict := table self.

(** The [try] block of [_process_payment]. *)
Definition process_payment_body (query : string) : ST AgentState string :=
  data <~ lift (json_loads query) ;;
  hex <~ uuid4 ;;
  let transaction_id := "txn_" ++ hex in
  let payment_successful := true in
  amount <~ lift (py_get data "amount" VNone) ;;
  currency <~ lift (py_get data "currency" (VStr "USD")) ;;
  payment_method <~ lift (py_get data "payment_method" VNone) ;;
  booking_reference <~ lift (py_get data "booking_reference" VNone) ;;
  user_id <~ lift (py_get data "user_id" VNone) ;;
  timestamp <~ utcnow ;;
  let transaction :=
    VDict [("transaction_id", VStr transaction_id);
           ("amount", amount);
           ("currency", currency);
           ("status", VStr (if payment_successful then "completed" else "failed"));
           ("payment_method", payment_method);
           ("booking_reference", booking_reference);
           ("user_id", user_id);
           ("timestamp", VStr timestamp)] in
  table_set transaction_id transaction ;;;
  ret (json_dumps
         (VDict [("status", VStr (if payment_successful then "success" else "error"));
                 ("transaction_id", VStr transaction_id);
                 ("message", VStr (if payment_successful
                                   then "Payment processed successfully"
                                   else "Payment failed"))])).

Definition _process_payment (query : string) : ST AgentState string :=
  try_except_st (process_payment_body query) tool_handler_st.

(** The [try] block of [_process_refund]. *)
Definition process_refund_body (query : string) : ST AgentState string :=
  data <~ lift (json_loads query) ;;
  transaction_id <~ lift (py_get data "transaction_id" VNone) ;;
  self <~ get_state ;;
  present <~ lift (py_contains (transactions self) transaction_id) ;;
  if negb present
  then ret (json_dumps (error_result "Transaction not found"))
  else
    transaction <~ lift (py_lookup (transactions self) transaction_id) ;;
    original <~ lift (py_getitem transaction "amount") ;;
    refund_amount <~ lift (py_get data "amount" original) ;;
    let refund_successful := true in
    if refund_successful
    then
      hex <~ uuid4 ;;
      let refund_id := "ref_" ++ hex in
      table_set_field transaction_id "refund_id" (VStr refund_id) ;;;
      table_set_field transaction_id "refund_amount" refund_amount ;;;
      refund_timestamp <~ utcnow ;;
      table_set_field transaction_id "refund_timestamp" (VStr refund_timestamp) ;;;
      ret (json_dumps (VDict [("status", VStr "success");
                              ("refund_id", VStr refund_id);
                              ("amount_refunded", refund_amount);
                              ("message", VStr "Refund processed successfully")]))
    else ret (json_dumps (error_result "Refund failed")).

Definition _process_refund (query : string) : ST AgentState string :=
  try_except_st (process_refund_body query) tool_handler_st.

(** The [try] block of [_get_transaction_status]. *)
Definition get_transaction_status_body (query : string) : ST AgentState string :=
  data <~ lift (json_loads query) ;;
  transaction_id <~ lift (py_get data "transaction_id" VNone) ;;
  self <~ get_state ;;
  present <~ lift (py_contains (transactions self) transaction_id) ;;
  if negb present
  then ret (json_dumps (error_result "Transaction not found"))
  else
    transaction <~ lift (py_lookup (transactions self) transaction_id) ;;
    ret (json_dumps (VDict [("status", VStr "success");
                            ("transaction", transaction)])).

Definition _get_transaction_status (query : string) : ST AgentState string :=
  try_except_st (get_transaction_status_body query) tool_handler_st.

End Tools.
End PaymentAgent.

(** ** [search_agent.py] *)

Module SearchAgent.
Section Tools.
Context {RT : Runtime}.

(** The [try] block of [_search_flights]. *)
Definition search_flights_body (query : string) : res string :=
  params <- json_loads query ;;
  origin <- py_get params "origin" (VStr "Unknown") ;;
  destination <- py_get params "destination" (VStr "Unknown") ;;
  departure <- py_get params "departure_date" VNone ;;
  arrival <- py_get params "departure_date" VNone ;;
  Ok (json_dumps
        (VDict [("status", VStr "success");
                ("results",
                 VList [VDict [("id", VStr "flt_123");
                               ("airline", VStr "Demo Airlines");
                               ("flight_number", VStr "DA123");
                               ("origin", origin);
                               ("destination", destination);
                               ("departure_time", VStr (py_format departure ++ "T10:00:00"));
                               ("arrival_time", VStr (py_format arrival ++ "T12:00:00"));
                               ("price", VFloat 299.99);
                               ("currency", VStr "USD")]])])).

Definition _search_flights (query : string) : res string :=
  try_except (search_flights_body query) tool_handler.

(** The [try] block of [_search_trains]. *)
Definition search_trains_body (query : string) : res string :=
  params <- json_loads query ;;
  origin <- py_get params "origin" (VStr "Unknown") ;;
  destination <- py_get params "destination" (VStr "Unknown") ;;
  departure <- py_get params "date" VNone ;;
  arrival <- py_get params "date" VNone ;;
  Ok (json_dumps
        (VDict [("status", VStr "success");
                ("results",
                 VList [VDict [("id", VStr "train_456");
                               ("train_name", VStr "Express Train");
                               ("train_number", VStr "ET456");
                               ("origin", origin);
                               ("destination", destination);
                               ("departure_time", VStr (py_format departure ++ "T08:30:00"));
                               ("arrival_time", VStr (py_format arrival ++ "T11:45:00"));
                               ("price", VFloat 89.99);
                               ("currency", VStr "USD");
                               ("class", VStr "Standard")]])])).

Definition _search_trains (query : string) : res string :=
  try_except (search_trains_body query) tool_handler.

End Tools.
End SearchAgent.

(** ** The tools as [_setup_tools] registers them

    A [Tool] has a name and a function from the raw payload to the
    serialized result.  [try_block] is the function's [try] block, by
    which the error contract of the tools is stated; a tool of the
    search and optimizer agents touches no state. *)

Record Tool : Type := {
  name : string;
  func : string -> ST AgentState string;
  try_block : string -> ST AgentState string
}.

Section Registry.
Context {RT : Runtime}.

Definition stateless (f : string -> res string) : string -> ST AgentState string :=
  fun query => lift (f query).

Definition search_tools : list Tool :=
  [ {| name := "search_flights";
       func := stateless SearchAgent._search_flights;
       try_block := stateless SearchAgent.search_flights_body |};
    {| name := "search_trains";
       func := stateless SearchAgent._search_trains;
       try_block := stateless SearchAgent.search_trains_body |} ].

Definition optimizer_tools : list Tool :=
  [ {| name := "find_cheapest_option";
       func := stateless OptimizerAgent._find_cheapest_option;
       try_block := stateless OptimizerAgent.find_cheapest_option_body |};
    {| name := "find_fastest_option";
       func := stateless OptimizerAgent._find_fastest_option;
       try_block := stateless OptimizerAgent.find_fastest_option_body |};
    {| name := "recommend_based_on_preferences";
       func := stateless OptimizerAgent._recommend_based_on_preferences;
       try_block := stateless OptimizerAgent.recommend_based_on_preferences_body |} ].

Definition payment_tools : list Tool :=
  [ {| name := "process_payment";
       func := PaymentAgent._process_payment;
       try_block := PaymentAgent.process_payment_body |};
    {| name := "refund_payment";
       func := PaymentAgent._process_refund;
       try_block := PaymentAgent.process_refund_body |};
    {| name := "get_transaction_status";
       func := PaymentAgent._get_transaction_status;
       try_block := PaymentAgent.get_transaction_status_body |} ].

Definition notification_tools : list Tool :=
  [ {| name := "send_notification";
       func := NotificationAgent._send_notification;
       try_block := NotificationAgent.send_notification_body |};
    {| name := "get_user_notifications";
       func := NotificationAgent._get_user_notifications;
       try_block := NotificationAgent.get_user_notifications_body |};
    {| name := "mark_notification_read";
       func := NotificationAgent._mark_notification_read;
       try_block := NotificationAgent.mark_notification_read_body |} ].

Definition all_tools : list Tool :=
  (search_tools ++ optimizer_tools ++ payment_tools ++ notification_tools)%list.

(** The error contract of a tool [t], at the payload [query] and in the
    state [st]: the tool returns (it raises nothing); what its [try]
    block returns it returns; an exception of the [try] block becomes
    the serialized error result that carries the exception's text, in
    the state the block had reached. *)
Definition error_contract (t : Tool) (query : string) (st : AgentState) : Prop :=
  (exists s st', func t query st = (Ok s, st')) /\
  (forall s st', try_block t query st = (Ok s, st') -> func t query st = (Ok s, st')) /\
  (forall e st',
      try_block t query st = (Raise e, st') ->
      func t query st = (Ok (json_dumps (error_result (str_exn e))), st')).

End Registry.

(* ================================================================== *)
(** * Part III. [base.py] and [agent_manager.py] *)
(* ================================================================== *)

(** ** [base.py]: the pydantic models *)

Record AgentInput : Type := { query : string; context : value }.
Record AgentOutput : Type := { output : string; metadata : value }.

(** An agent's [process] hands the query to a language-model planner;
    it is known here only by its type.  [W] is the state of everything
    the four agents can touch. *)
Definition Agent (W : Type) : Type := AgentInput -> ST W AgentOutput.

Record AgentManager (W : Type) : Type := { agents : list (string * Agent W) }.
Arguments agents {W} _.

Inductive loop_state : Type :=
| Continue (results context : dict)
| Break (results : dict).

Section Manager.
Context {RT : Runtime} {W : Type}.

(** [AgentManager.__init__] *)
Definition __init__ (search optimizer payment notification : Agent W) : AgentManager W :=
  {| agents := [("search", search); ("optimizer", optimizer);
                ("payment", payment); ("notification", notification)] |}.

(** [AgentInput(query=q, context=c)] *)
Definition AgentInput_new (q c : value) : res AgentInput :=
  match q, c with
  | VStr s, VDict _ | VStr s, VNone => Ok {| query := s; context := c |}
  | _, _ => p <- pydantic_coerce q c ;; Ok {| query := fst p; context := snd p |}
  end.

(** Lines 33-45: the agent is run inside [try]; an exception becomes an
    error result that names the agent. *)
Definition call_agent (agent : Agent W) (agent_name : value) (agent_input : AgentInput)
    : ST W value :=
  try_except_st
    (result <~ agent agent_input ;;
     ret (VDict [("status", VStr "success");
                 ("output", VStr (output result));
                 ("metadata", metadata result)]))
    (fun e => ret (VDict [("status", VStr "error");
                          ("message", VStr (str_exn e));
                          ("agent", agent_name)])).

Definition process (self : AgentManager W) (agent_name input_data : value) : ST W value :=
  present <~ lift (py_contains (agents self) agent_name) ;;
  if negb present
  then ret (VDict [("status", VStr "error");
                   ("message", VStr ("Agent '" ++ py_format agent_name ++ "' not found"))])
  else
    agent <~ lift (py_lookup (agents self) agent_name) ;;
    q <~ lift (py_get input_data "query" (VStr "")) ;;
    c <~ lift (py_get input_data "context" (VDict [])) ;;
    agent_input <~ lift (AgentInput_new q c) ;;
    call_agent agent agent_name agent_input.

Definition step_key (i : nat) : string := "step_" ++ string_of_nat i.

(** Lines 62-65: [step_input = step.get("input", {})], a [context] made
    if the input has none, and [step_input["context"].update(context)]. *)
Definition merge_context (step_input : value) (context : dict) : res value :=
  match step_input with
  | VDict d =>
      let d := if dict_mem "context" d then d else dict_set d "context" (VDict []) in
      match dict_get d "context" with
      | Some (VDict c) => Ok (VDict (dict_set d "context" (VDict (dict_update c context))))
      | Some _ => Raise (AttributeError "object has no attribute 'update'")
      | None => Raise (KeyError "context")
      end
  | _ => Raise (TypeError "the step's input is not a dict")
  end.

(** [context[agent_name] = result].  It is reached only after [process]
    found [agent_name] among the keys of [self.agents], which are
    strings. *)
Definition context_set (context : dict) (agent_name result : value) : res dict :=
  match agent_name with
  | VStr s => Ok (dict_set context s result)
  | _ => Raise (TypeError "the agent name is not a string")
  end.

(** The body of the [for] loop at index [i]. *)
Definition workflow_step (self : AgentManager W) (i : nat) (step : value)
    (results context : dict) : ST W loop_state :=
  agent_name <~ lift (py_get step "agent" VNone) ;;
  if negb (truthy agent_name)
  then ret (Continue (dict_set results (step_key i)
                        (VDict [("status", VStr "error");
                                ("message", VStr "No agent specified")]))
                     context)
  else
    step_input <~ lift (py_get step "input" (VDict [])) ;;
    step_input <~ lift (merge_context step_input context) ;;
    result <~ process self agent_name step_input ;;
    let results := dict_set results (step_key i) result in
    status <~ lift (py_get result "status" VNone) ;;
    if is_str status "error"
    then ret (Break (dict_set (dict_set results "status" (VStr "error"))
                              "failed_step" (VInt (Z.of_nat i))))
    else
      context <~ lift (context_set context agent_name result) ;;
      ret (Continue results context).

(** [for i, step in enumerate(workflow)], from index [i] on. *)
Fixpoint workflow_loop (self : AgentManager W) (i : nat) (workflow : list value)
    (results context : dict) : ST W dict :=
  match workflow with
  | [] => ret results
  | step :: rest =>
      s <~ workflow_step self i step results context ;;
      match s with
      | Break results => ret results
      | Continue results context => workflow_loop self (S i) rest results context
      end
  end.

Definition process_workflow (self : AgentManager W) (workflow : list value) : ST W value :=
  results <~ workflow_loop self 0 workflow [] [] ;;
  ret (VDict (if negb (dict_mem "status" results)
              then dict_set results "status" (VStr "success")
              else results)).

End Manager.

(** ** The agents' own [process]

    [SearchAgent.process], [OptimizerAgent.process],
    [PaymentAgent.process] and [NotificationAgent.process] are one and
    the same method.  The planner ([AgentExecutor.arun], which asks the
    language model and calls the tools) and its construction
    ([initialize_agent]) come from outside the repository: they are
    known by their types, and [X] is everything they act on. *)

Module BaseAgent.

Definition AgentExecutor (X : Type) : Type := string -> ST X string.

(** The attribute [self.agent] of the agent objects, kept by
    [self.name] (the four agents have four names), and the environment
    of the planner. *)
Record World (X : Type) : Type := {
  executors : list (string * AgentExecutor X);
  env : X
}.
Arguments executors {X} _.
Arguments env {X} _.

Record t (X : Type) : Type := {
  name : string;
  get_agent : ST X (AgentExecutor X)
}.
Arguments name {X} _.
Arguments get_agent {X} _.

Section Process.
Context {RT : Runtime} {X : Type}.

(** A computation of the planner, run in the world. *)
Definition in_env {A : Type} (m : ST X A) : ST (World X) A :=
  fun w => (fst (m (env w)),
            {| executors := executors w; env := snd (m (env w)) |}).

Fixpoint executors_set (d : list (string * AgentExecutor X)) (k : string)
    (v : AgentExecutor X) : list (string * AgentExecutor X) :=
  match d with
  | [] => [(k, v)]
  | (k', v') :: rest =>
      if String.eqb k' k then (k', v) :: rest else (k', v') :: executors_set rest k v
  end.

(** [self.agent = agent] *)
Definition set_agent (self : t X) (agent : AgentExecutor X) : ST (World X) unit :=
  fun w => (Ok tt, {| executors := executors_set (executors w) (name self) agent;
                      env := env w |}).

(** [process]: the executor is made on first use, outside the [try];
    the planner is given the query alone. *)
Definition process (self : t X) : Agent (World X) :=
  fun input_data =>
    w <~ get_state ;;
    agent <~ match dict_get (executors w) (name self) with
             | Some agent => ret agent
             | None =>
                 agent <~ in_env (get_agent self) ;;
                 set_agent self agent ;;;
                 ret agent
             end ;;
    try_except_st
      (result <~ in_env (agent (query input_data)) ;;
       ret {| output := result;
              metadata := VDict [("agent", VStr (name self))] |})
      (fun e =>
         ret {| output := "An error occurred: " ++ str_exn e;
                metadata := VDict [("agent", VStr (name self));
                                   ("error", VBool true)] |}).

(** [agent_manager = AgentManager()], with the four agents as their
    [__init__] names them. *)
Definition agent_manager (search optimizer payment notification : ST X (AgentExecutor X))
    : AgentManager (World X) :=
  __init__ (process {| name := "SearchAgent"; get_agent := search |})
           (process {| name := "OptimizerAgent"; get_agent := optimizer |})
           (process {| name := "PaymentAgent"; get_agent := payment |})
           (process {| name := "NotificationAgent"; get_agent := notification |}).

End Process.
End BaseAgent.

(** ** [schemas/agent.py]: the request models, and [models/user.py] *)

(** An [Optional] field in the result of [.dict()]. *)
Definition optional_dict (o : option dict) : value :=
  match o with
  | Some d => VDict d
  | None => VNone
  end.

Definition optional_str (o : option string) : value :=
  match o with
  | Some s => VStr s
  | None => VNone
  end.

Module AgentRequest.

Record t : Type := {
  query : string;
  context : option dict;
  parameters : option dict
}.

(** [request.dict()] *)
Definition dict (request : t) : value :=
  VDict [("query", VStr (query request));
         ("context", optional_dict (context request));
         ("parameters", optional_dict (parameters request))].

End AgentRequest.

Module WorkflowStep.

Record t : Type := {
  agent : string;
  input : AgentRequest.t;
  description : option string
}.

(** [step.dict()] *)
Definition dict (step : t) : value :=
  VDict [("agent", VStr (agent step));
         ("input", AgentRequest.dict (input step));
         ("description", optional_str (description step))].

End WorkflowStep.

Module WorkflowRequest.

Record t : Type := {
  steps : list WorkflowStep.t;
  context : option dict
}.

End WorkflowRequest.

(** The columns of [User] the endpoints read. *)
Module User.

Record t : Type := {
  id : Z;
  email : string;
  is_superuser : bool
}.

End User.

(** ** [api/api_v1/endpoints/agents.py] *)

Module Endpoints.

(** What a handler gives FastAPI: the body it returns, or the
    [HTTPException] it raises.  Any other exception is [Raise]. *)
Inductive response : Type :=
| Returned (body : value)
| HTTPException (status_code : Z) (detail : value).

Definition HTTP_400_BAD_REQUEST : Z := 400.

Section Agents.
Context {RT : Runtime} {W : Type}.
Variable agent_manager : AgentManager W.

(** [{"id": current_user.id, "email": ..., "is_superuser": ...}] *)
Definition user_info (current_user : User.t) : value :=
  VDict [("id", VInt (User.id current_user));
         ("email", VStr (User.email current_user));
         ("is_superuser", VBool (User.is_superuser current_user))].

(** [POST /{agent_name}] *)
Definition process_agent_request (agent_name : string) (request : AgentRequest.t)
    (current_user : User.t) : ST W response :=
  let context :=
    match AgentRequest.context request with
    | Some c => if truthy (VDict c) then c else []
    | None => []
    end in
  let context := dict_set context "user" (user_info current_user) in
  let request := {| AgentRequest.query := AgentRequest.query request;
                    AgentRequest.context := Some context;
                    AgentRequest.parameters := AgentRequest.parameters request |} in
  result <~ process agent_manager (VStr agent_name) (AgentRequest.dict request) ;;
  status <~ lift (py_getitem result "status") ;;
  if is_str status "error"
  then
    detail <~ lift (py_get result "message" (VStr "Error processing request")) ;;
    ret (HTTPException HTTP_400_BAD_REQUEST detail)
  else ret (Returned result).

(** Lines 55-60: [step_data = step.dict()], then the same three
    statements as in [process_workflow], on the step itself and with
    the user context. *)
Definition prepare_step (user_context : dict) (step : WorkflowStep.t) : res value :=
  merge_context (WorkflowStep.dict step) user_context.

(** [POST /workflow/execute] *)
Definition execute_workflow (workflow : WorkflowRequest.t) (current_user : User.t)
    : ST W response :=
  let user_context := [("user", user_info current_user)] in
  workflow_steps <~ lift (mapM (prepare_step user_context)
                               (WorkflowRequest.steps workflow)) ;;
  result <~ process_workflow agent_manager workflow_steps ;;
  status <~ lift (py_get result "status" VNone) ;;
  if is_str status "error"
  then
    detail <~ lift (py_get result "message" (VStr "Error executing workflow")) ;;
    ret (HTTPException HTTP_400_BAD_REQUEST detail)
  else ret (Returned result).

End Agents.

(** [GET /list] *)
Definition capabilities (description : string) (tools : list string) : value :=
  VDict [("description", VStr description);
         ("capabilities", VList (map VStr tools))].

Definition agents_info : dict :=
  [("search", capabilities "Search for travel options (flights, trains, etc.)"
                ["search_flights"; "search_trains"]);
   ("optimizer", capabilities "Optimize travel plans and make recommendations"
                   ["find_cheapest_option"; "find_fastest_option";
                    "recommend_based_on_preferences"]);
   ("payment", capabilities "Handle payment processing"
                 ["process_payment"; "refund_payment"; "get_transaction_status"]);
   ("notification", capabilities "Manage user notifications"
                      ["send_notification"; "get_user_notifications";
                       "mark_notification_read"])].

Definition list_agents : value :=
  VDict [("status", VStr "success"); ("agents", VDict agents_info)].

End Endpoints.

(** ** [api/api_v1/endpoints/bookings.py]: the requests to the agents

    The handlers work on the database; what they ask of the agents are
    these two dicts, handed to [agent_manager.process] under the names
    ["notification"] and ["payment"]. *)

Module Bookings.

(** Lines 59-67 and 199-207: the notification of [create_booking] and
    of [cancel_booking]. *)
Definition notification_request (user_id : Z) (title message : string) : value :=
  VDict [("query", VStr "send_notification");
         ("context", VDict [("user_id", VInt user_id);
                            ("title", VStr title);
                            ("message", VStr message);
                            ("notification_type", VStr "email")])].

(** Lines 178-184: the refund of [cancel_booking]. *)
Definition refund_request (payment_reference amount : value) : value :=
  VDict [("query", VStr "refund_payment");
         ("context", VDict [("transaction_id", payment_reference);
                            ("amount", amount)])].

End Bookings.

(* ================================================================== *)
(** * Part IV. Test doubles and example data *)
(* ================================================================== *)

(** A runtime and agents to run the model on concrete inputs: a codec
    that writes JSON text (without escapes) and reads back the texts of
    the values it is told about, a clock that advances by one second at
    every reading, and agents that answer with a canned text and keep a
    record of the inputs they were called with. *)

Module TestDouble.

Definition quote : string := String (ascii_of_nat 34) EmptyString.

Definition show_Z (z : Z) : string := NilZero.string_of_int (Z.to_int z).

Definition show_float (f : float) : string :=
  match Prim2SF f with
  | S754_nan => "NaN"
  | S754_infinity s => if s then "-Infinity" else "Infinity"
  | S754_zero s => if s then "-0.0" else "0.0"
  | S754_finite s m e =>
      (if s then "-" else "") ++ show_Z (Zpos m) ++ "p" ++ show_Z e
  end.

Fixpoint dumps (v : value) : string :=
  match v with
  | VNone => "null"
  | VBool b => if b then "true" else "false"
  | VInt z => show_Z z
  | VFloat f => show_float f
  | VStr s => quote ++ s ++ quote
  | VList l =>
      "[" ++ (fix items (l : list value) : string :=
                match l with
                | [] => ""
                | [x] => dumps x
                | x :: rest => dumps x ++ ", " ++ items rest
                end) l ++ "]"
  | VDict d =>
      "{" ++ (fix items (d : list (string * value)) : string :=
                match d with
                | [] => ""
                | [(k, x)] => quote ++ k ++ quote ++ ": " ++ dumps x
                | (k, x) :: rest => quote ++ k ++ quote ++ ": " ++ dumps x ++ ", " ++ items rest
                end) d ++ "}"
  end.

(** Reads the text of one of the values of [known]. *)
Definition loads (known : list value) (s : string) : res value :=
  match find (fun v => String.eqb (dumps v) s) known with
  | Some v => Ok v
  | None => Raise (JSONDecodeError "Expecting value")
  end.

Definition show_exn (e : exn) : string :=
  match e with
  | JSONDecodeError d | TypeError d | ValueError d | AttributeError d | KeyError d
  | OverflowError d | ZeroDivisionError d | ValidationError d
  | UnicodeEncodeError d | AgentFailure d => d
  end.

(** A standard output whose encoding is ASCII. *)
Definition is_ascii (s : string) : bool :=
  forallb (fun c => Nat.ltb (nat_of_ascii c) 128) (list_ascii_of_string s).

Definition ascii_stdout (line : string) : res unit :=
  if is_ascii line
  then Ok tt
  else Raise (UnicodeEncodeError "'ascii' codec can't encode character").

Definition runtime (known : list value) : Runtime := {|
  json_loads := loads known;
  json_dumps := dumps;
  str_exn := show_exn;
  py_repr := dumps;
  float_of_str := fun _ => Raise (ValueError "could not convert string to float");
  int_of_str := fun _ => Raise (ValueError "invalid literal for int()");
  py_lt_other := fun _ _ => Raise (TypeError "'<' not supported");
  py_eq := fun a b => String.eqb (dumps a) (dumps b);
  pydantic_coerce := fun _ _ => Raise (ValidationError "validation error for AgentInput");
  utcnow_isoformat := fun n => "2024-01-01T00:00:" ++ string_of_nat n;
  uuid4_hex16 := fun n => "token" ++ string_of_nat n;
  stdout_write := ascii_stdout
|}.

(** An agent that records its input and answers [answer]. *)
Definition recording_agent (name answer : string) : Agent (list (string * AgentInput)) :=
  fun input calls =>
    (Ok {| output := answer; metadata := VDict [("agent", VStr name)] |},
     (calls ++ [(name, input)])%list).

Definition manager : AgentManager (list (string * AgentInput)) :=
  __init__ (recording_agent "SearchAgent" "1 flight found")
           (recording_agent "OptimizerAgent" "flt_123 is the best option")
           (recording_agent "PaymentAgent" "payment processed")
           (recording_agent "NotificationAgent" "notification sent").

Definition empty_state : AgentState :=
  {| table := []; clock_reads := 0; uuid_draws := 0; stdout := [] |}.

End TestDouble.

Module Example.

Definition step (agent : string) (input : dict) : value :=
  VDict [("agent", VStr agent); ("input", VDict input)].

(** The workflow of the specification's scenario, with a step after the
    failing one. *)
Definition search_context : dict :=
  [("origin", VStr "A"); ("destination", VStr "B"); ("departure_date", VStr "2024-01-01")].
Definition search_step : value :=
  step "search" [("query", VStr "search_flights"); ("context", VDict search_context)].
Definition bad_step : value := step "badagent" [].
Definition bad_result : value :=
  VDict [("status", VStr "error"); ("message", VStr "Agent 'badagent' not found")].
(** The record of the test agents' calls once [search_step] has run. *)
Definition calls_after_search : list (string * AgentInput) :=
  [("SearchAgent", {| query := "search_flights"; context := VDict search_context |})].
Definition payment_step : value := step "payment" [("query", VStr "pay")].

(** A step without an agent name between two steps that succeed. *)
Definition nameless_step : value := VDict [("input", VDict [("query", VStr "?")])].
Definition optimizer_step : value := step "optimizer" [("query", VStr "cheapest")].
Definition optimizer_result : value :=
  VDict [("status", VStr "success");
         ("output", VStr "flt_123 is the best option");
         ("metadata", VDict [("agent", VStr "OptimizerAgent")])].

(** A step whose own context binds ["search"], after a step of the
    agent ["search"]. *)
Definition own_context : dict := [("search", VStr "mine"); ("budget", VInt 500)].
Definition colliding_step : value :=
  step "optimizer" [("query", VStr "cheapest"); ("context", VDict own_context)].
Definition search_result : value :=
  VDict [("status", VStr "success");
         ("output", VStr "1 flight found");
         ("metadata", VDict [("agent", VStr "SearchAgent")])].

(** Payloads of the payment and notification tools, the codec that
    knows their texts, and the states the tools reach on them from the
    empty state. *)
Definition payment_payload : value :=
  VDict [("amount", VFloat 299.99); ("payment_method", VStr "card");
         ("booking_reference", VStr "BK-1"); ("user_id", VStr "u1")].
Definition refund_payload : value := VDict [("transaction_id", VStr "txn_token0")].
Definition unknown_refund_payload : value := VDict [("transaction_id", VStr "txn_none")].
Definition send_payload : value :=
  VDict [("user_id", VStr "u1"); ("title", VStr "Booked");
         ("message", VStr "Your flight is booked")].
Definition mark_payload : value := VDict [("notification_id", VStr "notif_1")].

(** Payloads of the optimizer tools: the two prices of the
    specification's scenario, and two durations that differ by half a
    minute. *)
Definition flight (price : float) : value := VDict [("price", VFloat price)].
Definition two_prices : value :=
  VDict [("options", VList [flight 299.99; flight 150.0])].
Definition trip (minutes : float) : value := VDict [("duration_minutes", VFloat minutes)].
Definition two_durations : value :=
  VDict [("options", VList [trip 90.7; trip 90.2])].
Definition two_close_prices : value :=
  VDict [("options", VList [flight 90.7; flight 90.2])].
Definition free_option : value := VDict [("price", VInt 0); ("duration_minutes", VInt 0)].
Definition one_free_option : value := VDict [("options", VList [free_option])].

Definition direct : value :=
  VDict [("price", VFloat 299.99); ("duration_minutes", VFloat 120)].
Definition stopover : value :=
  VDict [("price", VFloat 150.0); ("duration_minutes", VFloat 300)].
Definition two_options : value := VDict [("options", VList [direct; stopover])].

Definition codec : Runtime :=
  TestDouble.runtime [payment_payload; refund_payload; unknown_refund_payload;
                      send_payload; mark_payload;
                      two_prices; two_durations; one_free_option; two_options;
                      two_close_prices].

Definition after_payment : AgentState :=
  snd (PaymentAgent._process_payment (RT := codec)
         (TestDouble.dumps payment_payload) TestDouble.empty_state).

Definition after_send : AgentState :=
  snd (NotificationAgent._send_notification (RT := codec)
         (TestDouble.dumps send_payload) TestDouble.empty_state).

End Example.

(** Further test data: a manager with an agent that raises, planners
    that count their runs, requests to the endpoints, and payloads of
    the tools with the codec that knows their texts. *)

Module Scenario.

(** A step whose input has the context [null]. *)
Definition null_context_step : value :=
  Example.step "payment" [("query", VStr "pay"); ("context", VNone)].

(** An agent that records its input and raises. *)
Definition failing_agent (name message : string) : Agent (list (string * AgentInput)) :=
  fun input calls => (Raise (AgentFailure message), (calls ++ [(name, input)])%list).

Definition flaky_manager : AgentManager (list (string * AgentInput)) :=
  __init__ (TestDouble.recording_agent "SearchAgent" "1 flight found")
           (TestDouble.recording_agent "OptimizerAgent" "flt_123 is the best option")
           (failing_agent "PaymentAgent" "card declined")
           (TestDouble.recording_agent "NotificationAgent" "notification sent").

(** Planners over an environment that counts their runs. *)
Definition refusing : BaseAgent.AgentExecutor nat :=
  fun _ runs => (Raise (AgentFailure "rate limit reached"), S runs).

Definition answering : BaseAgent.AgentExecutor nat :=
  fun q runs => (Ok ("done: " ++ q), S runs).

Definition no_key : ST nat (BaseAgent.AgentExecutor nat) :=
  fun runs => (Raise (AgentFailure "no API key"), runs).

Definition payment_agent : BaseAgent.t nat :=
  {| BaseAgent.name := "PaymentAgent"; BaseAgent.get_agent := no_key |}.

Definition fresh : BaseAgent.World nat :=
  {| BaseAgent.executors := []; BaseAgent.env := 0 |}.

Definition initialised : BaseAgent.World nat :=
  {| BaseAgent.executors := [("SearchAgent", answering); ("OptimizerAgent", answering);
                             ("PaymentAgent", refusing); ("NotificationAgent", refusing)];
     BaseAgent.env := 0 |}.

Definition agent_manager : AgentManager (BaseAgent.World nat) :=
  BaseAgent.agent_manager (RT := TestDouble.runtime []) no_key no_key no_key no_key.

Definition book_and_pay : list value :=
  [Example.step "search" [("query", VStr "find flights")];
   Example.step "payment" [("query", VStr "pay");
                           ("context", VDict [("amount", VInt 300)])];
   Example.step "notification" [("query", VStr "tell the user")]].

Definition book_and_pay_bare : list value :=
  [Example.step "search" [("query", VStr "find flights");
                          ("context", VDict [("budget", VInt 500)])];
   Example.step "payment" [("query", VStr "pay")];
   Example.step "notification" [("query", VStr "tell the user");
                                ("context", VDict [])]].

(** Requests to the endpoints. *)
Definition alice : User.t :=
  {| User.id := 7; User.email := "alice@example.org"; User.is_superuser := false |}.

Definition bob : User.t :=
  {| User.id := 8; User.email := "bob@example.org"; User.is_superuser := true |}.

Definition spoofed_request : AgentRequest.t :=
  {| AgentRequest.query := "find flights";
     AgentRequest.context := Some [("user", VStr "root"); ("budget", VInt 500)];
     AgentRequest.parameters := Some [] |}.

Definition request_step (agent query : string) (context : option dict)
    (description : option string) : WorkflowStep.t :=
  {| WorkflowStep.agent := agent;
     WorkflowStep.input := {| AgentRequest.query := query;
                              AgentRequest.context := context;
                              AgentRequest.parameters := Some [] |};
     WorkflowStep.description := description |}.

Definition alice_workflow : WorkflowRequest.t :=
  {| WorkflowRequest.steps := [request_step "search" "find flights" (Some []) None];
     WorkflowRequest.context := Some [] |}.

Definition bob_workflow : WorkflowRequest.t :=
  {| WorkflowRequest.steps :=
       [request_step "search" "find flights" (Some []) (Some "look for flights")];
     WorkflowRequest.context := Some [("trip", VStr "summer")] |}.

Definition failing_workflow : WorkflowRequest.t :=
  {| WorkflowRequest.steps := [request_step "teleport" "beam me up" (Some []) None];
     WorkflowRequest.context := Some [] |}.

Definition null_context_workflow : WorkflowRequest.t :=
  {| WorkflowRequest.steps := [request_step "search" "find flights" None None];
     WorkflowRequest.context := Some [] |}.

(** Payloads of the tools. *)
Definition list_payload : value := VDict [("user_id", VStr "u1")].

Definition option_at (id : string) (price : float) : value :=
  VDict [("id", VStr id); ("price", VFloat price)].

Definition tie_prices : value :=
  VDict [("options", VList [option_at "dear" 299.99; option_at "first" 150.0;
                            option_at "second" 150.0])].

Definition null_options : value := VDict [("options", VNone)].

(** An option with neither a price nor a duration, after one with a
    duration. *)
Definition bare_option : value := VDict [("id", VStr "x")].
Definition sparse_options : value :=
  VDict [("options", VList [VDict [("duration_minutes", VInt 90)]; bare_option])].

(** A payload that is JSON but not an object. *)
Definition bare_list : value := VList [VStr "flt_123"; VStr "flt_456"].

(** A notification whose title a standard output in ASCII cannot
    encode: the two bytes are the UTF-8 form of an accented e. *)
Definition e_acute : string := String "195"%char (String "169"%char "").
Definition accented_payload : value :=
  VDict [("user_id", VStr "u1");
         ("title", VStr ("R" ++ e_acute ++ "serv" ++ e_acute));
         ("message", VStr "Votre vol")].

(** Three more notifications, and two listings of the first user's:
    the newest unread one, and the newest two. *)
Definition sms_payload : value :=
  VDict [("user_id", VStr "u2"); ("title", VStr "Hello");
         ("message", VStr "Welcome"); ("notification_type", VStr "sms")].
Definition gate_payload : value :=
  VDict [("user_id", VStr "u1"); ("title", VStr "Gate");
         ("message", VStr "Gate B12"); ("notification_type", VStr "push")].
Definition delay_payload : value :=
  VDict [("user_id", VStr "u1"); ("title", VStr "Delay");
         ("message", VStr "30 minutes late")].
Definition newest_unread_payload : value :=
  VDict [("user_id", VStr "u1"); ("limit", VInt 1); ("unread_only", VBool true)].
Definition newest_two_payload : value :=
  VDict [("user_id", VStr "u1"); ("limit", VInt 2)].

(** Three options to rank: prices and durations are [int]s but for
    one price that is a float and one duration that is missing; with
    the default weights the first two have the same score. *)
Definition morning : value :=
  VDict [("id", VStr "a"); ("price", VInt 100); ("duration_minutes", VInt 120)].
Definition evening : value :=
  VDict [("id", VStr "b"); ("price", VInt 200); ("duration_minutes", VInt 60)].
Definition open_ticket : value :=
  VDict [("id", VStr "c"); ("price", VFloat 150.0)].
Definition rated_options : value :=
  VDict [("options", VList [morning; evening; open_ticket])].

Definition codec : Runtime :=
  TestDouble.runtime [Example.payment_payload; Example.refund_payload;
                      Example.send_payload; Example.mark_payload;
                      list_payload; tie_prices; null_options;
                      bare_list; accented_payload; sms_payload; gate_payload;
                      delay_payload; newest_unread_payload; newest_two_payload;
                      rated_options; sparse_options].

Definition send (payload : value) (st : AgentState) : AgentState :=
  snd (NotificationAgent._send_notification (RT := codec)
         (TestDouble.dumps payload) st).

Definition after_send : AgentState :=
  snd (NotificationAgent._send_notification (RT := codec)
         (TestDouble.dumps Example.send_payload) TestDouble.empty_state).

(** The store after four notifications were sent, the second one to
    another user, and the first one was marked as read; and the first
    user's three as the store then holds them. *)
Definition inbox : AgentState :=
  snd (NotificationAgent._mark_notification_read (RT := codec)
         (TestDouble.dumps Example.mark_payload)
         (send delay_payload (send gate_payload (send sms_payload after_send)))).

Definition booked_notification : value :=
  VDict [("notification_id", VStr "notif_1"); ("user_id", VStr "u1");
         ("title", VStr "Booked"); ("message", VStr "Your flight is booked");
         ("notification_type", VStr "email"); ("metadata", VDict []);
         ("is_read", VBool true); ("created_at", VStr "2024-01-01T00:00:0");
         ("read_at", VStr "2024-01-01T00:00:4")].
Definition gate_notification : value :=
  VDict [("notification_id", VStr "notif_3"); ("user_id", VStr "u1");
         ("title", VStr "Gate"); ("message", VStr "Gate B12");
         ("notification_type", VStr "push"); ("metadata", VDict []);
         ("is_read", VBool false); ("created_at", VStr "2024-01-01T00:00:2")].
Definition delay_notification : value :=
  VDict [("notification_id", VStr "notif_4"); ("user_id", VStr "u1");
         ("title", VStr "Delay"); ("message", VStr "30 minutes late");
         ("notification_type", VStr "email"); ("metadata", VDict []);
         ("is_read", VBool false); ("created_at", VStr "2024-01-01T00:00:3")].

Definition after_payment : AgentState :=
  snd (PaymentAgent._process_payment (RT := codec)
         (TestDouble.dumps Example.payment_payload) TestDouble.empty_state).

(** Each tool of an agent called once, in the order of the toolset. *)
Definition notification_calls : list (Tool * string) :=
  combine (notification_tools (RT := codec))
          [TestDouble.dumps Example.send_payload;
           TestDouble.dumps list_payload;
           TestDouble.dumps Example.mark_payload].

Definition payment_calls : list (Tool * string) :=
  combine (payment_tools (RT := codec))
          [TestDouble.dumps Example.payment_payload;
           TestDouble.dumps Example.refund_payload;
           TestDouble.dumps Example.refund_payload].

End Scenario.

(* ================================================================== *)
(** * Part V. Vocabulary of the properties *)
(* ================================================================== *)

Section WorkflowVocabulary.
Context {RT : Runtime} {W : Type}.

(** What the loop records for a step without an agent name. *)
Definition no_agent_result : value :=
  VDict [("status", VStr "error"); ("message", VStr "No agent specified")].

(** The step has no agent name: [not step.get("agent")]. *)
Definition lacks_agent (step : value) : Prop :=
  exists a, py_get step "agent" VNone = Ok a /\ truthy a = false.

(** The step names an agent, and [process], called in state [w] with the
    step's input merged with [context], returns [result] in state [w']. *)
Definition dispatches (self : AgentManager W) (step : value) (context : dict) (w : W)
    (agent_name result : value) (w' : W) : Prop :=
  exists step_input merged,
    py_get step "agent" VNone = Ok agent_name /\
    truthy agent_name = true /\
    py_get step "input" (VDict []) = Ok step_input /\
    merge_context step_input context = Ok merged /\
    process self agent_name merged w = (Ok result, w').

(** [result.get("status") == "error"] *)
Definition has_error_status (result : value) (b : bool) : Prop :=
  exists st, py_get result "status" VNone = Ok st /\ is_str st "error" = b.

(** [passes self i steps results context w results' context' w']: run
    from index [i] in the loop state [(results, context)] and the world
    [w], every step of [steps] either lacks an agent name or is
    dispatched and does not fail; the loop state is then
    [(results', context')] and the world [w']. *)
Inductive passes (self : AgentManager W) :
    nat -> list value -> dict -> dict -> W -> dict -> dict -> W -> Prop :=
| passes_nil i results context w :
    passes self i [] results context w results context w
| passes_no_agent i step rest results context w results' context' w' :
    lacks_agent step ->
    passes self (S i) rest (dict_set results (step_key i) no_agent_result) context w
           results' context' w' ->
    passes self i (step :: rest) results context w results' context' w'
| passes_success i step rest results context w agent_name result w1 context1
                 results' context' w' :
    dispatches self step context w agent_name result w1 ->
    has_error_status result false ->
    context_set context agent_name result = Ok context1 ->
    passes self (S i) rest (dict_set results (step_key i) result) context1 w1
           results' context' w' ->
    passes self i (step :: rest) results context w results' context' w'.

End WorkflowVocabulary.

(** Every stored transaction is a dict with an ["amount"], as
    [_process_payment] makes them. *)
Definition wf_transactions (transactions : dict) : Prop :=
  forall tid v,
    dict_get transactions tid = Some v ->
    exists txn amount, v = VDict txn /\ dict_get txn "amount" = Some amount.

Section ScoreVocabulary.
Context {RT : Runtime}.

(** The divisor the code uses for a float maximum [m]: [m or 1]. *)
Definition or_1 (m : float) : float :=
  if PrimFloat.eqb m 0%float then 1%float else m.

(** The score as the specification words it: [0] is substituted when
    the computed maximum is [0].  It differs from
    [OptimizerAgent.calculate_score] in that substitution only. *)
Definition spec_max_or_0 (field : string) (options : value) : res value :=
  opts <- py_iter options ;;
  m <- py_max_gen (fun opt => py_get opt field (VInt 0)) opts ;;
  Ok (if truthy m then m else VInt 0).

Definition spec_calculate_score (preferences options option : value) : res float :=
  let score := 0%float in
  price_weight <- py_get preferences "price_importance" (VFloat 0.5) ;;
  max_price <- spec_max_or_0 "price" options ;;
  price <- py_get option "price" (VInt 0) ;;
  price_ratio <- py_truediv price max_price ;;
  price_term <- py_float_mul (1 - price_ratio) price_weight ;;
  let score := (score + price_term)%float in
  duration_weight <- py_get preferences "duration_importance" (VFloat 0.5) ;;
  max_duration <- spec_max_or_0 "duration_minutes" options ;;
  duration <- py_get option "duration_minutes" (VInt 0) ;;
  duration_ratio <- py_truediv duration max_duration ;;
  duration_term <- py_float_mul (1 - duration_ratio) duration_weight ;;
  let score := (score + duration_term)%float in
  Ok score.

End ScoreVocabulary.

Section TableVocabulary.
Context {RT : Runtime}.

(** The state a successful refund of [amount] leaves. *)
Definition refunded (st : AgentState) (tid : string) (txn : dict) (amount : value)
    : AgentState :=
  {| table :=
       dict_set (table st) tid
         (VDict (dict_set
                   (dict_set
                      (dict_set txn "refund_id"
                                (VStr ("ref_" ++ uuid4_hex16 (uuid_draws st))%string))
                      "refund_amount" amount)
                   "refund_timestamp" (VStr (utcnow_isoformat (clock_reads st)))));
     clock_reads := S (clock_reads st);
     uuid_draws := S (uuid_draws st);
     stdout := stdout st |}.

(** The state [_mark_notification_read] leaves when it finds the
    notification [n] under [nid]. *)
Definition marked (st : AgentState) (nid : string) (n : dict) : AgentState :=
  {| table :=
       dict_set (table st) nid
         (VDict (dict_set (dict_set n "is_read" (VBool true))
                          "read_at" (VStr (utcnow_isoformat (clock_reads st)))));
     clock_reads := S (clock_reads st);
     uuid_draws := uuid_draws st;
     stdout := stdout st |}.

Definition marked_answer : string :=
  json_dumps (VDict [("status", VStr "success");
                     ("message", VStr "Notification marked as read")]).

End TableVocabulary.

(** The answer of the two selection tools. *)
Definition success_result (result : value) : value :=
  VDict [("status", VStr "success"); ("result", result)].

(** *** The order of binary64 numbers

    A float that is not NaN has a rank in the lexicographic order of
    [Z * Z * Z]: its class, then its exponent, then its mantissa. *)

Section FloatVocabulary.
Local Open Scope Z_scope.

Definition rank3 : Type := (Z * Z * Z)%type.

Definition SFrank (f : spec_float) : option rank3 :=
  match f with
  | S754_nan => None
  | S754_infinity true => Some (-2, 0, 0)
  | S754_finite true m e => Some (-1, - e, Zneg m)
  | S754_zero _ => Some (0, 0, 0)
  | S754_finite false m e => Some (1, e, Zpos m)
  | S754_infinity false => Some (2, 0, 0)
  end.

Definition lex_compare (a b : rank3) : comparison :=
  let '(a1, a2, a3) := a in
  let '(b1, b2, b3) := b in
  match a1 ?= b1 with
  | Eq => match a2 ?= b2 with
          | Eq => a3 ?= b3
          | c => c
          end
  | c => c
  end.

Definition lex_lt (a b : rank3) : Prop :=
  let '(a1, a2, a3) := a in
  let '(b1, b2, b3) := b in
  a1 < b1 \/ (a1 = b1 /\ (a2 < b2 \/ (a2 = b2 /\ a3 < b3))).

Definition lex_eq (a b : rank3) : Prop :=
  let '(a1, a2, a3) := a in
  let '(b1, b2, b3) := b in
  a1 = b1 /\ a2 = b2 /\ a3 = b3.

Definition float_rank (f : float) : option rank3 := SFrank (Prim2SF f).

(** [x == x]: the float is not NaN. *)
Definition not_nan (f : float) : Prop := PrimFloat.eqb f f = true.

End FloatVocabulary.

(** *** The order of numbers

    Python compares an [int] with a [float] exactly.  A number that is
    not NaN has a place on the line: its class ([-1] for [-inf], [1] for
    [+inf], [0] for a finite number) and, for a finite number, its value
    in units of [2^-1074], the least positive double. *)

Section NumVocabulary.
Local Open Scope Z_scope.

Definition place : Type := (Z * Z)%type.

Definition SFplace (f : spec_float) : option place :=
  match f with
  | S754_nan => None
  | S754_infinity s => Some (if s then -1 else 1, 0)
  | S754_zero _ => Some (0, 0)
  | S754_finite s m e => Some (0, (if s then Zneg m else Zpos m) * 2 ^ (e + 1074))
  end.

Definition num_place (n : num) : option place :=
  match n with
  | NInt z => Some (0, z * 2 ^ 1074)
  | NFloat f => SFplace (Prim2SF f)
  end.

Definition place_compare (a b : place) : comparison :=
  match fst a ?= fst b with
  | Eq => snd a ?= snd b
  | c => c
  end.

(** [a <= b] for two numbers *)
Definition num_leb (a b : num) : bool :=
  match num_compare a b with
  | Some Lt | Some Eq => true
  | _ => false
  end.

End NumVocabulary.

(** [v] is a number that is not NaN: an [int], a [bool], or a [float]
    with [v == v]. *)
Definition is_number (v : value) : Prop :=
  exists n, as_num v = Some n /\ num_compare n n = Some Eq.

(** [a <= b] for two values that are numbers *)
Definition value_leb (a b : value) : bool :=
  match as_num a, as_num b with
  | Some x, Some y => num_leb x y
  | _, _ => false
  end.

(** [v == 0] for a number *)
Definition is_zero (v : value) : bool :=
  match as_num v with
  | Some n => match num_compare n (NInt 0) with
              | Some Eq => true
              | _ => false
              end
  | None => false
  end.

(** The divisor of the score: the maximum [m], and [1] when it is [0]. *)
Definition value_or_1 (m : value) : value := if is_zero m then VInt 1 else m.

(** The float a number is multiplied as: itself, or [float(v)] of an
    [int] or a [bool] in the range of a double. *)
Definition number_to_float (v : value) : option float :=
  match as_num v with
  | Some n => match num_to_float n with
              | Ok f => Some f
              | Raise _ => None
              end
  | None => None
  end.

(** In a list sorted in descending order [x] may come before [y]: the
    key of [y] is [<=] the key of [x]. *)
Definition before {K A : Type} (leb : K -> K -> bool) (x y : K * A) : Prop :=
  leb (fst y) (fst x) = true.

(** ** Vocabulary of the agents' [process] and of the endpoints *)

(** The input of a step or of a request as a client with a valid
    payload sends it: the query is text or absent, the context a dict
    or absent. *)
Definition plain_input (d : dict) : Prop :=
  (dict_get d "query" = None \/ exists q, dict_get d "query" = Some (VStr q)) /\
  (dict_get d "context" = None \/ exists c, dict_get d "context" = Some (VDict c)).

(** Two steps that name the same agent and carry the same query. *)
Definition same_request (step1 step2 : value) : Prop :=
  py_get step1 "agent" VNone = py_get step2 "agent" VNone /\
  exists d1 d2,
    py_get step1 "input" (VDict []) = Ok (VDict d1) /\
    py_get step2 "input" (VDict []) = Ok (VDict d2) /\
    dict_get d1 "query" = dict_get d2 "query" /\
    plain_input d1 /\ plain_input d2.

(** The agent's answer and effect do not depend on the context of its
    input. *)
Definition ignores_context {W : Type} (agent : Agent W) : Prop :=
  forall q c1 c2 w,
    agent {| query := q; context := c1 |} w = agent {| query := q; context := c2 |} w.

(** A step for one of the manager's agents, with a plain input. *)
Definition registered_step {W : Type} (self : AgentManager W) (step : value) : Prop :=
  exists k d,
    py_get step "agent" VNone = Ok (VStr k) /\
    dict_mem k (agents self) = true /\
    py_get step "input" (VDict []) = Ok (VDict d) /\
    plain_input d.

(** The names the four agents give themselves. *)
Definition agent_names : list string :=
  ["SearchAgent"; "OptimizerAgent"; "PaymentAgent"; "NotificationAgent"].

(** Every agent has made its executor. *)
Definition all_initialised {X : Type} (w : BaseAgent.World X) : Prop :=
  forall nm, In nm agent_names -> dict_mem nm (BaseAgent.executors w) = true.

(** ** Vocabulary of the tools' stores *)

(** The calls a planner makes: tools, each with its payload, run one
    after the other on the agent's state. *)
Definition run_tools (calls : list (Tool * string)) (st : AgentState) : AgentState :=
  fold_left (fun st call => snd (func (fst call) (snd call) st)) calls st.

Definition notification_key (n : nat) : string := "notif_" ++ string_of_nat n.

Section StoreVocabulary.
Context {RT : Runtime}.

(** The notification [_send_notification] makes of the payload [data]
    in the state [st], the line it prints, and the state it leaves. *)
Definition get_or (data : dict) (k : string) (default : value) : value :=
  match dict_get data k with
  | Some v => v
  | None => default
  end.

Definition sent_notification (st : AgentState) (data : dict) : value :=
  VDict [("notification_id", VStr (notification_key (List.length (table st) + 1)));
         ("user_id", get_or data "user_id" VNone);
         ("title", get_or data "title" VNone);
         ("message", get_or data "message" VNone);
         ("notification_type", get_or data "notification_type" (VStr "email"));
         ("metadata", get_or data "metadata" (VDict []));
         ("is_read", VBool false);
         ("created_at", VStr (utcnow_isoformat (clock_reads st)))].

Definition sent_line (data : dict) : string :=
  let title := py_format (get_or data "title" VNone) in
  let message := py_format (get_or data "message" VNone) in
  let notification_type := get_or data "notification_type" (VStr "email") in
  if is_str notification_type "email" then "[EMAIL] " ++ title ++ newline ++ message
  else if is_str notification_type "sms" then "[SMS] " ++ message
  else "[PUSH] " ++ title ++ ": " ++ message.

Definition sent (st : AgentState) (data : dict) : AgentState :=
  {| table := dict_set (table st)
                       (notification_key (List.length (table st) + 1))
                       (sent_notification st data);
     clock_reads := S (clock_reads st);
     uuid_draws := uuid_draws st;
     stdout := (stdout st ++ [sent_line data])%list |}.

(** The state [_send_notification] leaves when the write to the
    standard output raises: the clock was read, nothing was printed and
    nothing was stored. *)
Definition unsent (st : AgentState) : AgentState :=
  {| table := table st;
     clock_reads := S (clock_reads st);
     uuid_draws := uuid_draws st;
     stdout := stdout st |}.

Definition sent_answer (st : AgentState) : string :=
  json_dumps (VDict [("status", VStr "success");
                     ("notification_id",
                      VStr (notification_key (List.length (table st) + 1)));
                     ("message", VStr "Notification sent successfully")]).

(** [n["user_id"] == user_id] and [not n["is_read"]], for a stored
    notification. *)
Definition is_of_user (user_id n : value) : bool :=
  match py_getitem n "user_id" with
  | Ok u => py_eq u user_id
  | Raise _ => false
  end.

Definition unread_flag (n : value) : bool :=
  match py_getitem n "is_read" with
  | Ok r => negb (truthy r)
  | Raise _ => false
  end.

(** The transaction [_process_payment] makes of the payload [data] in
    the state [st], and the state it leaves. *)
Definition paid_transaction (st : AgentState) (data : dict) : dict :=
  [("transaction_id", VStr ("txn_" ++ uuid4_hex16 (uuid_draws st)));
   ("amount", get_or data "amount" VNone);
   ("currency", get_or data "currency" (VStr "USD"));
   ("status", VStr "completed");
   ("payment_method", get_or data "payment_method" VNone);
   ("booking_reference", get_or data "booking_reference" VNone);
   ("user_id", get_or data "user_id" VNone);
   ("timestamp", VStr (utcnow_isoformat (clock_reads st)))].

Definition paid (st : AgentState) (data : dict) : AgentState :=
  {| table := dict_set (table st) ("txn_" ++ uuid4_hex16 (uuid_draws st))
                       (VDict (paid_transaction st data));
     clock_reads := S (clock_reads st);
     uuid_draws := S (uuid_draws st);
     stdout := stdout st |}.

Definition paid_answer (st : AgentState) : string :=
  json_dumps (VDict [("status", VStr "success");
                     ("transaction_id", VStr ("txn_" ++ uuid4_hex16 (uuid_draws st)));
                     ("message", VStr "Payment processed successfully")]).

End StoreVocabulary.

(** A notification as the tools store it under [id]. *)
Definition stored_notification (id : string) (v : value) : Prop :=
  exists n user_id is_read created_at,
    v = VDict n /\
    dict_get n "notification_id" = Some (VStr id) /\
    dict_get n "user_id" = Some user_id /\
    dict_get n "is_read" = Some (VBool is_read) /\
    dict_get n "created_at" = Some (VStr created_at).

(** The store of the notification agent: the ids are [notif_1],
    [notif_2], ... in the order of their making, and every notification
    is stored under its own id. *)
Definition wf_notifications (notifications : dict) : Prop :=
  dict_keys notifications = map notification_key (seq 1 (List.length notifications)) /\
  forall id v, dict_get notifications id = Some v -> stored_notification id v.

(** A transaction as the tools store it under [tid]. *)
Definition stored_transaction (tid : string) (v : value) : Prop :=
  exists txn amount,
    v = VDict txn /\
    dict_get txn "transaction_id" = Some (VStr tid) /\
    dict_get txn "status" = Some (VStr "completed") /\
    dict_get txn "amount" = Some amount.

Definition all_stored (transactions : dict) : Prop :=
  forall tid v, dict_get transactions tid = Some v -> stored_transaction tid v.

(** The order in which [sort] puts the [created_at] texts of stored
    notifications. *)
Definition text_ltb (a b : value) : bool :=
  match a, b with
  | VStr s, VStr t => String.ltb s t
  | _, _ => false
  end.

Definition text_leb (a b : value) : bool :=
  match a, b with
  | VStr s, VStr t => String.leb s t
  | _, _ => false
  end.

Definition is_text (v : value) : Prop := exists s, v = VStr s.

(** [n["created_at"]] of a stored notification. *)
Definition created_at (n : value) : value :=
  match py_getitem n "created_at" with
  | Ok v => v
  | Raise _ => VNone
  end.

(** In a listing, [x] may come before [y]: [x] is not older. *)
Definition not_older (x y : value) : Prop :=
  text_leb (created_at y) (created_at x) = true.

(** A computation that leaves the state as it was. *)
Definition read_only {S A : Type} (m : ST S A) : Prop := forall s, snd (m s) = s.

(* ================================================================== *)
(** * Part VI. Properties *)
(* ================================================================== *)

Local Open Scope list_scope.
Local Abbreviation length := List.length.

(** ** Dictionaries *)

Section DictFacts.
Context {V : Type}.
Implicit Types (d : list (string * V)) (k : string).

Lemma dict_get_app d1 d2 k :
  dict_get (d1 ++ d2) k =
  match dict_get d1 k with Some v => Some v | None => dict_get d2 k end.
Proof.
  induction d1 as [|[k' v'] d1 IH]; simpl; [reflexivity|].
  destruct (String.eqb k' k); [reflexivity | exact IH].
Qed.

Lemma dict_get_None d k : dict_get d k = None <-> ~ In k (map fst d).
Proof.
  induction d as [|[k' v'] d IH]; simpl.
  - tauto.
  - destruct (String.eqb_spec k' k) as [->|Hne].
    + split; [discriminate | intros H; exfalso; apply H; now left].
    + rewrite IH. split; [intros H [E|I]; [congruence | tauto] | tauto].
Qed.

Lemma dict_get_In d k v : dict_get d k = Some v -> In (k, v) d.
Proof.
  induction d as [|[k' v'] d IH]; simpl; [discriminate|].
  destruct (String.eqb_spec k' k) as [->|Hne].
  - intros [= ->]. now left.
  - intros H. right. now apply IH.
Qed.

Lemma In_dict_get d k v :
  NoDup (map fst d) -> In (k, v) d -> dict_get d k = Some v.
Proof.
  induction d as [|[k' v'] d IH]; simpl; [tauto|].
  intros Hnd [E|I]; inversion Hnd as [|? ? Hnotin Hnd']; subst.
  - inversion E; subst. now rewrite String.eqb_refl.
  - destruct (String.eqb_spec k' k) as [->|Hne].
    + exfalso. apply Hnotin. change k with (fst (k, v)). now apply in_map.
    + now apply IH.
Qed.

Lemma dict_get_rev d k :
  NoDup (map fst d) -> dict_get (rev d) k = dict_get d k.
Proof.
  intros Hnd.
  assert (Hnd' : NoDup (map fst (rev d))).
  { rewrite map_rev. apply NoDup_rev. exact Hnd. }
  destruct (dict_get d k) as [v|] eqn:E.
  - apply In_dict_get; [exact Hnd'|]. apply in_rev. rewrite rev_involutive.
    now apply dict_get_In.
  - apply dict_get_None. rewrite map_rev, <- in_rev. now apply dict_get_None.
Qed.

Lemma dict_mem_true d k : dict_mem k d = true <-> In k (map fst d).
Proof.
  unfold dict_mem. destruct (dict_get d k) eqn:E.
  - split; [intros _ | reflexivity].
    apply dict_get_In in E. change k with (fst (k, v)). now apply in_map.
  - split; [discriminate|]. intros I. apply dict_get_None in E. contradiction.
Qed.

Lemma dict_mem_false d k : dict_mem k d = false <-> ~ In k (map fst d).
Proof.
  rewrite <- dict_mem_true. destruct (dict_mem k d); split; congruence.
Qed.

End DictFacts.

Lemma dict_get_set_eq (d : dict) k v : dict_get (dict_set d k v) k = Some v.
Proof.
  induction d as [|[k' v'] d IH]; simpl.
  - now rewrite String.eqb_refl.
  - destruct (String.eqb k' k) eqn:E; simpl; rewrite E; [reflexivity | exact IH].
Qed.

Lemma dict_get_set_neq (d : dict) k k' v :
  k' <> k -> dict_get (dict_set d k v) k' = dict_get d k'.
Proof.
  intros Hne. induction d as [|[k0 v0] d IH]; simpl.
  - destruct (String.eqb_spec k k'); [congruence | reflexivity].
  - destruct (String.eqb_spec k0 k) as [->|Hk]; simpl.
    + destruct (String.eqb_spec k k'); [congruence | reflexivity].
    + destruct (String.eqb k0 k'); [reflexivity | exact IH].
Qed.

Lemma dict_keys_set_new (d : dict) k v :
  ~ In k (dict_keys d) -> dict_keys (dict_set d k v) = dict_keys d ++ [k].
Proof.
  unfold dict_keys. induction d as [|[k' v'] d IH]; simpl; [reflexivity|].
  intros Hnotin. destruct (String.eqb_spec k' k) as [->|Hne].
  - exfalso. apply Hnotin. now left.
  - simpl. f_equal. apply IH. tauto.
Qed.

Lemma dict_keys_set_old (d : dict) k v :
  In k (dict_keys d) -> dict_keys (dict_set d k v) = dict_keys d.
Proof.
  unfold dict_keys. induction d as [|[k' v'] d IH]; simpl; [tauto|].
  intros Hin. destruct (String.eqb_spec k' k) as [->|Hne]; simpl; [reflexivity|].
  f_equal. apply IH. destruct Hin; [contradiction | assumption].
Qed.

Lemma dict_set_NoDup (d : dict) k v :
  NoDup (dict_keys d) -> NoDup (dict_keys (dict_set d k v)).
Proof.
  intros Hnd. destruct (in_dec string_dec k (dict_keys d)) as [Hin|Hnotin].
  - now rewrite dict_keys_set_old.
  - rewrite dict_keys_set_new by assumption.
    apply NoDup_app; [exact Hnd | repeat constructor; simpl; tauto |].
    intros x Hx [<-|[]]. contradiction.
Qed.

(** What [d.update(other)] leaves under a key: the binding of [other]
    when it has one, the binding of [d] otherwise. *)
Lemma dict_get_update_rev (d other : dict) k :
  dict_get (dict_update d other) k =
  match dict_get (rev other) k with
  | Some v => Some v
  | None => dict_get d k
  end.
Proof.
  unfold dict_update. revert d.
  induction other as [|[k0 v0] other IH]; intros d; simpl; [reflexivity|].
  rewrite IH, dict_get_app. destruct (dict_get (rev other) k); [reflexivity|].
  simpl. destruct (String.eqb_spec k0 k) as [->|Hne].
  - apply dict_get_set_eq.
  - apply dict_get_set_neq. congruence.
Qed.

Lemma dict_get_update (d other : dict) k :
  NoDup (dict_keys other) ->
  dict_get (dict_update d other) k =
  match dict_get other k with
  | Some v => Some v
  | None => dict_get d k
  end.
Proof.
  intros Hnd. rewrite dict_get_update_rev, dict_get_rev by exact Hnd. reflexivity.
Qed.

(** ** Step keys *)

Lemma string_of_nat_inj (i j : nat) : string_of_nat i = string_of_nat j -> i = j.
Proof.
  unfold string_of_nat. intros H.
  apply Unsigned.to_uint_inj.
  assert (E : forall d, NilEmpty.uint_of_string (NilEmpty.string_of_uint d) = Some d)
    by apply NilEmpty.usu.
  pose proof (E (Nat.to_uint i)) as Ei. pose proof (E (Nat.to_uint j)) as Ej.
  rewrite H in Ei. congruence.
Qed.

Lemma step_key_inj (i j : nat) : step_key i = step_key j -> i = j.
Proof.
  unfold step_key. simpl. intros H. injection H as H. now apply string_of_nat_inj.
Qed.

Lemma step_key_not_status (i : nat) : step_key i <> "status"%string.
Proof. unfold step_key. simpl. discriminate. Qed.

Lemma step_key_not_failed_step (i : nat) : step_key i <> "failed_step"%string.
Proof. unfold step_key. simpl. discriminate. Qed.

Lemma step_key_fresh (i : nat) : ~ In (step_key i) (map step_key (seq 0 i)).
Proof.
  intros H. apply in_map_iff in H as (j & E & Hj).
  apply step_key_inj in E. subst j. apply in_seq in Hj. lia.
Qed.

Lemma status_not_step_key (n : nat) : ~ In "status"%string (map step_key (seq 0 n)).
Proof.
  intros H. apply in_map_iff in H as (j & E & _). now apply step_key_not_status in E.
Qed.

Lemma failed_step_not_step_key (n : nat) :
  ~ In "failed_step"%string (map step_key (seq 0 n)).
Proof.
  intros H. apply in_map_iff in H as (j & E & _). now apply step_key_not_failed_step in E.
Qed.

(** ** The dispatcher *)

Section ManagerFacts.
Context {RT : Runtime} {W : Type}.
Implicit Types (self : AgentManager W) (w : W).

Ltac st := unfold bind_st, lift, ret, try_except_st in *; simpl in *.

(** C3. An agent name that is not a key of the registry: [process]
    returns the structured error that names it, raises nothing and
    leaves the world as it was (no agent ran), whatever the input. *)
Theorem process_unknown_agent self (name : string) (input_data : value) w :
  dict_mem name (agents self) = false ->
  process self (VStr name) input_data w =
  (Ok (VDict [("status", VStr "error");
              ("message", VStr ("Agent '" ++ name ++ "' not found")%string)]),
   w).
Proof.
  intros Hmem. unfold process. st. rewrite Hmem. reflexivity.
Qed.

(** [process] gives a non-error status only for a registered name, which
    is a string: so [context_set] never meets another key. *)
Lemma process_success_name self agent_name input_data w result w' :
  process self agent_name input_data w = (Ok result, w') ->
  has_error_status result false ->
  exists name, agent_name = VStr name /\ dict_mem name (agents self) = true.
Proof.
  unfold process. st. intros H (stv & Hst & Herr).
  destruct agent_name; simpl in H;
    try (inversion H; subst; simpl in Hst; inversion Hst; subst; discriminate);
    try discriminate.
  destruct (dict_mem s (agents self)) eqn:E; simpl in H.
  - eauto.
  - inversion H; subst. simpl in Hst. inversion Hst; subst. discriminate.
Qed.

(** *** One turn of the loop *)

#[local] Arguments process : simpl never.

Lemma workflow_step_no_agent self i step results context w :
  lacks_agent step ->
  workflow_step self i step results context w =
  (Ok (Continue (dict_set results (step_key i) no_agent_result) context), w).
Proof.
  intros (a & Ha & Hfalsy). unfold workflow_step. st.
  rewrite Ha; simpl. rewrite Hfalsy. reflexivity.
Qed.

Lemma workflow_step_success self i step results context w agent_name result w1 context1 :
  dispatches self step context w agent_name result w1 ->
  has_error_status result false ->
  context_set context agent_name result = Ok context1 ->
  workflow_step self i step results context w =
  (Ok (Continue (dict_set results (step_key i) result) context1), w1).
Proof.
  intros (si & merged & Ha & Htruthy & Hin & Hmerge & Hproc) (stv & Hst & Herr) Hctx.
  unfold workflow_step. st.
  rewrite Ha; simpl. rewrite Htruthy; simpl. rewrite Hin; simpl.
  rewrite Hmerge; simpl. rewrite Hproc; simpl. rewrite Hst; simpl.
  rewrite Herr; simpl. rewrite Hctx. reflexivity.
Qed.

Lemma workflow_step_error self i step results context w agent_name result w1 :
  dispatches self step context w agent_name result w1 ->
  has_error_status result true ->
  workflow_step self i step results context w =
  (Ok (Break (dict_set (dict_set (dict_set results (step_key i) result)
                                 "status" (VStr "error"))
                       "failed_step" (VInt (Z.of_nat i)))),
   w1).
Proof.
  intros (si & merged & Ha & Htruthy & Hin & Hmerge & Hproc) (stv & Hst & Herr).
  unfold workflow_step. st.
  rewrite Ha; simpl. rewrite Htruthy; simpl. rewrite Hin; simpl.
  rewrite Hmerge; simpl. rewrite Hproc; simpl. rewrite Hst; simpl.
  rewrite Herr. reflexivity.
Qed.

Lemma lacks_agent_not_dispatched self step context w agent_name result w1 :
  lacks_agent step -> dispatches self step context w agent_name result w1 -> False.
Proof.
  intros (a & Ha & Hfalsy) (si & merged & Ha' & Htruthy & _). congruence.
Qed.

(** *** The loop over steps that pass *)

Lemma passes_loop self i steps results context w results' context' w' :
  passes self i steps results context w results' context' w' ->
  forall rest,
    workflow_loop self i (steps ++ rest) results context w =
    workflow_loop self (length steps + i) rest results' context' w'.
Proof.
  induction 1 as [| i step steps results context w results' context' w' Hlack _ IH
                  | i step steps results context w agent_name result w1 context1
                      results' context' w' Hdisp Hok Hctx _ IH];
    intros rest; simpl.
  - reflexivity.
  - unfold bind_st at 1. rewrite (workflow_step_no_agent self i _ _ _ _ Hlack).
    rewrite IH. f_equal. lia.
  - unfold bind_st at 1.
    rewrite (workflow_step_success self i _ _ _ _ _ _ _ _ Hdisp Hok Hctx).
    rewrite IH. f_equal. lia.
Qed.

Lemma passes_keys self i steps results context w results' context' w' :
  passes self i steps results context w results' context' w' ->
  dict_keys results = map step_key (seq 0 i) ->
  dict_keys results' = map step_key (seq 0 (length steps + i)).
Proof.
  assert (Hnext : forall i (r : dict) v,
             dict_keys r = map step_key (seq 0 i) ->
             dict_keys (dict_set r (step_key i) v) = map step_key (seq 0 (S i))).
  { intros j r v Hr. rewrite dict_keys_set_new.
    - rewrite Hr, seq_S, map_app. reflexivity.
    - rewrite Hr. apply step_key_fresh. }
  induction 1 as [| i step steps results context w results' context' w' _ _ IH
                  | i step steps results context w agent_name result w1 context1
                      results' context' w' _ _ _ _ IH];
    intros Hkeys.
  - exact Hkeys.
  - replace (length (step :: steps) + i) with (length steps + S i) by (simpl; lia).
    apply IH, Hnext, Hkeys.
  - replace (length (step :: steps) + i) with (length steps + S i) by (simpl; lia).
    apply IH, Hnext, Hkeys.
Qed.

(** Entries recorded before index [i] are not touched afterwards. *)
Lemma passes_keeps self i steps results context w results' context' w' :
  passes self i steps results context w results' context' w' ->
  forall j, j < i -> dict_get results' (step_key j) = dict_get results (step_key j).
Proof.
  induction 1 as [| i step steps results context w results' context' w' _ _ IH
                  | i step steps results context w agent_name result w1 context1
                      results' context' w' _ _ _ _ IH];
    intros j Hj.
  - reflexivity.
  - rewrite IH by lia. apply dict_get_set_neq.
    intros E. apply step_key_inj in E. lia.
  - rewrite IH by lia. apply dict_get_set_neq.
    intros E. apply step_key_inj in E. lia.
Qed.

Lemma passes_no_agent_entry self i steps results context w results' context' w' :
  passes self i steps results context w results' context' w' ->
  forall j step,
    nth_error steps j = Some step -> lacks_agent step ->
    dict_get results' (step_key (i + j)) = Some no_agent_result.
Proof.
  induction 1 as [| i step steps results context w results' context' w' Hlack Hrest IH
                  | i step steps results context w agent_name result w1 context1
                      results' context' w' Hdisp _ _ Hrest IH];
    intros j s Hnth Hs.
  - destruct j; discriminate.
  - destruct j as [|j]; simpl in Hnth.
    + rewrite Nat.add_0_r.
      rewrite (passes_keeps _ _ _ _ _ _ _ _ _ Hrest i) by lia.
      apply dict_get_set_eq.
    + replace (i + S j) with (S i + j) by lia. eapply IH; eassumption.
  - destruct j as [|j]; simpl in Hnth.
    + inversion Hnth; subst s. exfalso.
      eapply lacks_agent_not_dispatched; eassumption.
    + replace (i + S j) with (S i + j) by lia. eapply IH; eassumption.
Qed.

Lemma passes_context_NoDup self i steps results context w results' context' w' :
  passes self i steps results context w results' context' w' ->
  NoDup (dict_keys context) -> NoDup (dict_keys context').
Proof.
  induction 1 as [| i step steps results context w results' context' w' _ _ IH
                  | i step steps results context w agent_name result w1 context1
                      results' context' w' _ _ Hctx _ IH];
    intros Hnd; auto.
  apply IH. destruct agent_name; simpl in Hctx; try discriminate.
  inversion Hctx; subst. now apply dict_set_NoDup.
Qed.

(** *** Fail-fast *)

(** C1. The steps before index [k] pass, the step at [k] is dispatched
    and [process] returns a result with status ["error"]: the workflow
    stops there.  The result has one entry per index [0..k], in order,
    followed by the overall status ["error"] and the failing index [k];
    the world is the one [process] left at step [k], and the outcome is
    that of the workflow cut after step [k], so nothing after [k] was
    attempted. *)
Theorem fail_fast self pre step post w0 results context w1 agent_name result w2 :
  passes self 0 pre [] [] w0 results context w1 ->
  dispatches self step context w1 agent_name result w2 ->
  has_error_status result true ->
  post <> [] ->
  exists final,
    process_workflow self (pre ++ step :: post) w0 = (Ok (VDict final), w2) /\
    dict_keys final =
      map step_key (seq 0 (S (length pre))) ++ ["status"; "failed_step"]%string /\
    dict_get final (step_key (length pre)) = Some result /\
    dict_get final "status" = Some (VStr "error") /\
    dict_get final "failed_step" = Some (VInt (Z.of_nat (length pre))) /\
    process_workflow self (pre ++ [step]) w0 = (Ok (VDict final), w2).
Proof.
  intros Hpre Hdisp Herr _.
  set (k := length pre).
  set (r1 := dict_set results (step_key k) result).
  set (r2 := dict_set r1 "status" (VStr "error")).
  set (final := dict_set r2 "failed_step" (VInt (Z.of_nat k))).
  assert (Hkeys0 : dict_keys results = map step_key (seq 0 k)).
  { pose proof (passes_keys _ _ _ _ _ _ _ _ _ Hpre eq_refl) as H.
    now rewrite Nat.add_0_r in H. }
  assert (Hkeys1 : dict_keys r1 = map step_key (seq 0 (S k))).
  { unfold r1. rewrite dict_keys_set_new.
    - rewrite Hkeys0, seq_S, map_app. reflexivity.
    - rewrite Hkeys0. apply step_key_fresh. }
  assert (Hkeys2 : dict_keys r2 = map step_key (seq 0 (S k)) ++ ["status"%string]).
  { unfold r2. rewrite dict_keys_set_new; [now rewrite Hkeys1|].
    rewrite Hkeys1. apply status_not_step_key. }
  assert (Hfs : ~ In "failed_step"%string (dict_keys r2)).
  { rewrite Hkeys2. intros H. apply in_app_or in H as [H|[H|[]]].
    - now apply failed_step_not_step_key in H.
    - discriminate. }
  assert (Hstatus : dict_get final "status" = Some (VStr "error")).
  { unfold final. rewrite dict_get_set_neq by discriminate. apply dict_get_set_eq. }
  assert (Hrun : forall rest,
             process_workflow self (pre ++ step :: rest) w0 = (Ok (VDict final), w2)).
  { intros rest. unfold process_workflow, bind_st.
    rewrite (passes_loop _ _ _ _ _ _ _ _ _ Hpre (step :: rest)).
    simpl workflow_loop. unfold bind_st.
    rewrite (workflow_step_error _ _ _ _ _ _ _ _ _ Hdisp Herr).
    unfold ret. rewrite Nat.add_0_r. fold k r1 r2 final.
    unfold dict_mem. rewrite Hstatus. reflexivity. }
  exists final. repeat split.
  - apply Hrun.
  - unfold final. rewrite dict_keys_set_new by exact Hfs.
    rewrite Hkeys2, <- app_assoc. reflexivity.
  - unfold final, r2, r1.
    rewrite dict_get_set_neq by apply step_key_not_failed_step.
    rewrite dict_get_set_neq by apply step_key_not_status.
    apply dict_get_set_eq.
  - exact Hstatus.
  - apply dict_get_set_eq.
  - apply Hrun.
Qed.

(** *** A step without an agent name *)

(** C4. A step without an agent name makes the loop record the error
    ["No agent specified"] under [step_<i>] and go on with the next step,
    in the same context and world.  And when every step of a workflow
    either lacks an agent name or is dispatched without failing, the
    result has an entry for every index, the entry of a nameless step
    is that error record, and the overall status is ["success"]. *)
Theorem missing_agent_name_does_not_halt self :
  (forall i step rest results context w,
      lacks_agent step ->
      workflow_loop self i (step :: rest) results context w =
      workflow_loop self (S i) rest
                    (dict_set results (step_key i) no_agent_result) context w) /\
  (forall workflow w results context w',
      passes self 0 workflow [] [] w results context w' ->
      process_workflow self workflow w =
        (Ok (VDict (dict_set results "status" (VStr "success"))), w') /\
      dict_keys (dict_set results "status" (VStr "success")) =
        map step_key (seq 0 (length workflow)) ++ ["status"%string] /\
      (forall i step,
          nth_error workflow i = Some step -> lacks_agent step ->
          dict_get (dict_set results "status" (VStr "success")) (step_key i)
          = Some no_agent_result) /\
      dict_get (dict_set results "status" (VStr "success")) "status"
      = Some (VStr "success")).
Proof.
  split.
  - intros i step rest results context w Hlack. simpl. unfold bind_st at 1.
    rewrite (workflow_step_no_agent self i _ _ _ _ Hlack). reflexivity.
  - intros workflow w results context w' Hpass.
    assert (Hkeys : dict_keys results = map step_key (seq 0 (length workflow))).
    { pose proof (passes_keys _ _ _ _ _ _ _ _ _ Hpass eq_refl) as H.
      now rewrite Nat.add_0_r in H. }
    assert (Hfresh : ~ In "status"%string (dict_keys results)).
    { rewrite Hkeys. apply status_not_step_key. }
    repeat split.
    + unfold process_workflow, bind_st.
      pose proof (passes_loop _ _ _ _ _ _ _ _ _ Hpass []) as Hloop.
      rewrite app_nil_r in Hloop. rewrite Hloop. simpl. unfold ret.
      apply dict_mem_false in Hfresh. unfold dict_keys in Hfresh.
      rewrite Hfresh. reflexivity.
    + rewrite dict_keys_set_new by exact Hfresh. now rewrite Hkeys.
    + intros i step Hnth Hlack.
      rewrite dict_get_set_neq by apply step_key_not_status.
      apply (passes_no_agent_entry _ _ _ _ _ _ _ _ _ Hpass i step Hnth Hlack).
    + apply dict_get_set_eq.
Qed.

(** *** Context propagation *)

(** C2, as the code has it.  [dict.update] writes the accumulated
    context over the step's own: under a key the accumulated context
    binds, the step runs with the inherited value; the step's own value
    stays only under the keys the accumulated context does not bind.
    The merged context is what [process] builds the agent's input
    from. *)
Theorem inherited_context_overwrites self step context w agent_name d c :
  NoDup (dict_keys context) ->
  py_get step "agent" VNone = Ok agent_name ->
  truthy agent_name = true ->
  py_get step "input" (VDict []) = Ok (VDict d) ->
  dict_get d "context" = Some (VDict c) ->
  exists merged,
    merge_context (VDict d) context = Ok (VDict (dict_set d "context" (VDict merged))) /\
    (forall x inherited,
        dict_get context x = Some inherited -> dict_get merged x = Some inherited) /\
    (forall x, dict_get context x = None -> dict_get merged x = dict_get c x) /\
    (forall result w',
        dispatches self step context w agent_name result w' <->
        process self agent_name (VDict (dict_set d "context" (VDict merged))) w
        = (Ok result, w')) /\
    (forall name agent q,
        agent_name = VStr name ->
        dict_get (agents self) name = Some agent ->
        dict_get d "query" = Some (VStr q) ->
        process self agent_name (VDict (dict_set d "context" (VDict merged))) w
        = call_agent agent agent_name {| query := q; context := VDict merged |} w).
Proof.
  intros Hnd Hname Htruthy Hinput Hctx.
  exists (dict_update c context).
  assert (Hmerge : merge_context (VDict d) context
                   = Ok (VDict (dict_set d "context" (VDict (dict_update c context))))).
  { unfold merge_context, dict_mem. rewrite Hctx. simpl. rewrite Hctx. reflexivity. }
  split; [exact Hmerge|]. split; [|split; [|split]].
  - intros x v Hx. rewrite dict_get_update by exact Hnd. now rewrite Hx.
  - intros x Hx. rewrite dict_get_update by exact Hnd. now rewrite Hx.
  - intros result w'. split.
    + intros (si & m & Ha & _ & Hin & Hm & Hproc).
      rewrite Hinput in Hin. inversion Hin; subst si.
      rewrite Hmerge in Hm. inversion Hm; subst m. exact Hproc.
    + intros Hproc. exists (VDict d). eexists. repeat split; eassumption.
  - intros name agent q -> Hagent Hq. unfold process. st.
    unfold dict_mem. rewrite Hagent. simpl.
    rewrite dict_get_set_neq by discriminate. rewrite Hq.
    rewrite dict_get_set_eq. reflexivity.
Qed.

End ManagerFacts.

(** *** The dispatcher on the example workflows *)

Lemma process_unknown_agent_witness :
  dict_mem "badagent" (agents TestDouble.manager) = false /\
  process (RT := TestDouble.runtime []) TestDouble.manager
          (VStr "badagent") (VDict []) []
  = (Ok (VDict [("status", VStr "error");
                ("message", VStr "Agent 'badagent' not found")]), []).
Proof.
  split; [reflexivity|].
  apply (process_unknown_agent (RT := TestDouble.runtime [])). reflexivity.
Defined.

Lemma fail_fast_witness :
  exists final,
    process_workflow (RT := TestDouble.runtime []) TestDouble.manager
      ([Example.search_step] ++ Example.bad_step :: [Example.payment_step]) []
    = (Ok (VDict final), Example.calls_after_search) /\
    dict_keys final = map step_key (seq 0 2) ++ ["status"; "failed_step"]%string /\
    dict_get final (step_key 1) = Some Example.bad_result /\
    dict_get final "status" = Some (VStr "error") /\
    dict_get final "failed_step" = Some (VInt 1) /\
    process_workflow (RT := TestDouble.runtime []) TestDouble.manager
      ([Example.search_step] ++ [Example.bad_step]) []
    = (Ok (VDict final), Example.calls_after_search).
Proof.
  eapply (fail_fast (RT := TestDouble.runtime []) TestDouble.manager
            [Example.search_step] Example.bad_step [Example.payment_step]
            [] _ _ _ (VStr "badagent")).
  - eapply passes_success with (agent_name := VStr "search").
    + exists (VDict [("query", VStr "search_flights");
                     ("context", VDict Example.search_context)]).
      eexists. repeat split; reflexivity.
    + eexists. split; reflexivity.
    + reflexivity.
    + apply passes_nil.
  - exists (VDict []). eexists. repeat split; reflexivity.
  - eexists. split; reflexivity.
  - discriminate.
Defined.

Lemma missing_agent_name_witness :
  exists results context calls,
    passes (RT := TestDouble.runtime []) TestDouble.manager 0
           [Example.search_step; Example.nameless_step; Example.optimizer_step]
           [] [] [] results context calls /\
    process_workflow (RT := TestDouble.runtime []) TestDouble.manager
      [Example.search_step; Example.nameless_step; Example.optimizer_step] []
    = (Ok (VDict (dict_set results "status" (VStr "success"))), calls) /\
    dict_keys (dict_set results "status" (VStr "success"))
    = map step_key (seq 0 3) ++ ["status"%string] /\
    dict_get (dict_set results "status" (VStr "success")) (step_key 1)
    = Some no_agent_result.
Proof.
  assert (Hpass :
    passes (RT := TestDouble.runtime []) TestDouble.manager 0
           [Example.search_step; Example.nameless_step; Example.optimizer_step]
           [] [] []
           [(step_key 0, Example.search_result); (step_key 1, no_agent_result);
            (step_key 2, Example.optimizer_result)]
           [("search"%string, Example.search_result);
            ("optimizer"%string, Example.optimizer_result)]
           (Example.calls_after_search ++
            [("OptimizerAgent"%string,
              {| query := "cheapest";
                 context := VDict [("search"%string, Example.search_result)] |})])).
  { eapply passes_success with (agent_name := VStr "search").
    - exists (VDict [("query", VStr "search_flights");
                     ("context", VDict Example.search_context)]).
      eexists. repeat split; reflexivity.
    - eexists. split; reflexivity.
    - reflexivity.
    - apply passes_no_agent; [exists VNone; split; reflexivity|].
      eapply passes_success with (agent_name := VStr "optimizer").
      + exists (VDict [("query", VStr "cheapest")]).
        eexists. repeat split; reflexivity.
      + eexists. split; reflexivity.
      + reflexivity.
      + apply passes_nil. }
  do 3 eexists. split; [exact Hpass|].
  destruct (proj2 (missing_agent_name_does_not_halt
                     (RT := TestDouble.runtime []) TestDouble.manager)
                  _ _ _ _ _ Hpass) as (Hrun & Hkeys & Hentry & _).
  split; [exact Hrun|]. split; [exact Hkeys|].
  apply (Hentry 1 Example.nameless_step eq_refl).
  exists VNone. split; reflexivity.
Defined.

Lemma inherited_context_overwrites_witness :
  exists merged,
    merge_context (VDict [("query", VStr "cheapest"); ("context", VDict Example.own_context)])
                  [("search"%string, Example.search_result)]
    = Ok (VDict [("query", VStr "cheapest"); ("context", VDict merged)]) /\
    dict_get merged "search" = Some Example.search_result /\
    dict_get merged "budget" = Some (VInt 500).
Proof.
  destruct (inherited_context_overwrites (RT := TestDouble.runtime [])
              TestDouble.manager Example.colliding_step
              [("search"%string, Example.search_result)]
              Example.calls_after_search (VStr "optimizer")
              [("query", VStr "cheapest"); ("context", VDict Example.own_context)]
              Example.own_context)
    as (merged & Hmerge & Hinherited & Hown & _).
  - repeat constructor; simpl; tauto.
  - reflexivity.
  - reflexivity.
  - reflexivity.
  - reflexivity.
  - exists merged. split; [exact Hmerge|]. split.
    + apply Hinherited. reflexivity.
    + rewrite Hown by reflexivity. reflexivity.
Defined.

(** C2 as the specification words it fails: the second step sets
    ["search"] to ["mine"] in its own context, and the optimizer agent
    is called with the search step's result under ["search"]. *)
Lemma explicit_context_is_overwritten :
  dict_get Example.own_context "search" = Some (VStr "mine") /\
  exists results input,
    process_workflow (RT := TestDouble.runtime []) TestDouble.manager
      [Example.search_step; Example.colliding_step] []
    = (Ok results, Example.calls_after_search ++ [("OptimizerAgent"%string, input)]) /\
    py_get (context input) "search" VNone = Ok Example.search_result /\
    py_get (context input) "search" VNone <> Ok (VStr "mine").
Proof.
  split; [reflexivity|].
  do 2 eexists. split; [reflexivity|]. split; [reflexivity | discriminate].
Qed.

(** ** The tools *)

Section ToolFacts.
Context {RT : Runtime}.

(** *** The error contract *)

Lemma try_except_st_contract (body : string -> ST AgentState string) t :
  func t = (fun query => try_except_st (body query) tool_handler_st) ->
  try_block t = body ->
  forall query st, error_contract t query st.
Proof.
  intros Hf Hb query st. unfold error_contract. rewrite Hf, Hb.
  unfold try_except_st, tool_handler_st, tool_handler, lift.
  destruct (body query st) as [[s|e] st']; repeat split; eauto; congruence.
Qed.

Lemma try_except_contract (body : string -> res string) t :
  func t = stateless (fun query => try_except (body query) tool_handler) ->
  try_block t = stateless body ->
  forall query st, error_contract t query st.
Proof.
  intros Hf Hb query st. unfold error_contract. rewrite Hf, Hb.
  unfold stateless, try_except, tool_handler, lift.
  destruct (body query) as [s|e]; repeat split; eauto; congruence.
Qed.

(** Every [try] block starts by parsing the payload. *)
Lemma try_block_parse_failure t query st e :
  In t all_tools ->
  json_loads query = Raise e ->
  try_block t query st = (Raise e, st).
Proof.
  intros Hin Hparse. unfold all_tools in Hin. simpl in Hin.
  repeat (destruct Hin as [<-|Hin]; [simpl; unfold stateless, lift; f_equal|]);
    try contradiction.
  all: try (unfold SearchAgent.search_flights_body, SearchAgent.search_trains_body,
              OptimizerAgent.find_cheapest_option_body,
              OptimizerAgent.find_fastest_option_body,
              OptimizerAgent.recommend_based_on_preferences_body;
            now rewrite Hparse).
  all: unfold PaymentAgent.process_payment_body, PaymentAgent.process_refund_body,
         PaymentAgent.get_transaction_status_body,
         NotificationAgent.send_notification_body,
         NotificationAgent.get_user_notifications_body,
         NotificationAgent.mark_notification_read_body, bind_st, lift;
       now rewrite Hparse.
Qed.

(** C5. For every tool of every agent, every payload and every state:
    the tool returns a string and raises nothing; what its [try] block
    returns it returns; an exception raised in the [try] block is
    returned as the serialized object with exactly the two entries
    ["status": "error"] and ["message": str(e)], in the state the block
    had reached; so in particular the failure to parse the payload,
    which leaves the state as it was. *)
Theorem tools_never_raise t query st :
  In t all_tools ->
  (exists s st', func t query st = (Ok s, st')) /\
  (forall s st', try_block t query st = (Ok s, st') -> func t query st = (Ok s, st')) /\
  (forall e st',
      try_block t query st = (Raise e, st') ->
      func t query st
      = (Ok (json_dumps (VDict [("status", VStr "error");
                                ("message", VStr (str_exn e))])), st')) /\
  (forall e,
      json_loads query = Raise e ->
      func t query st
      = (Ok (json_dumps (VDict [("status", VStr "error");
                                ("message", VStr (str_exn e))])), st)).
Proof.
  intros Hin.
  assert (Hcontract : error_contract t query st).
  { unfold all_tools in Hin. simpl in Hin.
    repeat (destruct Hin as [<-|Hin];
            [first [ eapply try_except_contract; reflexivity
                   | eapply try_except_st_contract; reflexivity ]|]).
    contradiction. }
  destruct Hcontract as (Hreturns & Hok & Hraise).
  unfold error_result in Hraise.
  repeat split; try assumption.
  intros e Hparse. apply Hraise. now apply try_block_parse_failure.
Qed.

End ToolFacts.

Lemma tools_never_raise_witness :
  NotificationAgent._mark_notification_read (RT := TestDouble.runtime [])
    "{not json" TestDouble.empty_state
  = (Ok (TestDouble.dumps (VDict [("status", VStr "error");
                                  ("message", VStr "Expecting value")])),
     TestDouble.empty_state).
Proof.
  pose (t := {| name := "mark_notification_read";
                func := NotificationAgent._mark_notification_read
                          (RT := TestDouble.runtime []);
                try_block := NotificationAgent.mark_notification_read_body
                               (RT := TestDouble.runtime []) |}).
  change (func t "{not json" TestDouble.empty_state
          = (Ok (@json_dumps (TestDouble.runtime [])
                   (VDict [("status", VStr "error");
                           ("message",
                            VStr (@str_exn (TestDouble.runtime [])
                                    (JSONDecodeError "Expecting value")))])),
             TestDouble.empty_state)).
  apply (tools_never_raise (RT := TestDouble.runtime []) t).
  - unfold all_tools. apply in_or_app. right. apply in_or_app. right.
    apply in_or_app. right. right. right. left. reflexivity.
  - reflexivity.
Defined.

(** ** The agents' tables *)

Section TableFacts.
Context {RT : Runtime}.

Lemma dict_set_set (d : dict) k x y : dict_set (dict_set d k x) k y = dict_set d k y.
Proof.
  induction d as [|[k' v'] d IH]; simpl.
  - now rewrite String.eqb_refl.
  - destruct (String.eqb k' k) eqn:E; simpl; rewrite E; [reflexivity|].
    now rewrite IH.
Qed.

Lemma table_set_field_dict k field v st entry :
  dict_get (table st) k = Some (VDict entry) ->
  table_set_field (VStr k) field v st =
  (Ok tt, set_table st (dict_set (table st) k (VDict (dict_set entry field v)))).
Proof.
  intros H. unfold table_set_field, bind_st, get_state, lift. simpl.
  rewrite H. reflexivity.
Qed.

#[local] Arguments table_set_field : simpl never.

(** *** Refund *)

Lemma process_refund_found query data tid st txn original amount :
  json_loads query = Ok (VDict data) ->
  dict_get data "transaction_id" = Some (VStr tid) ->
  dict_get (table st) tid = Some (VDict txn) ->
  dict_get txn "amount" = Some original ->
  amount = match dict_get data "amount" with Some a => a | None => original end ->
  PaymentAgent._process_refund query st =
  (Ok (json_dumps
         (VDict [("status", VStr "success");
                 ("refund_id", VStr ("ref_" ++ uuid4_hex16 (uuid_draws st))%string);
                 ("amount_refunded", amount);
                 ("message", VStr "Refund processed successfully")])),
   refunded st tid txn amount).
Proof.
  intros Hparse Htid Hv Horig ->.
  unfold PaymentAgent._process_refund, PaymentAgent.process_refund_body,
    PaymentAgent.transactions, try_except_st, bind_st, lift, get_state, ret.
  rewrite Hparse. simpl. rewrite Htid.
  unfold py_contains, py_lookup, py_getitem, dict_mem. rewrite Hv. simpl.
  rewrite Horig. simpl.
  rewrite (table_set_field_dict tid "refund_id" _ _ txn) by exact Hv.
  simpl.
  erewrite table_set_field_dict by (simpl; apply dict_get_set_eq).
  simpl.
  erewrite table_set_field_dict by (simpl; apply dict_get_set_eq).
  simpl. unfold refunded, set_table. simpl. rewrite !dict_set_set. reflexivity.
Qed.

(** C8. A refund request that names a stored transaction and has no
    ["amount"]: the refund succeeds, [amount_refunded] in the answer
    and [refund_amount] in the stored transaction are the transaction's
    own ["amount"], which is unchanged.  A request whose transaction id
    is not in the store is answered by the error result
    ["Transaction not found"], and the state is unchanged. *)
Theorem refund_defaults_to_original_amount :
  (forall query data tid st,
      wf_transactions (PaymentAgent.transactions st) ->
      json_loads query = Ok (VDict data) ->
      dict_get data "transaction_id" = Some (VStr tid) ->
      dict_get data "amount" = None ->
      dict_mem tid (PaymentAgent.transactions st) = true ->
      exists txn amount txn' st',
        dict_get (PaymentAgent.transactions st) tid = Some (VDict txn) /\
        dict_get txn "amount" = Some amount /\
        PaymentAgent._process_refund query st =
          (Ok (json_dumps
                 (VDict [("status", VStr "success");
                         ("refund_id", VStr ("ref_" ++ uuid4_hex16 (uuid_draws st))%string);
                         ("amount_refunded", amount);
                         ("message", VStr "Refund processed successfully")])),
           st') /\
        dict_get (PaymentAgent.transactions st') tid = Some (VDict txn') /\
        dict_get txn' "refund_amount" = Some amount /\
        dict_get txn' "amount" = Some amount) /\
  (forall query data tid st,
      json_loads query = Ok data ->
      py_get data "transaction_id" VNone = Ok tid ->
      py_contains (PaymentAgent.transactions st) tid = Ok false ->
      PaymentAgent._process_refund query st =
        (Ok (json_dumps (VDict [("status", VStr "error");
                                ("message", VStr "Transaction not found")])), st)).
Proof.
  split.
  - intros query data tid st Hwf Hparse Htid Hamount Hmem.
    unfold PaymentAgent.transactions in *.
    destruct (dict_get (table st) tid) as [v|] eqn:Hv;
      [|unfold dict_mem in Hmem; rewrite Hv in Hmem; discriminate].
    destruct (Hwf tid v Hv) as (txn & amount & -> & Horig).
    exists txn, amount.
    eexists. exists (refunded st tid txn amount).
    split; [reflexivity|]. split; [exact Horig|]. split.
    { apply (process_refund_found query data tid st txn amount amount);
        try assumption. now rewrite Hamount. }
    unfold refunded. simpl. rewrite dict_get_set_eq.
    split; [reflexivity|]. split.
    + rewrite dict_get_set_neq by discriminate. apply dict_get_set_eq.
    + rewrite !dict_get_set_neq by discriminate. exact Horig.
  - intros query data tid st Hparse Htid Habsent.
    unfold PaymentAgent._process_refund, PaymentAgent.process_refund_body,
      try_except_st, bind_st, lift, get_state, ret.
    rewrite Hparse. simpl. rewrite Htid. simpl. rewrite Habsent. reflexivity.
Qed.

(** In every other case the table is left as it was. *)
Lemma process_refund_cases query st :
  table (snd (PaymentAgent._process_refund query st)) = table st \/
  exists data tid txn original amount,
    dict_get (table st) tid = Some (VDict txn) /\
    dict_get txn "amount" = Some original /\
    PaymentAgent._process_refund query st
    = (Ok (json_dumps
             (VDict [("status", VStr "success");
                     ("refund_id", VStr ("ref_" ++ uuid4_hex16 (uuid_draws st))%string);
                     ("amount_refunded", amount);
                     ("message", VStr "Refund processed successfully")])),
       refunded st tid txn amount) /\
    json_loads query = Ok (VDict data).
Proof.
  destruct (json_loads query) as [data|e] eqn:Hparse.
  2:{ left. unfold PaymentAgent._process_refund, PaymentAgent.process_refund_body,
        try_except_st, bind_st, lift.
      rewrite Hparse. reflexivity. }
  assert (Hgen : forall v,
             py_get data "transaction_id" VNone = v ->
             (forall tid txn original,
                 v = Ok (VStr tid) ->
                 dict_get (table st) tid = Some (VDict txn) ->
                 dict_get txn "amount" = Some original -> False) ->
             table (snd (PaymentAgent._process_refund query st)) = table st).
  { intros v Hv Hnot.
    unfold PaymentAgent._process_refund, PaymentAgent.process_refund_body,
      PaymentAgent.transactions, try_except_st, bind_st, lift, get_state, ret.
    rewrite Hparse. simpl. rewrite Hv.
    destruct v as [[| | | |tid| |]|e]; simpl; try reflexivity.
    unfold dict_mem. destruct (dict_get (table st) tid) as [entry|] eqn:Hentry;
      simpl; [|reflexivity].
    destruct entry as [| | | | | |txn]; simpl; try reflexivity.
    destruct (dict_get txn "amount") as [original|] eqn:Horig; simpl; [|reflexivity].
    exfalso. eapply Hnot; [reflexivity | eassumption | eassumption]. }
  destruct data as [| | | | | |d]; try (left; eapply Hgen; [reflexivity | discriminate]).
  destruct (dict_get d "transaction_id") as [v|] eqn:Hid.
  2:{ left. eapply Hgen; [reflexivity|]. simpl. rewrite Hid. discriminate. }
  destruct v as [| | | |tid| |];
    try (left; eapply Hgen; [reflexivity|]; simpl; rewrite Hid; discriminate).
  destruct (dict_get (table st) tid) as [entry|] eqn:Hentry.
  2:{ left. eapply Hgen; [reflexivity|]. simpl. rewrite Hid.
      intros tid' txn original [= <-]. congruence. }
  destruct entry as [| | | | | |txn];
    try (left; eapply Hgen; [reflexivity|]; simpl; rewrite Hid;
         intros tid' txn original [= <-]; congruence).
  destruct (dict_get txn "amount") as [original|] eqn:Horig.
  2:{ left. eapply Hgen; [reflexivity|]. simpl. rewrite Hid.
      intros tid' txn' original [= <-]. congruence. }
  right. exists d, tid, txn, original. eexists.
  split; [exact Hentry|]. split; [exact Horig|]. split; [|reflexivity].
  now apply (process_refund_found query d tid st txn original).
Qed.

(** *** The invariant of the transaction store *)

Lemma wf_transactions_nil : wf_transactions [].
Proof. intros tid v H. discriminate. Qed.

Lemma wf_transactions_set t k txn amount :
  wf_transactions t ->
  dict_get txn "amount" = Some amount ->
  wf_transactions (dict_set t k (VDict txn)).
Proof.
  intros Hwf Hamount tid v. destruct (string_dec tid k) as [->|Hne].
  - rewrite dict_get_set_eq. intros [= <-]. eauto.
  - rewrite dict_get_set_neq by assumption. apply Hwf.
Qed.

Lemma process_payment_wf query st :
  wf_transactions (table st) ->
  wf_transactions (table (snd (PaymentAgent._process_payment query st))).
Proof.
  intros Hwf.
  unfold PaymentAgent._process_payment, PaymentAgent.process_payment_body,
    try_except_st, bind_st, lift, ret.
  destruct (json_loads query) as [data|e]; simpl; [|exact Hwf].
  destruct data; simpl; try exact Hwf.
  eapply wf_transactions_set; [exact Hwf | reflexivity].
Qed.

Lemma process_refund_wf query st :
  wf_transactions (table st) ->
  wf_transactions (table (snd (PaymentAgent._process_refund query st))).
Proof.
  intros Hwf.
  destruct (process_refund_cases query st)
    as [-> | (data & tid & txn & original & amount & Hentry & Horig & -> & _)];
    [exact Hwf|].
  simpl. eapply wf_transactions_set; [exact Hwf|].
  rewrite !dict_get_set_neq by discriminate. exact Horig.
Qed.

Lemma get_transaction_status_keeps query st :
  snd (PaymentAgent._get_transaction_status query st) = st.
Proof.
  unfold PaymentAgent._get_transaction_status, PaymentAgent.get_transaction_status_body,
    PaymentAgent.transactions, try_except_st, bind_st, lift, get_state, ret.
  destruct (json_loads query) as [data|e]; simpl; [|reflexivity].
  destruct (py_get data "transaction_id" VNone) as [v|e]; simpl; [|reflexivity].
  destruct (py_contains (table st) v) as [[|]|e]; simpl; try reflexivity.
  destruct (py_lookup (table st) v); reflexivity.
Qed.

(** *** Marking a notification as read *)

Lemma mark_read_found query data nid st n :
  json_loads query = Ok (VDict data) ->
  dict_get data "notification_id" = Some (VStr nid) ->
  dict_get (table st) nid = Some (VDict n) ->
  NotificationAgent._mark_notification_read query st = (Ok marked_answer, marked st nid n).
Proof.
  intros Hparse Hid Hn.
  unfold NotificationAgent._mark_notification_read,
    NotificationAgent.mark_notification_read_body,
    NotificationAgent.notifications, try_except_st, bind_st, lift, get_state, ret.
  rewrite Hparse. simpl. rewrite Hid.
  unfold py_contains, dict_mem. rewrite Hn. simpl.
  rewrite (table_set_field_dict nid "is_read" _ _ n) by exact Hn.
  simpl.
  erewrite table_set_field_dict by (simpl; apply dict_get_set_eq).
  simpl. unfold marked, set_table. simpl. rewrite dict_set_set. reflexivity.
Qed.

(** In every other case the table is left as it was. *)
Lemma mark_read_cases query st :
  table (snd (NotificationAgent._mark_notification_read query st)) = table st \/
  exists data nid n,
    json_loads query = Ok (VDict data) /\
    dict_get data "notification_id" = Some (VStr nid) /\
    dict_get (table st) nid = Some (VDict n) /\
    NotificationAgent._mark_notification_read query st = (Ok marked_answer, marked st nid n).
Proof.
  destruct (json_loads query) as [data|e] eqn:Hparse.
  2:{ left. unfold NotificationAgent._mark_notification_read,
        NotificationAgent.mark_notification_read_body, try_except_st, bind_st, lift.
      rewrite Hparse. reflexivity. }
  assert (Hgen : forall v,
             py_get data "notification_id" VNone = v ->
             (forall nid n, v = Ok (VStr nid) ->
                            dict_get (table st) nid = Some (VDict n) -> False) ->
             table (snd (NotificationAgent._mark_notification_read query st)) = table st).
  { intros v Hv Hnot.
    unfold NotificationAgent._mark_notification_read,
      NotificationAgent.mark_notification_read_body,
      NotificationAgent.notifications, try_except_st, bind_st, lift, get_state, ret.
    rewrite Hparse. simpl. rewrite Hv.
    destruct v as [[| | | |nid| |]|e]; simpl; try reflexivity.
    unfold dict_mem. destruct (dict_get (table st) nid) as [entry|] eqn:Hentry;
      simpl; [|reflexivity].
    unfold table_set_field, bind_st, get_state, lift. simpl. rewrite Hentry.
    destruct entry; simpl; try reflexivity.
    exfalso. eapply Hnot; [reflexivity | eassumption]. }
  destruct data as [| | | | | |d]; try (left; eapply Hgen; [reflexivity | discriminate]).
  destruct (dict_get d "notification_id") as [v|] eqn:Hid.
  2:{ left. eapply Hgen; [reflexivity|]. simpl. rewrite Hid. discriminate. }
  destruct v as [| | | |nid| |];
    try (left; eapply Hgen; [reflexivity|]; simpl; rewrite Hid; discriminate).
  destruct (dict_get (table st) nid) as [entry|] eqn:Hentry.
  2:{ left. eapply Hgen; [reflexivity|]. simpl. rewrite Hid.
      intros nid' n [= <-]. congruence. }
  destruct entry as [| | | | | |n];
    try (left; eapply Hgen; [reflexivity|]; simpl; rewrite Hid;
         intros nid' n [= <-]; congruence).
  right. exists d, nid, n. repeat split; try assumption.
  now apply (mark_read_found query d nid st n).
Qed.

(** C10. Whatever the payload and the state, [_mark_notification_read]
    keeps the keys of the store and their order; a notification is
    either left as it was or it is the one the payload names, and then
    it differs from the stored one at most under ["is_read"] and
    ["read_at"]; a notification under another id than the one the
    payload names is left as it was; and when the id the payload names
    is not in the store, the store is unchanged. *)
Theorem mark_notification_read_frame query st :
  let st' := snd (NotificationAgent._mark_notification_read query st) in
  dict_keys (NotificationAgent.notifications st')
  = dict_keys (NotificationAgent.notifications st) /\
  (forall id,
      dict_get (NotificationAgent.notifications st') id
      = dict_get (NotificationAgent.notifications st) id \/
      exists data n n',
        json_loads query = Ok (VDict data) /\
        dict_get data "notification_id" = Some (VStr id) /\
        dict_get (NotificationAgent.notifications st) id = Some (VDict n) /\
        dict_get (NotificationAgent.notifications st') id = Some (VDict n') /\
        forall field,
          field <> "is_read"%string -> field <> "read_at"%string ->
          dict_get n' field = dict_get n field) /\
  (forall id data v,
      json_loads query = Ok data ->
      py_get data "notification_id" VNone = Ok v ->
      v <> VStr id ->
      dict_get (NotificationAgent.notifications st') id
      = dict_get (NotificationAgent.notifications st) id) /\
  (forall data v,
      json_loads query = Ok data ->
      py_get data "notification_id" VNone = Ok v ->
      py_contains (NotificationAgent.notifications st) v = Ok false ->
      NotificationAgent.notifications st' = NotificationAgent.notifications st).
Proof.
  unfold NotificationAgent.notifications. cbv zeta.
  destruct (mark_read_cases query st)
    as [Hsame | (data & nid & n & Hparse & Hid & Hn & Hrun)].
  - rewrite Hsame. repeat split; auto.
  - rewrite Hrun. simpl. repeat split.
    + apply dict_keys_set_old. apply (proj1 (dict_mem_true _ _)).
      unfold dict_mem. now rewrite Hn.
    + intros id. destruct (string_dec id nid) as [->|Hne].
      * right.
        exists data, n,
          (dict_set (dict_set n "is_read" (VBool true))
                    "read_at" (VStr (utcnow_isoformat (clock_reads st)))).
        split; [exact Hparse|]. split; [exact Hid|]. split; [exact Hn|].
        split; [apply dict_get_set_eq|].
        intros field H1 H2. now rewrite !dict_get_set_neq by assumption.
      * left. now apply dict_get_set_neq.
    + intros id data' v Hparse' Hv Hne. apply dict_get_set_neq.
      intros ->. apply Hne. rewrite Hparse in Hparse'. inversion Hparse'; subst data'.
      simpl in Hv. rewrite Hid in Hv. now inversion Hv.
    + intros data' v Hparse' Hv Habsent. exfalso.
      rewrite Hparse in Hparse'. inversion Hparse'; subst data'.
      simpl in Hv. rewrite Hid in Hv. inversion Hv; subst v.
      simpl in Habsent. unfold dict_mem in Habsent. rewrite Hn in Habsent.
      discriminate.
Qed.

(** C9, as the code has it.  Marking a stored notification twice leaves
    it read after each call, and both calls succeed; [read_at] is
    written at every call, so after the second call it is the reading
    of the clock at the second call.  Nothing but [read_at] differs
    between the two results. *)
Theorem mark_read_twice q1 q2 d1 d2 nid n st :
  json_loads q1 = Ok (VDict d1) ->
  dict_get d1 "notification_id" = Some (VStr nid) ->
  json_loads q2 = Ok (VDict d2) ->
  dict_get d2 "notification_id" = Some (VStr nid) ->
  dict_get (NotificationAgent.notifications st) nid = Some (VDict n) ->
  exists st1 st2 n1 n2,
    NotificationAgent._mark_notification_read q1 st = (Ok marked_answer, st1) /\
    NotificationAgent._mark_notification_read q2 st1 = (Ok marked_answer, st2) /\
    dict_get (NotificationAgent.notifications st1) nid = Some (VDict n1) /\
    dict_get (NotificationAgent.notifications st2) nid = Some (VDict n2) /\
    dict_get n1 "is_read" = Some (VBool true) /\
    dict_get n2 "is_read" = Some (VBool true) /\
    dict_get n1 "read_at" = Some (VStr (utcnow_isoformat (clock_reads st))) /\
    dict_get n2 "read_at" = Some (VStr (utcnow_isoformat (S (clock_reads st)))) /\
    (forall field, field <> "read_at"%string -> dict_get n2 field = dict_get n1 field).
Proof.
  intros Hp1 Hid1 Hp2 Hid2 Hn. unfold NotificationAgent.notifications in *.
  set (n1 := dict_set (dict_set n "is_read" (VBool true))
                      "read_at" (VStr (utcnow_isoformat (clock_reads st)))).
  assert (Hn1 : dict_get (table (marked st nid n)) nid = Some (VDict n1)).
  { simpl. apply dict_get_set_eq. }
  exists (marked st nid n), (marked (marked st nid n) nid n1), n1.
  eexists. split; [now apply (mark_read_found q1 d1)|].
  split; [now apply (mark_read_found q2 d2)|].
  split; [exact Hn1|]. split; [simpl; apply dict_get_set_eq|].
  unfold n1. repeat split.
  - rewrite dict_get_set_neq by discriminate. apply dict_get_set_eq.
  - rewrite dict_get_set_neq by discriminate. apply dict_get_set_eq.
  - apply dict_get_set_eq.
  - simpl. apply dict_get_set_eq.
  - intros field Hf. rewrite dict_get_set_neq by assumption.
    destruct (string_dec field "is_read") as [->|Hne].
    + rewrite dict_get_set_eq. rewrite dict_get_set_neq by discriminate.
      now rewrite dict_get_set_eq.
    + now rewrite dict_get_set_neq by assumption.
Qed.

End TableFacts.

(** *** The payment and notification tools on the example payloads *)

Lemma refund_defaults_to_original_amount_witness :
  exists txn' st',
    PaymentAgent._process_refund (RT := Example.codec)
      (TestDouble.dumps Example.refund_payload) Example.after_payment
    = (Ok (TestDouble.dumps
             (VDict [("status", VStr "success");
                     ("refund_id", VStr "ref_token1");
                     ("amount_refunded", VFloat 299.99);
                     ("message", VStr "Refund processed successfully")])),
       st') /\
    dict_get (PaymentAgent.transactions st') "txn_token0" = Some (VDict txn') /\
    dict_get txn' "refund_amount" = Some (VFloat 299.99) /\
    dict_get txn' "amount" = Some (VFloat 299.99).
Proof.
  destruct (proj1 (refund_defaults_to_original_amount (RT := Example.codec))
              (TestDouble.dumps Example.refund_payload)
              [("transaction_id", VStr "txn_token0")] "txn_token0"%string
              Example.after_payment)
    as (txn & amount & txn' & st' & Htxn & Hamount & Hrun & Hstored & Hrefund & Hkept).
  - intros tid v H.
    assert (E : PaymentAgent.transactions Example.after_payment
                = [("txn_token0"%string,
                    VDict [("transaction_id", VStr "txn_token0");
                           ("amount", VFloat 299.99);
                           ("currency", VStr "USD");
                           ("status", VStr "completed");
                           ("payment_method", VStr "card");
                           ("booking_reference", VStr "BK-1");
                           ("user_id", VStr "u1");
                           ("timestamp", VStr "2024-01-01T00:00:0")])])
      by (vm_compute; reflexivity).
    rewrite E in H. cbn [dict_get] in H.
    destruct (String.eqb "txn_token0" tid); [|discriminate].
    inversion H. do 2 eexists. split; reflexivity.
  - reflexivity.
  - reflexivity.
  - reflexivity.
  - reflexivity.
  - assert (E : amount = VFloat 299.99).
    { vm_compute in Htxn. inversion Htxn; subst txn.
      vm_compute in Hamount. now inversion Hamount. }
    subst amount. exists txn', st'. repeat split; assumption.
Defined.

Lemma mark_read_twice_witness :
  exists st1 st2 n2,
    NotificationAgent._mark_notification_read (RT := Example.codec)
      (TestDouble.dumps Example.mark_payload) Example.after_send
    = (Ok (marked_answer (RT := Example.codec)), st1) /\
    NotificationAgent._mark_notification_read (RT := Example.codec)
      (TestDouble.dumps Example.mark_payload) st1
    = (Ok (marked_answer (RT := Example.codec)), st2) /\
    dict_get (NotificationAgent.notifications st2) "notif_1" = Some (VDict n2) /\
    dict_get n2 "is_read" = Some (VBool true) /\
    dict_get n2 "read_at" = Some (VStr "2024-01-01T00:00:2").
Proof.
  destruct (mark_read_twice (RT := Example.codec)
              (TestDouble.dumps Example.mark_payload)
              (TestDouble.dumps Example.mark_payload)
              [("notification_id", VStr "notif_1")]
              [("notification_id", VStr "notif_1")]
              "notif_1"%string
              [("notification_id", VStr "notif_1"); ("user_id", VStr "u1");
               ("title", VStr "Booked"); ("message", VStr "Your flight is booked");
               ("notification_type", VStr "email"); ("metadata", VDict []);
               ("is_read", VBool false); ("created_at", VStr "2024-01-01T00:00:0")]
              Example.after_send)
    as (st1 & st2 & n1 & n2 & H1 & H2 & _ & Hn2 & _ & Hread & _ & Hat & _);
    try reflexivity.
  exists st1, st2, n2. repeat split; assumption.
Defined.

(** C9 as the specification words it fails: on a stored notification,
    the second call replaces the [read_at] the first call wrote. *)
Lemma second_mark_read_changes_read_at :
  exists answer st1 st2 n1 n2,
    NotificationAgent._mark_notification_read (RT := Example.codec)
      (TestDouble.dumps Example.mark_payload) Example.after_send = (Ok answer, st1) /\
    NotificationAgent._mark_notification_read (RT := Example.codec)
      (TestDouble.dumps Example.mark_payload) st1 = (Ok answer, st2) /\
    dict_get (NotificationAgent.notifications st1) "notif_1" = Some (VDict n1) /\
    dict_get (NotificationAgent.notifications st2) "notif_1" = Some (VDict n2) /\
    dict_get n1 "read_at" = Some (VStr "2024-01-01T00:00:1") /\
    dict_get n2 "read_at" = Some (VStr "2024-01-01T00:00:2") /\
    dict_get n2 "read_at" <> dict_get n1 "read_at".
Proof.
  do 5 eexists.
  split; [vm_compute; reflexivity|].
  split; [vm_compute; reflexivity|].
  split; [vm_compute; reflexivity|].
  split; [vm_compute; reflexivity|].
  split; [reflexivity|]. split; [reflexivity|]. discriminate.
Qed.

(** ** The order of binary64 numbers

    [<] and [<=] on floats, as [min] and [sorted] use them.  A float
    that is not NaN has a rank in the lexicographic order of [Z * Z * Z]
    (class, then exponent, then mantissa), and the comparison of two
    floats is the comparison of their ranks. *)

Section FloatOrder.
Local Open Scope Z_scope.

Lemma lex_compare_spec a b :
  match lex_compare a b with
  | Lt => lex_lt a b
  | Eq => lex_eq a b
  | Gt => lex_lt b a
  end.
Proof.
  destruct a as [[a1 a2] a3], b as [[b1 b2] b3]. unfold lex_compare, lex_lt, lex_eq.
  destruct (Z.compare_spec a1 b1); [|lia|lia].
  destruct (Z.compare_spec a2 b2); [|lia|lia].
  destruct (Z.compare_spec a3 b3); lia.
Qed.

Lemma SFcompare_rank x y :
  SFcompare x y =
  match SFrank x, SFrank y with
  | Some a, Some b => Some (lex_compare a b)
  | _, _ => None
  end.
Proof.
  destruct x as [[|]|[|]| |[|] m1 e1], y as [[|]|[|]| |[|] m2 e2];
    try reflexivity; simpl.
  rewrite Z.compare_opp, (Z.compare_antisym e1 e2).
  destruct (e1 ?= e2); reflexivity.
Qed.

Lemma not_nan_rank f : not_nan f <-> exists a, float_rank f = Some a.
Proof.
  unfold not_nan, float_rank. rewrite eqb_spec. unfold SFeqb. rewrite SFcompare_rank.
  destruct (SFrank (Prim2SF f)) as [a|].
  - split; [eauto | intros _].
    pose proof (lex_compare_spec a a) as H. destruct a as [[a1 a2] a3].
    destruct (lex_compare (a1, a2, a3) (a1, a2, a3)); simpl in H; [reflexivity|lia|lia].
  - split; [discriminate | intros [a H]; discriminate].
Qed.

Lemma ltb_rank x y :
  PrimFloat.ltb x y = true <->
  exists a b, float_rank x = Some a /\ float_rank y = Some b /\ lex_lt a b.
Proof.
  unfold float_rank. rewrite ltb_spec. unfold SFltb. rewrite SFcompare_rank.
  destruct (SFrank (Prim2SF x)) as [a|], (SFrank (Prim2SF y)) as [b|];
    try (split; [discriminate | intros (a' & b' & H1 & H2 & _); discriminate]).
  pose proof (lex_compare_spec a b) as H.
  split.
  - destruct (lex_compare a b); try discriminate. intros _. eauto.
  - intros (a' & b' & [= <-] & [= <-] & Hlt).
    destruct a as [[a1 a2] a3], b as [[b1 b2] b3].
    destruct (lex_compare (a1, a2, a3) (b1, b2, b3)); simpl in *;
      [lia | reflexivity | lia].
Qed.

Lemma leb_rank x y :
  PrimFloat.leb x y = true <->
  exists a b, float_rank x = Some a /\ float_rank y = Some b /\ (lex_lt a b \/ lex_eq a b).
Proof.
  unfold float_rank. rewrite leb_spec. unfold SFleb. rewrite SFcompare_rank.
  destruct (SFrank (Prim2SF x)) as [a|], (SFrank (Prim2SF y)) as [b|];
    try (split; [discriminate | intros (a' & b' & H1 & H2 & _); discriminate]).
  pose proof (lex_compare_spec a b) as H.
  split.
  - destruct (lex_compare a b); try discriminate; intros _; eauto 6.
  - intros (a' & b' & [= <-] & [= <-] & Hle).
    destruct a as [[a1 a2] a3], b as [[b1 b2] b3].
    destruct (lex_compare (a1, a2, a3) (b1, b2, b3)); simpl in *;
      [reflexivity | reflexivity | lia].
Qed.

Lemma eqb_rank x y :
  PrimFloat.eqb x y = true <->
  exists a b, float_rank x = Some a /\ float_rank y = Some b /\ lex_eq a b.
Proof.
  unfold float_rank. rewrite eqb_spec. unfold SFeqb. rewrite SFcompare_rank.
  destruct (SFrank (Prim2SF x)) as [a|], (SFrank (Prim2SF y)) as [b|];
    try (split; [discriminate | intros (a' & b' & H1 & H2 & _); discriminate]).
  pose proof (lex_compare_spec a b) as H.
  split.
  - destruct (lex_compare a b); try discriminate; intros _; eauto 6.
  - intros (a' & b' & [= <-] & [= <-] & Heq).
    destruct a as [[a1 a2] a3], b as [[b1 b2] b3].
    destruct (lex_compare (a1, a2, a3) (b1, b2, b3)); simpl in *;
      [reflexivity | lia | lia].
Qed.

Lemma float_leb_refl x : not_nan x -> PrimFloat.leb x x = true.
Proof.
  intros H. apply not_nan_rank in H as [a Ha]. apply leb_rank.
  exists a, a. repeat split; try assumption. right.
  destruct a as [[a1 a2] a3]. simpl. lia.
Qed.

Lemma float_ltb_leb x y : PrimFloat.ltb x y = true -> PrimFloat.leb x y = true.
Proof.
  intros H. apply ltb_rank in H as (a & b & Ha & Hb & Hlt). apply leb_rank.
  exists a, b. auto.
Qed.

Lemma float_leb_trans x y z :
  PrimFloat.leb x y = true -> PrimFloat.leb y z = true -> PrimFloat.leb x z = true.
Proof.
  intros H1 H2.
  apply leb_rank in H1 as (a & b & Ha & Hb & Hab).
  apply leb_rank in H2 as (b' & c & Hb' & Hc & Hbc).
  rewrite Hb in Hb'. inversion Hb'; subst b'.
  apply leb_rank. exists a, c. repeat split; try assumption.
  destruct a as [[a1 a2] a3], b as [[b1 b2] b3], c as [[c1 c2] c3].
  simpl in *. lia.
Qed.

Lemma float_ltb_trans x y z :
  PrimFloat.ltb x y = true -> PrimFloat.ltb y z = true -> PrimFloat.ltb x z = true.
Proof.
  intros H1 H2.
  apply ltb_rank in H1 as (a & b & Ha & Hb & Hab).
  apply ltb_rank in H2 as (b' & c & Hb' & Hc & Hbc).
  rewrite Hb in Hb'. inversion Hb'; subst b'.
  apply ltb_rank. exists a, c. repeat split; try assumption.
  destruct a as [[a1 a2] a3], b as [[b1 b2] b3], c as [[c1 c2] c3].
  simpl in *. lia.
Qed.

(** Floats that are not NaN are totally ordered. *)
Lemma float_total x y :
  not_nan x -> not_nan y -> PrimFloat.ltb x y = false -> PrimFloat.leb y x = true.
Proof.
  intros Hx Hy Hlt.
  apply not_nan_rank in Hx as [a Ha]. apply not_nan_rank in Hy as [b Hb].
  apply leb_rank. exists b, a. repeat split; try assumption.
  destruct (PrimFloat.ltb x y) eqn:E; [discriminate|].
  assert (Hn : ~ lex_lt a b).
  { intros Hab. assert (PrimFloat.ltb x y = true) by (apply ltb_rank; eauto).
    congruence. }
  destruct a as [[a1 a2] a3], b as [[b1 b2] b3]. simpl in *. lia.
Qed.


Lemma float_leb_not_nan x y : PrimFloat.leb x y = true -> not_nan x /\ not_nan y.
Proof.
  intros H. apply leb_rank in H as (a & b & Ha & Hb & _).
  split; apply not_nan_rank; eauto.
Qed.

End FloatOrder.

(** ** The order of numbers

    The comparison of two numbers, of which either may be an [int] or a
    [float], is the comparison of their places; so the numbers that are
    not NaN are totally ordered. *)

Section NumOrder.
Local Open Scope Z_scope.

Lemma digits2_pos_bounds m :
  2 ^ (Zpos (digits2_pos m) - 1) <= Zpos m < 2 ^ Zpos (digits2_pos m).
Proof.
  induction m as [m IH|m IH|]; simpl digits2_pos.
  - rewrite Pos2Z.inj_succ.
    replace (Z.succ (Zpos (digits2_pos m)) - 1) with (Z.succ (Zpos (digits2_pos m) - 1)) by lia.
    rewrite !Z.pow_succ_r by lia. lia.
  - rewrite Pos2Z.inj_succ.
    replace (Z.succ (Zpos (digits2_pos m)) - 1) with (Z.succ (Zpos (digits2_pos m) - 1)) by lia.
    rewrite !Z.pow_succ_r by lia. lia.
  - simpl. lia.
Qed.

(** What validity says of a finite double [m * 2^e]. *)
Lemma valid_finite s m e :
  valid_binary (S754_finite s m e) = true ->
  -1074 <= e /\ Zpos m < 2 ^ 53 /\ (-1074 < e -> 2 ^ 52 <= Zpos m).
Proof.
  unfold valid_binary, bounded, canonical_mantissa, fexp, SpecFloat.emin, prec, emax.
  intros H. apply andb_prop in H as [H _]. apply Z.eqb_eq in H.
  pose proof (digits2_pos_bounds m) as [Hlo Hhi].
  assert (Hd : Zpos (digits2_pos m) <= 53) by lia.
  split; [lia|]. split.
  - eapply Z.lt_le_trans; [exact Hhi|]. apply Z.pow_le_mono_r; lia.
  - intros He. assert (Hd' : Zpos (digits2_pos m) = 53) by lia.
    rewrite Hd' in Hlo. exact Hlo.
Qed.

Lemma pow2_pos e : 0 <= e -> 0 < 2 ^ e.
Proof. intros. apply Z.pow_pos_nonneg; lia. Qed.

Lemma pow2_split a b : 0 <= a -> 0 <= b -> 2 ^ (a + b) = 2 ^ a * 2 ^ b.
Proof. intros. apply Z.pow_add_r; lia. Qed.

(** Two valid finite doubles of one sign: the greater exponent has the
    greater magnitude. *)
Lemma finite_lt_by_exponent m1 e1 m2 e2 :
  valid_binary (S754_finite false m1 e1) = true ->
  valid_binary (S754_finite false m2 e2) = true ->
  e1 < e2 ->
  Zpos m1 * 2 ^ (e1 + 1074) < Zpos m2 * 2 ^ (e2 + 1074).
Proof.
  intros H1 H2 He.
  apply valid_finite in H1 as (Hlo1 & Hm1 & _).
  apply valid_finite in H2 as (Hlo2 & _ & Hm2).
  specialize (Hm2 ltac:(lia)).
  replace (e2 + 1074) with ((e1 + 1074) + (e2 - e1)) by lia.
  rewrite (pow2_split (e1 + 1074) (e2 - e1)) by lia.
  pose proof (pow2_pos (e1 + 1074) ltac:(lia)) as HP.
  assert (HQ : 2 <= 2 ^ (e2 - e1)).
  { change 2 with (2 ^ 1) at 1. apply Z.pow_le_mono_r; lia. }
  change (2 ^ 53) with (2 * 2 ^ 52) in Hm1.
  set (P := 2 ^ (e1 + 1074)) in *. set (Q := 2 ^ (e2 - e1)) in *.
  assert (H1 : Zpos m1 * P < 2 * Zpos m2 * P)
    by (apply Z.mul_lt_mono_pos_r; lia).
  assert (H2 : 2 * Zpos m2 * P <= Q * Zpos m2 * P).
  { apply Z.mul_le_mono_nonneg_r; [lia|].
    apply Z.mul_le_mono_nonneg_r; lia. }
  replace (Zpos m2 * (P * Q)) with (Q * Zpos m2 * P) by ring.
  lia.
Qed.

Lemma place_compare_antisym a b : place_compare b a = CompOpp (place_compare a b).
Proof.
  unfold place_compare. rewrite (Z.compare_antisym (fst a) (fst b)).
  destruct (fst a ?= fst b); simpl; [apply Z.compare_antisym | reflexivity | reflexivity].
Qed.

Lemma compare_scaled x y k : 0 < k -> (x * k ?= y * k) = (x ?= y).
Proof.
  intros Hk. destruct (Z.compare_spec x y) as [->|H|H].
  - apply Z.compare_refl.
  - apply Z.compare_lt_iff. now apply Z.mul_lt_mono_pos_r.
  - apply Z.compare_gt_iff. now apply Z.mul_lt_mono_pos_r.
Qed.

Lemma SFcompare_place x y :
  valid_binary x = true -> valid_binary y = true ->
  SFcompare x y =
  match SFplace x, SFplace y with
  | Some a, Some b => Some (place_compare a b)
  | _, _ => None
  end.
Proof.
  intros Hx Hy.
  destruct x as [[|]|[|]| |s1 m1 e1], y as [[|]|[|]| |s2 m2 e2];
    try reflexivity.
  - (* zero, finite *)
    apply valid_finite in Hy as (Hlo & _).
    pose proof (pow2_pos (e2 + 1074) ltac:(lia)).
    unfold SFcompare, SFplace, place_compare. cbn [fst snd].
    rewrite Z.compare_refl. f_equal.
    destruct s2; symmetry; [apply Z.compare_gt_iff | apply Z.compare_lt_iff]; nia.
  - apply valid_finite in Hy as (Hlo & _).
    pose proof (pow2_pos (e2 + 1074) ltac:(lia)).
    unfold SFcompare, SFplace, place_compare. cbn [fst snd].
    rewrite Z.compare_refl. f_equal.
    destruct s2; symmetry; [apply Z.compare_gt_iff | apply Z.compare_lt_iff]; nia.
  - apply valid_finite in Hx as (Hlo & _).
    pose proof (pow2_pos (e1 + 1074) ltac:(lia)).
    unfold SFcompare, SFplace, place_compare. cbn [fst snd].
    rewrite Z.compare_refl. f_equal.
    destruct s1; symmetry; [apply Z.compare_lt_iff | apply Z.compare_gt_iff]; nia.
  - apply valid_finite in Hx as (Hlo & _).
    pose proof (pow2_pos (e1 + 1074) ltac:(lia)).
    unfold SFcompare, SFplace, place_compare. cbn [fst snd].
    rewrite Z.compare_refl. f_equal.
    destruct s1; symmetry; [apply Z.compare_lt_iff | apply Z.compare_gt_iff]; nia.
  - (* finite, finite *)
    pose proof (valid_finite _ _ _ Hx) as (Hlo1 & _).
    pose proof (valid_finite _ _ _ Hy) as (Hlo2 & _).
    pose proof (pow2_pos (e1 + 1074) ltac:(lia)) as HP1.
    pose proof (pow2_pos (e2 + 1074) ltac:(lia)) as HP2.
    assert (Hx' : valid_binary (S754_finite false m1 e1) = true) by exact Hx.
    assert (Hy' : valid_binary (S754_finite false m2 e2) = true) by exact Hy.
    unfold SFcompare, SFplace, place_compare. cbn [fst snd]. rewrite Z.compare_refl.
    f_equal.
    destruct s1, s2.
    + destruct (Z.compare_spec e1 e2) as [He|He|He].
      * subst e2. rewrite compare_scaled by assumption.
        change (Z.neg m1 ?= Z.neg m2) with (CompOpp (Z.pos m1 ?= Z.pos m2)).
        reflexivity.
      * pose proof (finite_lt_by_exponent m1 e1 m2 e2 Hx' Hy' He).
        symmetry. apply Z.compare_gt_iff. lia.
      * pose proof (finite_lt_by_exponent m2 e2 m1 e1 Hy' Hx' He).
        symmetry. apply Z.compare_lt_iff. lia.
    + symmetry. apply Z.compare_lt_iff. nia.
    + symmetry. apply Z.compare_gt_iff. nia.
    + destruct (Z.compare_spec e1 e2) as [He|He|He].
      * subst e2. rewrite compare_scaled by assumption. reflexivity.
      * pose proof (finite_lt_by_exponent m1 e1 m2 e2 Hx' Hy' He).
        symmetry. apply Z.compare_lt_iff. lia.
      * pose proof (finite_lt_by_exponent m2 e2 m1 e1 Hy' Hx' He).
        symmetry. apply Z.compare_gt_iff. lia.
Qed.

Lemma Z_compare_SF_place z f :
  valid_binary f = true ->
  Z_compare_SF z f =
  match SFplace f with
  | Some b => Some (place_compare (0, z * 2 ^ 1074) b)
  | None => None
  end.
Proof.
  intros Hf. pose proof (pow2_pos 1074 ltac:(lia)) as HK.
  destruct f as [[|]|[|]| |s m e]; try reflexivity.
  - unfold Z_compare_SF, SFplace, place_compare. cbn [fst snd].
    rewrite Z.compare_refl. f_equal.
    change ((z ?= 0) = (z * 2 ^ 1074 ?= 0 * 2 ^ 1074)).
    symmetry. now apply compare_scaled.
  - unfold Z_compare_SF, SFplace, place_compare. cbn [fst snd].
    rewrite Z.compare_refl. f_equal.
    change ((z ?= 0) = (z * 2 ^ 1074 ?= 0 * 2 ^ 1074)).
    symmetry. now apply compare_scaled.
  - apply valid_finite in Hf as (Hlo & _).
    unfold Z_compare_SF, SFplace, place_compare. cbn [fst snd].
    rewrite Z.compare_refl. f_equal.
    set (a := if s then Z.neg m else Z.pos m).
    destruct (0 <=? e) eqn:He.
    + apply Z.leb_le in He.
      replace (e + 1074) with (1074 + e) by lia.
      rewrite (pow2_split 1074 e) by lia.
      replace (a * (2 ^ 1074 * 2 ^ e)) with (a * 2 ^ e * 2 ^ 1074) by ring.
      now rewrite compare_scaled.
    + apply Z.leb_gt in He.
      replace (2 ^ 1074) with (2 ^ ((- e) + (e + 1074))) by (f_equal; lia).
      rewrite (pow2_split (- e) (e + 1074)) by lia.
      replace (z * (2 ^ (- e) * 2 ^ (e + 1074)))
        with (z * 2 ^ (- e) * 2 ^ (e + 1074)) by ring.
      rewrite compare_scaled by (apply pow2_pos; lia). reflexivity.
Qed.

(** The comparison of two numbers is the comparison of their places. *)
Lemma num_compare_place a b :
  num_compare a b =
  match num_place a, num_place b with
  | Some x, Some y => Some (place_compare x y)
  | _, _ => None
  end.
Proof.
  pose proof (pow2_pos 1074 ltac:(lia)) as HK.
  destruct a as [x|x], b as [y|y]; unfold num_compare, num_place.
  - unfold place_compare. cbn [fst snd]. rewrite Z.compare_refl.
    now rewrite compare_scaled.
  - apply Z_compare_SF_place, Prim2SF_valid.
  - rewrite (Z_compare_SF_place y (Prim2SF x) (Prim2SF_valid x)).
    destruct (SFplace (Prim2SF x)) as [p|]; [|reflexivity].
    simpl. now rewrite <- place_compare_antisym.
  - apply SFcompare_place; apply Prim2SF_valid.
Qed.

Lemma place_compare_spec a b :
  match place_compare a b with
  | Lt => fst a < fst b \/ (fst a = fst b /\ snd a < snd b)
  | Eq => fst a = fst b /\ snd a = snd b
  | Gt => fst b < fst a \/ (fst a = fst b /\ snd b < snd a)
  end.
Proof.
  unfold place_compare. destruct (Z.compare_spec (fst a) (fst b)); [|lia|lia].
  destruct (Z.compare_spec (snd a) (snd b)); lia.
Qed.

Lemma num_not_nan_place n :
  num_compare n n = Some Eq <-> exists p, num_place n = Some p.
Proof.
  rewrite num_compare_place. destruct (num_place n) as [p|].
  - split; [eauto | intros _]. f_equal.
    pose proof (place_compare_spec p p) as H.
    destruct (place_compare p p); [reflexivity | lia | lia].
  - split; [discriminate | intros [p H]; discriminate].
Qed.

Lemma num_leb_place a b :
  num_leb a b = true <->
  exists x y, num_place a = Some x /\ num_place b = Some y /\ place_compare x y <> Gt.
Proof.
  unfold num_leb. rewrite num_compare_place.
  destruct (num_place a) as [x|], (num_place b) as [y|];
    try (split; [discriminate | intros (x' & y' & H1 & H2 & _); discriminate]).
  split.
  - intros H. exists x, y. repeat split. intros E. rewrite E in H. discriminate.
  - intros (x' & y' & [= <-] & [= <-] & H).
    destruct (place_compare x y); [reflexivity | reflexivity | congruence].
Qed.

Lemma num_ltb_place a b :
  num_ltb a b = true <->
  exists x y, num_place a = Some x /\ num_place b = Some y /\ place_compare x y = Lt.
Proof.
  unfold num_ltb. rewrite num_compare_place.
  destruct (num_place a) as [x|], (num_place b) as [y|];
    try (split; [discriminate | intros (x' & y' & H1 & H2 & _); discriminate]).
  split.
  - intros H. exists x, y. repeat split.
    destruct (place_compare x y); [discriminate | reflexivity | discriminate].
  - intros (x' & y' & [= <-] & [= <-] & H). now rewrite H.
Qed.

Lemma num_leb_refl n : num_compare n n = Some Eq -> num_leb n n = true.
Proof. intros H. unfold num_leb. now rewrite H. Qed.

Lemma num_ltb_leb a b : num_ltb a b = true -> num_leb a b = true.
Proof.
  unfold num_ltb, num_leb. destruct (num_compare a b) as [[| |]|]; congruence.
Qed.

Lemma num_leb_trans a b c :
  num_leb a b = true -> num_leb b c = true -> num_leb a c = true.
Proof.
  intros H1 H2.
  apply num_leb_place in H1 as (x & y & Hx & Hy & Hxy).
  apply num_leb_place in H2 as (y' & z & Hy' & Hz & Hyz).
  rewrite Hy in Hy'. inversion Hy'; subst y'.
  apply num_leb_place. exists x, z. repeat split; try assumption.
  pose proof (place_compare_spec x y) as S1.
  pose proof (place_compare_spec y z) as S2.
  pose proof (place_compare_spec x z) as S3.
  destruct (place_compare x y); try congruence;
    destruct (place_compare y z); try congruence;
    destruct (place_compare x z); try discriminate; lia.
Qed.

(** Numbers that are not NaN are totally ordered. *)
Lemma num_total a b :
  num_compare a a = Some Eq -> num_compare b b = Some Eq ->
  num_ltb a b = false -> num_leb b a = true.
Proof.
  intros Ha Hb Hlt.
  apply num_not_nan_place in Ha as [x Hx]. apply num_not_nan_place in Hb as [y Hy].
  apply num_leb_place. exists y, x. repeat split; try assumption.
  intros Hgt.
  assert (Hlt' : num_ltb a b = true).
  { apply num_ltb_place. exists x, y. repeat split; try assumption.
    rewrite (place_compare_antisym y x), Hgt. reflexivity. }
  congruence.
Qed.

Lemma value_leb_refl v : is_number v -> value_leb v v = true.
Proof.
  intros (n & Hn & Hgood). unfold value_leb. rewrite Hn. now apply num_leb_refl.
Qed.

Lemma value_leb_trans a b c :
  value_leb a b = true -> value_leb b c = true -> value_leb a c = true.
Proof.
  unfold value_leb.
  destruct (as_num a) as [x|], (as_num b) as [y|], (as_num c) as [z|];
    try discriminate.
  apply num_leb_trans.
Qed.

(** A number is falsy when it is zero. *)
Lemma truthy_number v n : as_num v = Some n -> truthy v = negb (is_zero v).
Proof.
  intros Hn. unfold is_zero. rewrite Hn.
  destruct v as [|b|z|f| | |]; try discriminate; inversion Hn; subst n; clear Hn.
  - destruct b; reflexivity.
  - cbn [truthy num_compare]. destruct (Z.compare_spec z 0) as [->|H|H].
    + reflexivity.
    + rewrite (proj2 (Z.eqb_neq z 0)) by lia. reflexivity.
    + rewrite (proj2 (Z.eqb_neq z 0)) by lia. reflexivity.
  - cbn [truthy num_compare]. rewrite eqb_spec. unfold SFeqb.
    change (Prim2SF 0%float) with (S754_zero false).
    destruct (Prim2SF f) as [[|]|[|]| |s m e]; try reflexivity.
    unfold SFcompare, Z_compare_SF.
    assert (Hne : (if 0 <=? e
                   then 0 ?= (if s then Z.neg m else Z.pos m) * 2 ^ e
                   else 0 * 2 ^ (- e) ?= (if s then Z.neg m else Z.pos m)) <> Eq).
    { destruct (0 <=? e) eqn:He.
      - apply Z.leb_le in He. pose proof (pow2_pos e He) as HP.
        intros E. apply Z.compare_eq in E. destruct s; nia.
      - intros E. apply Z.compare_eq in E. destruct s; lia. }
    destruct (if 0 <=? e
              then 0 ?= (if s then Z.neg m else Z.pos m) * 2 ^ e
              else 0 * 2 ^ (- e) ?= (if s then Z.neg m else Z.pos m));
      [congruence | destruct s; reflexivity | destruct s; reflexivity].
Qed.

End NumOrder.

(** ** [min] with a key *)

Lemma mapM_In {A B : Type} (f : A -> res B) (l : list A) (ys : list B) (x : A) :
  mapM f l = Ok ys -> In x l -> exists y, f x = Ok y /\ In y ys.
Proof.
  revert ys. induction l as [|a l IH]; intros ys H Hin; [contradiction|].
  simpl in H. destruct (f a) as [b|e] eqn:Ha; [|discriminate].
  destruct (mapM f l) as [bs|e]; [|discriminate]. inversion H; subst ys.
  destruct Hin as [<-|Hin].
  - exists b. split; [assumption | now left].
  - destruct (IH bs eq_refl Hin) as (y & Hy & Hiny). exists y. split; [assumption | now right].
Qed.

Section MinBy.
Context {K A : Type}.
Variables (ltb leb : K -> K -> bool) (good : K -> Prop) (key : A -> res K).
Hypothesis leb_refl : forall k, good k -> leb k k = true.
Hypothesis ltb_leb : forall a b, ltb a b = true -> leb a b = true.
Hypothesis leb_trans : forall a b c, leb a b = true -> leb b c = true -> leb a c = true.
Hypothesis total : forall a b, good a -> good b -> ltb a b = false -> leb b a = true.

Lemma min_scan_least (l : list A) :
  forall best kbest keys,
    key best = Ok kbest -> good kbest ->
    mapM key l = Ok keys -> Forall good keys ->
    exists m km,
      min_scan ltb key best kbest l = Ok m /\
      In m (best :: l) /\
      key m = Ok km /\
      leb km kbest = true /\
      Forall (fun k => leb km k = true) keys.
Proof.
  induction l as [|x l IH]; intros best kbest keys Hbest Hgood Hkeys Hall.
  - inversion Hkeys; subst keys. exists best, kbest. simpl.
    split; [reflexivity|]. split; [now left|]. split; [exact Hbest|].
    split; [now apply leb_refl | constructor].
  - simpl in Hkeys. destruct (key x) as [k|e] eqn:Hx; [|discriminate].
    destruct (mapM key l) as [ks|e] eqn:Hl; [|discriminate].
    inversion Hkeys; subst keys. inversion Hall as [|? ? Hk Hks]; subst.
    simpl. unfold bind. rewrite Hx. destruct (ltb k kbest) eqn:Hlt.
    + destruct (IH x k ks Hx Hk eq_refl Hks) as (m & km & Hm & Hin & Hkm & Hle & Hrest).
      exists m, km. split; [exact Hm|]. split; [|split; [exact Hkm|split]].
      * destruct Hin as [<-|Hin]; [right; now left | right; now right].
      * eapply leb_trans; [exact Hle | now apply ltb_leb].
      * constructor; assumption.
    + destruct (IH best kbest ks Hbest Hgood eq_refl Hks)
        as (m & km & Hm & Hin & Hkm & Hle & Hrest).
      exists m, km. split; [exact Hm|]. split; [|split; [exact Hkm|split]].
      * destruct Hin as [<-|Hin]; [now left | right; now right].
      * exact Hle.
      * constructor; [|exact Hrest].
        eapply leb_trans; [exact Hle | now apply total].
Qed.

Lemma py_min_by_least (l : list A) (keys : list K) :
  l <> [] ->
  mapM key l = Ok keys -> Forall good keys ->
  exists m km,
    py_min_by ltb key l = Ok m /\
    In m l /\
    key m = Ok km /\
    forall x kx, In x l -> key x = Ok kx -> leb km kx = true.
Proof.
  destruct l as [|x l]; [congruence|]. intros _ Hkeys Hall.
  pose proof Hkeys as Hkeys'.
  simpl in Hkeys. destruct (key x) as [k|e] eqn:Hx; [|discriminate].
  destruct (mapM key l) as [ks|e] eqn:Hl; [|discriminate].
  inversion Hkeys; subst keys. inversion Hall as [|? ? Hk Hks]; subst.
  destruct (min_scan_least l x k ks Hx Hk Hl Hks) as (m & km & Hm & Hin & Hkm & Hle & Hrest).
  exists m, km. simpl. unfold bind. rewrite Hx.
  split; [exact Hm|]. split; [exact Hin|]. split; [exact Hkm|].
  intros y ky Hy Hky.
  destruct (mapM_In key (x :: l) (k :: ks) y Hkeys' Hy) as (ky' & Hky' & Hiny).
  rewrite Hky in Hky'. inversion Hky'; subst ky'.
  destruct Hiny as [<-|Hiny]; [exact Hle|].
  rewrite Forall_forall in Hrest. now apply Hrest.
Qed.

(** The first key that cannot be computed stops [min]. *)
Lemma min_scan_raise (l : list A) e :
  forall best kbest, mapM key l = Raise e -> min_scan ltb key best kbest l = Raise e.
Proof.
  induction l as [|x l IH]; intros best kbest H; [discriminate|].
  simpl in *. unfold bind. destruct (key x) as [k|e'] eqn:Hx; [|congruence].
  destruct (mapM key l) as [ks|e'] eqn:Hl; [discriminate|].
  inversion H; subst e'. destruct (ltb k kbest); now apply IH.
Qed.

Lemma py_min_by_raise (l : list A) e :
  mapM key l = Raise e -> py_min_by ltb key l = Raise e.
Proof.
  destruct l as [|x l]; [discriminate|]. simpl. unfold bind.
  destruct (key x) as [k|e'] eqn:Hx; [|congruence].
  destruct (mapM key l) as [ks|e'] eqn:Hl; [discriminate|].
  intros H. inversion H; subst e'. now apply min_scan_raise.
Qed.

End MinBy.

(** ** The optimizer's tools *)

Section OptimizerFacts.
Context {RT : Runtime}.

Lemma price_key_float d p :
  dict_get d "price" = Some (VFloat p) -> OptimizerAgent.price_key (VDict d) = Ok p.
Proof. intros H. unfold OptimizerAgent.price_key. simpl. now rewrite H. Qed.

Lemma price_key_missing d :
  dict_get d "price" = None -> OptimizerAgent.price_key (VDict d) = Ok infinity.
Proof. intros H. unfold OptimizerAgent.price_key. simpl. now rewrite H. Qed.

Lemma duration_key_int d z :
  dict_get d "duration_minutes" = Some (VInt z) ->
  OptimizerAgent.duration_key (VDict d) = Ok z.
Proof. intros H. unfold OptimizerAgent.duration_key. simpl. now rewrite H. Qed.

Lemma nonempty_truthy (items : list value) : items <> [] -> truthy (VList items) = true.
Proof. destruct items; [congruence | reflexivity]. Qed.

(** What the two tools return, as the code has it.  On a non-empty
    list of options: [_find_cheapest_option] returns an option of the list whose price,
    read as [float(price)] with [+inf] for a missing price, is [<=] that
    of every option, provided no price reads as NaN;
    [_find_fastest_option] returns an option of the list whose duration,
    read as [int(duration_minutes)], is [<=] that of every option; when
    a price, resp. a duration, cannot be read, the tool returns the
    serialized error of the first failure.  On the empty list both
    return the error result ["No options provided"]. *)
Theorem cheapest_and_fastest_are_least :
  (forall query data items keys,
      json_loads query = Ok data ->
      py_get data "options" (VList []) = Ok (VList items) ->
      items <> [] ->
      mapM OptimizerAgent.price_key items = Ok keys ->
      Forall not_nan keys ->
      exists m km,
        In m items /\
        OptimizerAgent.price_key m = Ok km /\
        (forall x kx, In x items -> OptimizerAgent.price_key x = Ok kx ->
                      PrimFloat.leb km kx = true) /\
        OptimizerAgent._find_cheapest_option query = Ok (json_dumps (success_result m))) /\
  (forall query data items keys,
      json_loads query = Ok data ->
      py_get data "options" (VList []) = Ok (VList items) ->
      items <> [] ->
      mapM OptimizerAgent.duration_key items = Ok keys ->
      exists m km,
        In m items /\
        OptimizerAgent.duration_key m = Ok km /\
        (forall x kx, In x items -> OptimizerAgent.duration_key x = Ok kx ->
                      (km <= kx)%Z) /\
        OptimizerAgent._find_fastest_option query = Ok (json_dumps (success_result m))) /\
  (forall query data items e,
      json_loads query = Ok data ->
      py_get data "options" (VList []) = Ok (VList items) ->
      items <> [] ->
      (mapM OptimizerAgent.price_key items = Raise e ->
       OptimizerAgent._find_cheapest_option query
       = Ok (json_dumps (VDict [("status", VStr "error");
                                ("message", VStr (str_exn e))]))) /\
      (mapM OptimizerAgent.duration_key items = Raise e ->
       OptimizerAgent._find_fastest_option query
       = Ok (json_dumps (VDict [("status", VStr "error");
                                ("message", VStr (str_exn e))])))) /\
  (forall query data,
      json_loads query = Ok data ->
      py_get data "options" (VList []) = Ok (VList []) ->
      OptimizerAgent._find_cheapest_option query
      = Ok (json_dumps (VDict [("status", VStr "error");
                               ("message", VStr "No options provided")])) /\
      OptimizerAgent._find_fastest_option query
      = Ok (json_dumps (VDict [("status", VStr "error");
                               ("message", VStr "No options provided")]))).
Proof.
  split; [|split; [|split]].
  - intros query data items keys Hparse Hopts Hne Hkeys Hgood.
    destruct (py_min_by_least PrimFloat.ltb PrimFloat.leb not_nan
                OptimizerAgent.price_key
                float_leb_refl float_ltb_leb float_leb_trans float_total
                items keys Hne Hkeys Hgood)
      as (m & km & Hmin & Hin & Hkm & Hleast).
    exists m, km. repeat split; try assumption.
    unfold OptimizerAgent._find_cheapest_option,
      OptimizerAgent.find_cheapest_option_body, try_except, bind.
    rewrite Hparse, Hopts, (nonempty_truthy items Hne). simpl. now rewrite Hmin.
  - intros query data items keys Hparse Hopts Hne Hkeys.
    destruct (py_min_by_least Z.ltb Z.leb (fun _ => True)
                OptimizerAgent.duration_key
                (fun k _ => Z.leb_refl k)
                (fun a b H => proj2 (Z.leb_le a b) (Z.lt_le_incl a b (proj1 (Z.ltb_lt a b) H)))
                (fun a b c H1 H2 =>
                   proj2 (Z.leb_le a c)
                         (Z.le_trans a b c (proj1 (Z.leb_le a b) H1)
                                     (proj1 (Z.leb_le b c) H2)))
                (fun a b _ _ H =>
                   proj2 (Z.leb_le b a) (proj1 (Z.ltb_ge a b) H))
                items keys Hne Hkeys)
      as (m & km & Hmin & Hin & Hkm & Hleast).
    { clear. induction keys; constructor; auto. }
    exists m, km. repeat split; try assumption.
    + intros x kx Hx Hkx. apply Z.leb_le. now apply (Hleast x kx).
    + unfold OptimizerAgent._find_fastest_option,
        OptimizerAgent.find_fastest_option_body, try_except, bind.
      rewrite Hparse, Hopts, (nonempty_truthy items Hne). simpl. now rewrite Hmin.
  - intros query data items e Hparse Hopts Hne. split; intros Hraise.
    + unfold OptimizerAgent._find_cheapest_option,
        OptimizerAgent.find_cheapest_option_body, try_except, bind.
      rewrite Hparse, Hopts, (nonempty_truthy items Hne). simpl.
      now rewrite (py_min_by_raise PrimFloat.ltb OptimizerAgent.price_key items e Hraise).
    + unfold OptimizerAgent._find_fastest_option,
        OptimizerAgent.find_fastest_option_body, try_except, bind.
      rewrite Hparse, Hopts, (nonempty_truthy items Hne). simpl.
      now rewrite (py_min_by_raise Z.ltb OptimizerAgent.duration_key items e Hraise).
  - intros query data Hparse Hopts. split.
    + unfold OptimizerAgent._find_cheapest_option,
        OptimizerAgent.find_cheapest_option_body, try_except, bind.
      now rewrite Hparse, Hopts.
    + unfold OptimizerAgent._find_fastest_option,
        OptimizerAgent.find_fastest_option_body, try_except, bind.
      now rewrite Hparse, Hopts.
Qed.

End OptimizerFacts.

(** The specification's scenario: of the prices 299.99 and 150.00 the
    tool returns the option at 150.00. *)
Lemma cheapest_and_fastest_are_least_witness :
  exists m km,
    In m [Example.flight 299.99; Example.flight 150.0] /\
    OptimizerAgent.price_key (RT := Example.codec) m = Ok km /\
    PrimFloat.leb km 299.99 = true /\
    OptimizerAgent._find_cheapest_option (RT := Example.codec)
      (TestDouble.dumps Example.two_prices)
    = Ok (TestDouble.dumps (success_result m)).
Proof.
  destruct (proj1 (cheapest_and_fastest_are_least (RT := Example.codec))
              (TestDouble.dumps Example.two_prices) Example.two_prices
              [Example.flight 299.99; Example.flight 150.0]
              [299.99%float; 150.0%float])
    as (m & km & Hin & Hkm & Hleast & Hrun).
  - reflexivity.
  - reflexivity.
  - discriminate.
  - reflexivity.
  - repeat constructor.
  - exists m, km. repeat split; try assumption.
    apply (Hleast (Example.flight 299.99)); [now left | reflexivity].
Defined.

(** C6.  The defect of [_find_fastest_option]: it compares
    [int(duration_minutes)], not the durations.  Of two options of 90.7
    and 90.2 minutes both read 90, and the tool returns the first one,
    of 90.7 minutes, although the option of 90.2 minutes is in the list:
    the duration of the returned option is not [<=] that of every
    option.  [_find_cheapest_option], which compares [float(price)],
    returns the option at 90.2 of the same two numbers as prices. *)
Theorem fastest_compares_whole_minutes :
  OptimizerAgent._find_fastest_option (RT := Example.codec)
    (TestDouble.dumps Example.two_durations)
  = Ok (TestDouble.dumps (VDict [("status", VStr "success");
                                 ("result", VDict [("duration_minutes", VFloat 90.7)])])) /\
  In (VDict [("duration_minutes", VFloat 90.2)])
     [Example.trip 90.7; Example.trip 90.2] /\
  PrimFloat.leb 90.7 90.2 = false /\
  OptimizerAgent.duration_key (RT := Example.codec) (Example.trip 90.7) = Ok 90%Z /\
  OptimizerAgent.duration_key (RT := Example.codec) (Example.trip 90.2) = Ok 90%Z /\
  OptimizerAgent._find_cheapest_option (RT := Example.codec)
    (TestDouble.dumps Example.two_close_prices)
  = Ok (TestDouble.dumps (VDict [("status", VStr "success");
                                 ("result", VDict [("price", VFloat 90.2)])])).
Proof.
  split; [vm_compute; reflexivity|]. split; [right; now left|].
  repeat split; vm_compute; reflexivity.
Qed.

(** ** [sorted] with [reverse=True] *)

Section SortDesc.
Context {K A : Type}.
Variables (ltb leb eqb : K -> K -> bool) (good : K -> Prop).
Hypothesis ltb_leb : forall a b, ltb a b = true -> leb a b = true.
Hypothesis leb_trans : forall a b c, leb a b = true -> leb b c = true -> leb a c = true.
Hypothesis total : forall a b, good a -> good b -> ltb a b = false -> leb b a = true.
Hypothesis eqb_not_ltb :
  forall a b k, eqb a k = true -> eqb b k = true -> ltb a b = false.

Implicit Types (x : K * A) (l : list (K * A)).

Lemma insert_desc_perm x l : Permutation (insert_desc ltb x l) (x :: l).
Proof.
  induction l as [|y l IH]; simpl; [reflexivity|].
  destruct (ltb (fst x) (fst y)); [|reflexivity].
  rewrite IH. apply perm_swap.
Qed.

Lemma sort_desc_perm l : Permutation (sort_desc ltb l) l.
Proof.
  induction l as [|x l IH]; simpl; [reflexivity|].
  rewrite insert_desc_perm. now constructor.
Qed.

Lemma insert_desc_sorted x l :
  good (fst x) -> Forall (fun y => good (fst y)) l ->
  StronglySorted (before leb) l -> StronglySorted (before leb) (insert_desc ltb x l).
Proof.
  intros Hx Hl Hs. induction l as [|y l IH]; simpl.
  - repeat constructor.
  - inversion Hs as [|? ? Hs' Hy]; subst. inversion Hl as [|? ? Hgy Hl']; subst.
    destruct (ltb (fst x) (fst y)) eqn:Hlt.
    + constructor; [now apply IH|].
      rewrite (insert_desc_perm x l). constructor; [|exact Hy].
      unfold before. now apply ltb_leb.
    + constructor; [exact Hs|].
      assert (Hyx : before leb x y) by (unfold before; now apply total).
      constructor; [exact Hyx|].
      rewrite Forall_forall in Hy |- *. intros z Hz. unfold before in *.
      eapply leb_trans; [apply Hy, Hz | exact Hyx].
Qed.

Lemma sort_desc_sorted l :
  Forall (fun y => good (fst y)) l -> StronglySorted (before leb) (sort_desc ltb l).
Proof.
  induction l as [|x l IH]; intros Hl; simpl; [constructor|].
  inversion Hl; subst. apply insert_desc_sorted; auto.
  rewrite (sort_desc_perm l). assumption.
Qed.

(** Stability: the elements with a given key are in the order they had. *)
Lemma insert_desc_stable k x l :
  filter (fun y => eqb (fst y) k) (insert_desc ltb x l)
  = filter (fun y => eqb (fst y) k) (x :: l).
Proof.
  induction l as [|y l IH]; [reflexivity|].
  simpl insert_desc. destruct (ltb (fst x) (fst y)) eqn:Hlt; [|reflexivity].
  simpl filter at 1. rewrite IH. simpl.
  destruct (eqb (fst x) k) eqn:Ex, (eqb (fst y) k) eqn:Ey; try reflexivity.
  rewrite (eqb_not_ltb _ _ _ Ex Ey) in Hlt. discriminate.
Qed.

Lemma sort_desc_stable k l :
  filter (fun y => eqb (fst y) k) (sort_desc ltb l)
  = filter (fun y => eqb (fst y) k) l.
Proof.
  induction l as [|x l IH]; [reflexivity|].
  simpl sort_desc. rewrite insert_desc_stable. simpl. now rewrite IH.
Qed.

End SortDesc.

Lemma float_eqb_not_ltb a b k :
  PrimFloat.eqb a k = true -> PrimFloat.eqb b k = true -> PrimFloat.ltb a b = false.
Proof.
  intros Ha Hb.
  apply eqb_rank in Ha as (ra & rk & Hra & Hrk & Hak).
  apply eqb_rank in Hb as (rb & rk' & Hrb & Hrk' & Hbk).
  rewrite Hrk in Hrk'. inversion Hrk'; subst rk'.
  destruct (PrimFloat.ltb a b) eqn:E; [|reflexivity].
  apply ltb_rank in E as (ra' & rb' & Hra' & Hrb' & Hlt).
  rewrite Hra in Hra'. rewrite Hrb in Hrb'. inversion Hra'; inversion Hrb'; subst.
  destruct ra' as [[a1 a2] a3], rb' as [[b1 b2] b3], rk as [[k1 k2] k3].
  simpl in *. lia.
Qed.

(** ** The preference-based ranking *)

Section RankingFacts.
Context {RT : Runtime}.

Lemma py_gt_floats a b : py_gt (VFloat a) (VFloat b) = Ok (PrimFloat.ltb b a).
Proof.
  unfold py_gt, py_lt, num_ltb. simpl. rewrite ltb_spec. reflexivity.
Qed.

Lemma mapM_cons_inv {A B : Type} (f : A -> res B) x l y ys :
  mapM f (x :: l) = Ok (y :: ys) -> f x = Ok y /\ mapM f l = Ok ys.
Proof.
  simpl. destruct (f x); [|discriminate]. destruct (mapM f l); [|discriminate].
  intros H. inversion H. auto.
Qed.

(** [max] over float values that are not NaN is their greatest. *)
Lemma max_scan_floats (f : value -> res value) (l : list value) :
  forall best vs,
    mapM f l = Ok (map VFloat vs) -> Forall not_nan vs -> not_nan best ->
    exists mx,
      max_scan f (VFloat best) l = Ok (VFloat mx) /\
      In mx (best :: vs) /\
      PrimFloat.leb best mx = true /\
      Forall (fun v => PrimFloat.leb v mx = true) vs.
Proof.
  induction l as [|x l IH]; intros best vs Hvs Hgood Hbest.
  - destruct vs; [|discriminate]. exists best. simpl.
    split; [reflexivity|]. split; [now left|].
    split; [now apply float_leb_refl | constructor].
  - destruct vs as [|v vs]; [simpl in Hvs; destruct (f x); [|discriminate];
                             destruct (mapM f l); discriminate|].
    simpl map in Hvs. apply mapM_cons_inv in Hvs as [Hx Hl].
    inversion Hgood as [|? ? Hv Hvs']; subst.
    simpl. unfold bind. rewrite Hx, py_gt_floats.
    destruct (PrimFloat.ltb best v) eqn:Hlt.
    + destruct (IH v vs Hl Hvs' Hv) as (mx & Hmx & Hin & Hle & Hall).
      exists mx. split; [exact Hmx|]. split; [|split].
      * destruct Hin as [<-|Hin]; [right; now left | right; now right].
      * apply (float_leb_trans best v mx); [now apply float_ltb_leb | exact Hle].
      * constructor; assumption.
    + destruct (IH best vs Hl Hvs' Hbest) as (mx & Hmx & Hin & Hle & Hall).
      exists mx. split; [exact Hmx|]. split; [|split].
      * destruct Hin as [<-|Hin]; [now left | right; now right].
      * exact Hle.
      * constructor; [|exact Hall].
        apply (float_leb_trans v best mx); [now apply float_total | exact Hle].
Qed.

Lemma max_or_1_floats field (items : list value) (vs : list float) :
  items <> [] ->
  mapM (fun opt => py_get opt field (VInt 0)) items = Ok (map VFloat vs) ->
  Forall not_nan vs ->
  exists mx,
    In mx vs /\
    (forall v, In v vs -> PrimFloat.leb v mx = true) /\
    OptimizerAgent.max_or_1 field (VList items)
    = Ok (if PrimFloat.eqb mx 0%float then VInt 1 else VFloat mx).
Proof.
  intros Hne Hvs Hgood. destruct items as [|x items]; [congruence|].
  destruct vs as [|v vs];
    [simpl in Hvs; destruct (py_get x field (VInt 0)); [|discriminate];
     destruct (mapM _ items); discriminate|].
  simpl map in Hvs. apply mapM_cons_inv in Hvs as [Hx Hl].
  inversion Hgood as [|? ? Hv Hvs']; subst.
  destruct (max_scan_floats _ items v vs Hl Hvs' Hv) as (mx & Hmx & Hin & Hle & Hall).
  exists mx. split; [exact Hin|]. split.
  - intros v' [<-|Hv']; [exact Hle|]. rewrite Forall_forall in Hall. now apply Hall.
  - unfold OptimizerAgent.max_or_1, py_max_gen, bind. simpl py_iter. cbv iota beta.
    rewrite Hx, Hmx. simpl. destruct (PrimFloat.eqb mx 0); reflexivity.
Qed.

Lemma truediv_by_max (p mx : float) :
  py_truediv (VFloat p) (if PrimFloat.eqb mx 0%float then VInt 1 else VFloat mx)
  = Ok (p / or_1 mx)%float.
Proof.
  unfold or_1. destruct (PrimFloat.eqb mx 0) eqn:E.
  - reflexivity.
  - unfold py_truediv. simpl. now rewrite E.
Qed.

Lemma Forall_fst_combine {A B : Type} (P : A -> Prop) (xs : list A) (ys : list B) :
  Forall P xs -> Forall (fun y => P (fst y)) (combine xs ys).
Proof.
  intros H. revert ys. induction H as [|x xs Hx _ IH]; intros ys; simpl; [constructor|].
  destruct ys; constructor; auto.
Qed.

Lemma mapM_length {A B : Type} (f : A -> res B) (l : list A) (ys : list B) :
  mapM f l = Ok ys -> length ys = length l.
Proof.
  revert ys. induction l as [|x l IH]; intros ys H; simpl in H.
  - now inversion H.
  - destruct (f x); [|discriminate]. destruct (mapM f l) eqn:E; [|discriminate].
    inversion H. simpl. f_equal. now apply IH.
Qed.

(** The score of an option, when prices, durations and weights are
    floats: the maxima are taken over all options, and a maximum that
    is zero is replaced by [1]. *)
Lemma calculate_score_floats preferences items prices durations pw dw :
  items <> [] ->
  py_get preferences "price_importance" (VFloat 0.5) = Ok (VFloat pw) ->
  py_get preferences "duration_importance" (VFloat 0.5) = Ok (VFloat dw) ->
  mapM (fun opt => py_get opt "price" (VInt 0)) items = Ok (map VFloat prices) ->
  mapM (fun opt => py_get opt "duration_minutes" (VInt 0)) items
  = Ok (map VFloat durations) ->
  Forall not_nan prices -> Forall not_nan durations ->
  exists max_price max_duration,
    In max_price prices /\
    (forall p, In p prices -> PrimFloat.leb p max_price = true) /\
    In max_duration durations /\
    (forall d, In d durations -> PrimFloat.leb d max_duration = true) /\
    forall option p d,
      py_get option "price" (VInt 0) = Ok (VFloat p) ->
      py_get option "duration_minutes" (VInt 0) = Ok (VFloat d) ->
      OptimizerAgent.calculate_score preferences (VList items) option
      = Ok ((0 + (1 - p / or_1 max_price) * pw)
            + (1 - d / or_1 max_duration) * dw)%float.
Proof.
  intros Hne Hpw Hdw Hprices Hdurations Hgp Hgd.
  destruct (max_or_1_floats "price" items prices Hne Hprices Hgp)
    as (mp & Hinp & Hmaxp & Hmp).
  destruct (max_or_1_floats "duration_minutes" items durations Hne Hdurations Hgd)
    as (md & Hind & Hmaxd & Hmd).
  exists mp, md. repeat split; try assumption.
  intros option p d Hp Hd.
  unfold OptimizerAgent.calculate_score, bind.
  rewrite Hpw, Hmp, Hp, truediv_by_max. simpl py_float_mul. cbv iota beta.
  rewrite Hdw, Hmd, Hd, truediv_by_max. reflexivity.
Qed.

(** *** Scores of numbers of either kind *)

Lemma py_gt_numbers v best :
  is_number v -> is_number best ->
  exists b,
    py_gt v best = Ok b /\
    (b = true -> value_leb best v = true) /\
    (b = false -> value_leb v best = true).
Proof.
  intros (nv & Hv & Hgv) (nb & Hb & Hgb).
  exists (num_ltb nb nv). unfold py_gt, py_lt, value_leb. rewrite Hv, Hb.
  split; [reflexivity|]. split.
  - apply num_ltb_leb.
  - now apply num_total.
Qed.

(** [max] over numbers that are not NaN is one of them, and none is
    greater. *)
Lemma max_scan_numbers (f : value -> res value) (l : list value) :
  forall best vs,
    mapM f l = Ok vs -> Forall is_number vs -> is_number best ->
    exists mx,
      max_scan f best l = Ok mx /\
      In mx (best :: vs) /\
      value_leb best mx = true /\
      Forall (fun v => value_leb v mx = true) vs.
Proof.
  induction l as [|x l IH]; intros best vs Hvs Hgood Hbest.
  - simpl in Hvs. inversion Hvs; subst vs. exists best. simpl.
    split; [reflexivity|]. split; [now left|].
    split; [now apply value_leb_refl | constructor].
  - destruct vs as [|v vs];
      [simpl in Hvs; destruct (f x); [|discriminate];
       destruct (mapM f l); discriminate|].
    apply mapM_cons_inv in Hvs as [Hx Hl].
    inversion Hgood as [|? ? Hv Hvs']; subst.
    destruct (py_gt_numbers v best Hv Hbest) as (b & Hgt & Htrue & Hfalse).
    simpl. unfold bind. rewrite Hx, Hgt.
    destruct b.
    + destruct (IH v vs Hl Hvs' Hv) as (mx & Hmx & Hin & Hle & Hall).
      exists mx. split; [exact Hmx|]. split; [|split].
      * destruct Hin as [<-|Hin]; [right; now left | right; now right].
      * apply (value_leb_trans best v mx); [now apply Htrue | exact Hle].
      * constructor; assumption.
    + destruct (IH best vs Hl Hvs' Hbest) as (mx & Hmx & Hin & Hle & Hall).
      exists mx. split; [exact Hmx|]. split; [|split].
      * destruct Hin as [<-|Hin]; [now left | right; now right].
      * exact Hle.
      * constructor; [|exact Hall].
        apply (value_leb_trans v best mx); [now apply Hfalse | exact Hle].
Qed.

Lemma max_or_1_numbers field (items vs : list value) :
  items <> [] ->
  mapM (fun opt => py_get opt field (VInt 0)) items = Ok vs ->
  Forall is_number vs ->
  exists mx,
    In mx vs /\
    (forall v, In v vs -> value_leb v mx = true) /\
    OptimizerAgent.max_or_1 field (VList items) = Ok (value_or_1 mx).
Proof.
  intros Hne Hvs Hgood. destruct items as [|x items]; [congruence|].
  destruct vs as [|v vs];
    [simpl in Hvs; destruct (py_get x field (VInt 0)); [|discriminate];
     destruct (mapM _ items); discriminate|].
  apply mapM_cons_inv in Hvs as [Hx Hl].
  inversion Hgood as [|? ? Hv Hvs']; subst.
  destruct (max_scan_numbers _ items v vs Hl Hvs' Hv) as (mx & Hmx & Hin & Hle & Hall).
  exists mx. split; [exact Hin|]. split.
  - intros v' [<-|Hv']; [exact Hle|]. rewrite Forall_forall in Hall. now apply Hall.
  - assert (Hnum : is_number mx).
    { rewrite Forall_forall in Hvs'. destruct Hin as [<-|Hin]; auto. }
    destruct Hnum as (n & Hn & _).
    unfold OptimizerAgent.max_or_1, py_max_gen, bind. simpl py_iter. cbv iota beta.
    rewrite Hx, Hmx. unfold value_or_1. rewrite (truthy_number mx n Hn).
    destruct (is_zero mx); reflexivity.
Qed.

Lemma py_float_mul_number f w fw :
  number_to_float w = Some fw -> py_float_mul f w = Ok (f * fw)%float.
Proof.
  unfold number_to_float, py_float_mul, bind.
  destruct (as_num w) as [n|]; [|discriminate].
  destruct (num_to_float n); [|discriminate]. now intros [= ->].
Qed.

(** The score of an option, when the prices and durations are numbers
    of either kind: the maxima are taken over all options, and a maximum
    that is zero is replaced by [1]. *)
Lemma calculate_score_numbers preferences items prices durations pw dw fpw fdw :
  items <> [] ->
  py_get preferences "price_importance" (VFloat 0.5) = Ok pw ->
  py_get preferences "duration_importance" (VFloat 0.5) = Ok dw ->
  number_to_float pw = Some fpw ->
  number_to_float dw = Some fdw ->
  mapM (fun opt => py_get opt "price" (VInt 0)) items = Ok prices ->
  mapM (fun opt => py_get opt "duration_minutes" (VInt 0)) items = Ok durations ->
  Forall is_number prices -> Forall is_number durations ->
  exists max_price max_duration,
    In max_price prices /\
    (forall p, In p prices -> value_leb p max_price = true) /\
    In max_duration durations /\
    (forall d, In d durations -> value_leb d max_duration = true) /\
    forall option price duration price_ratio duration_ratio,
      py_get option "price" (VInt 0) = Ok price ->
      py_get option "duration_minutes" (VInt 0) = Ok duration ->
      py_truediv price (value_or_1 max_price) = Ok price_ratio ->
      py_truediv duration (value_or_1 max_duration) = Ok duration_ratio ->
      OptimizerAgent.calculate_score preferences (VList items) option
      = Ok ((0 + (1 - price_ratio) * fpw)
            + (1 - duration_ratio) * fdw)%float.
Proof.
  intros Hne Hpw Hdw Hfpw Hfdw Hprices Hdurations Hgp Hgd.
  destruct (max_or_1_numbers "price" items prices Hne Hprices Hgp)
    as (mp & Hinp & Hmaxp & Hmp).
  destruct (max_or_1_numbers "duration_minutes" items durations Hne Hdurations Hgd)
    as (md & Hind & Hmaxd & Hmd).
  exists mp, md. repeat split; try assumption.
  intros option price duration price_ratio duration_ratio Hp Hd Hpr Hdr.
  unfold OptimizerAgent.calculate_score, bind.
  rewrite Hpw, Hmp, Hp, Hpr, (py_float_mul_number _ pw fpw Hfpw).
  rewrite Hdw, Hmd, Hd, Hdr, (py_float_mul_number _ dw fdw Hfdw).
  reflexivity.
Qed.

(** C7, as the code has it.  On a non-empty list of options whose
    scores can be computed and are not NaN, the tool returns the list
    sorted by score in descending order, options of equal score in the
    order of the input (the sort is stable), and as [result] the first
    of the sorted list, whose score is the greatest.  The score is
    [(1 - price / max_price) * price_importance
     + (1 - duration / max_duration) * duration_importance] in Python's
    arithmetic, for prices and durations that are numbers of either
    kind ([int], [bool] or [float], a missing one being the [int] [0]):
    each maximum is one of the numbers of all the options, none of
    which is greater, and it is replaced by [1] when it is [0]; for
    floats the quotient is the quotient of the floats.  The weights are
    [0.5] when the preferences do not give them. *)
Theorem recommend_ranks_by_score :
  (forall query data items preferences scores,
      json_loads query = Ok data ->
      py_get data "options" (VList []) = Ok (VList items) ->
      items <> [] ->
      py_get data "preferences" (VDict []) = Ok preferences ->
      mapM (OptimizerAgent.calculate_score preferences (VList items)) items = Ok scores ->
      Forall not_nan scores ->
      exists top rest,
        sort_desc PrimFloat.ltb (combine scores items) = top :: rest /\
        OptimizerAgent._recommend_based_on_preferences query
        = Ok (json_dumps (VDict [("status", VStr "success");
                                 ("result", snd top);
                                 ("all_ranked", VList (map snd (top :: rest)))])) /\
        Permutation (top :: rest) (combine scores items) /\
        StronglySorted (before PrimFloat.leb) (top :: rest) /\
        (forall k,
            filter (fun y => PrimFloat.eqb (fst y) k) (top :: rest)
            = filter (fun y => PrimFloat.eqb (fst y) k) (combine scores items)) /\
        (forall x, In x (combine scores items) ->
                   PrimFloat.leb (fst x) (fst top) = true)) /\
  (forall preferences items prices durations pw dw fpw fdw,
      items <> [] ->
      py_get preferences "price_importance" (VFloat 0.5) = Ok pw ->
      py_get preferences "duration_importance" (VFloat 0.5) = Ok dw ->
      number_to_float pw = Some fpw ->
      number_to_float dw = Some fdw ->
      mapM (fun opt => py_get opt "price" (VInt 0)) items = Ok prices ->
      mapM (fun opt => py_get opt "duration_minutes" (VInt 0)) items = Ok durations ->
      Forall is_number prices -> Forall is_number durations ->
      exists max_price max_duration,
        In max_price prices /\
        (forall p, In p prices -> value_leb p max_price = true) /\
        In max_duration durations /\
        (forall d, In d durations -> value_leb d max_duration = true) /\
        forall option price duration price_ratio duration_ratio,
          py_get option "price" (VInt 0) = Ok price ->
          py_get option "duration_minutes" (VInt 0) = Ok duration ->
          py_truediv price (value_or_1 max_price) = Ok price_ratio ->
          py_truediv duration (value_or_1 max_duration) = Ok duration_ratio ->
          OptimizerAgent.calculate_score preferences (VList items) option
          = Ok ((0 + (1 - price_ratio) * fpw)
                + (1 - duration_ratio) * fdw)%float) /\
  (forall preferences items prices durations pw dw,
      items <> [] ->
      py_get preferences "price_importance" (VFloat 0.5) = Ok (VFloat pw) ->
      py_get preferences "duration_importance" (VFloat 0.5) = Ok (VFloat dw) ->
      mapM (fun opt => py_get opt "price" (VInt 0)) items = Ok (map VFloat prices) ->
      mapM (fun opt => py_get opt "duration_minutes" (VInt 0)) items
      = Ok (map VFloat durations) ->
      Forall not_nan prices -> Forall not_nan durations ->
      exists max_price max_duration,
        In max_price prices /\
        (forall p, In p prices -> PrimFloat.leb p max_price = true) /\
        In max_duration durations /\
        (forall d, In d durations -> PrimFloat.leb d max_duration = true) /\
        forall option p d,
          py_get option "price" (VInt 0) = Ok (VFloat p) ->
          py_get option "duration_minutes" (VInt 0) = Ok (VFloat d) ->
          OptimizerAgent.calculate_score preferences (VList items) option
          = Ok ((0 + (1 - p / or_1 max_price) * pw)
                + (1 - d / or_1 max_duration) * dw)%float) /\
  (forall preferences weight,
      dict_get preferences weight = None ->
      py_get (VDict preferences) weight (VFloat 0.5) = Ok (VFloat 0.5)).
Proof.
  split; [|split; [|split]].
  - intros query data items preferences scores Hparse Hopts Hne Hprefs Hscores Hgood.
    set (scored := combine scores items).
    assert (Hperm : Permutation (sort_desc PrimFloat.ltb scored) scored)
      by apply sort_desc_perm.
    assert (Hsorted : StronglySorted (before PrimFloat.leb)
                                     (sort_desc PrimFloat.ltb scored)).
    { apply (sort_desc_sorted PrimFloat.ltb PrimFloat.leb not_nan
               float_ltb_leb float_leb_trans float_total).
      now apply Forall_fst_combine. }
    assert (Hlen : scored <> []).
    { unfold scored. apply mapM_length in Hscores.
      destruct items; [congruence|]. destruct scores; [discriminate|]. discriminate. }
    destruct (sort_desc PrimFloat.ltb scored) as [|top rest] eqn:Hranked.
    { apply Permutation_nil in Hperm. congruence. }
    exists top, rest. split; [reflexivity|]. split; [|split; [|split; [|split]]].
    + unfold OptimizerAgent._recommend_based_on_preferences,
        OptimizerAgent.recommend_based_on_preferences_body, try_except, bind.
      rewrite Hparse, Hopts, Hprefs, (nonempty_truthy items Hne). simpl negb.
      cbv iota. unfold OptimizerAgent.rank, bind. simpl py_iter. cbv iota beta.
      rewrite Hscores. fold scored. rewrite Hranked. reflexivity.
    + exact Hperm.
    + exact Hsorted.
    + intros k. rewrite <- Hranked.
      apply (sort_desc_stable PrimFloat.ltb PrimFloat.eqb float_eqb_not_ltb).
    + intros x Hx. apply (Permutation_in _ (Permutation_sym Hperm)) in Hx.
      inversion Hsorted as [|? ? _ Htop]; subst.
      destruct Hx as [<-|Hx].
      * apply float_leb_refl.
        assert (Hall : Forall (fun y => not_nan (fst y)) (top :: rest)).
        { rewrite Hperm. now apply Forall_fst_combine. }
        now inversion Hall.
      * rewrite Forall_forall in Htop. now apply Htop.
  - apply calculate_score_numbers.
  - apply calculate_score_floats.
  - intros preferences weight H. simpl. now rewrite H.
Qed.

End RankingFacts.

(** Three options with [int] prices and durations, one float price and
    one missing duration: the maxima are the [int]s 200 and 120, the
    scores are 0.25, 0.25 and 0.625, and the ranking puts the third
    option first and keeps the first before the second.  For the single
    option at price and duration [0] both maxima are replaced by [1]
    and the score is [1.0]. *)
Lemma recommend_ranks_by_score_witness :
  OptimizerAgent._recommend_based_on_preferences (RT := Scenario.codec)
    (TestDouble.dumps Scenario.rated_options)
  = Ok (TestDouble.dumps
          (VDict [("status", VStr "success");
                  ("result", Scenario.open_ticket);
                  ("all_ranked",
                   VList [Scenario.open_ticket; Scenario.morning; Scenario.evening])])) /\
  OptimizerAgent.calculate_score (RT := Scenario.codec) (VDict [])
    (VList [Scenario.morning; Scenario.evening; Scenario.open_ticket]) Scenario.morning
  = Ok 0.25%float /\
  OptimizerAgent.calculate_score (RT := Scenario.codec) (VDict [])
    (VList [Scenario.morning; Scenario.evening; Scenario.open_ticket]) Scenario.evening
  = Ok 0.25%float /\
  OptimizerAgent.calculate_score (RT := Scenario.codec) (VDict [])
    (VList [Scenario.morning; Scenario.evening; Scenario.open_ticket])
    Scenario.open_ticket
  = Ok 0.625%float /\
  OptimizerAgent.calculate_score (RT := Scenario.codec) (VDict [])
    (VList [Example.free_option]) Example.free_option
  = Ok 1%float.
Proof.
  split.
  { destruct (proj1 (recommend_ranks_by_score (RT := Scenario.codec))
                (TestDouble.dumps Scenario.rated_options) Scenario.rated_options
                [Scenario.morning; Scenario.evening; Scenario.open_ticket] (VDict [])
                [0.25%float; 0.25%float; 0.625%float])
      as (top & rest & Hranked & Hrun & _).
    - vm_compute. reflexivity.
    - reflexivity.
    - discriminate.
    - reflexivity.
    - vm_compute. reflexivity.
    - repeat constructor.
    - vm_compute in Hranked. inversion Hranked; subst top rest. exact Hrun. }
  destruct (proj1 (proj2 (recommend_ranks_by_score (RT := Scenario.codec)))
              (VDict [])
              [Scenario.morning; Scenario.evening; Scenario.open_ticket]
              [VInt 100; VInt 200; VFloat 150.0] [VInt 120; VInt 60; VInt 0]
              (VFloat 0.5) (VFloat 0.5) 0.5%float 0.5%float)
    as (max_price & max_duration & Hinp & Hmaxp & Hind & Hmaxd & Hscore);
    [ discriminate | reflexivity | reflexivity | reflexivity | reflexivity
    | reflexivity | reflexivity
    | repeat (constructor;
              [eexists; split; [reflexivity | vm_compute; reflexivity]|]);
      constructor
    | repeat (constructor;
              [eexists; split; [reflexivity | vm_compute; reflexivity]|]);
      constructor
    | ].
  assert (Hmp : max_price = VInt 200).
  { destruct Hinp as [<-|[<-|[<-|[]]]]; [|reflexivity|].
    - specialize (Hmaxp (VInt 200) ltac:(right; left; reflexivity)).
      vm_compute in Hmaxp. discriminate.
    - specialize (Hmaxp (VInt 200) ltac:(right; left; reflexivity)).
      vm_compute in Hmaxp. discriminate. }
  assert (Hmd : max_duration = VInt 120).
  { destruct Hind as [<-|[<-|[<-|[]]]]; [reflexivity| |].
    - specialize (Hmaxd (VInt 120) ltac:(left; reflexivity)).
      vm_compute in Hmaxd. discriminate.
    - specialize (Hmaxd (VInt 120) ltac:(left; reflexivity)).
      vm_compute in Hmaxd. discriminate. }
  subst max_price max_duration.
  split.
  { rewrite (Hscore Scenario.morning (VInt 100) (VInt 120) 0.5%float 1%float
               eq_refl eq_refl ltac:(vm_compute; reflexivity)
               ltac:(vm_compute; reflexivity)).
    vm_compute. reflexivity. }
  split.
  { rewrite (Hscore Scenario.evening (VInt 200) (VInt 60) 1%float 0.5%float
               eq_refl eq_refl ltac:(vm_compute; reflexivity)
               ltac:(vm_compute; reflexivity)).
    vm_compute. reflexivity. }
  split.
  { rewrite (Hscore Scenario.open_ticket (VFloat 150.0) (VInt 0) 0.75%float 0%float
               eq_refl eq_refl ltac:(vm_compute; reflexivity)
               ltac:(vm_compute; reflexivity)).
    vm_compute. reflexivity. }
  destruct (proj1 (proj2 (recommend_ranks_by_score (RT := Scenario.codec)))
              (VDict []) [Example.free_option] [VInt 0] [VInt 0]
              (VFloat 0.5) (VFloat 0.5) 0.5%float 0.5%float)
    as (max_price & max_duration & Hinp0 & _ & Hind0 & _ & Hscore0);
    [ discriminate | reflexivity | reflexivity | reflexivity | reflexivity
    | reflexivity | reflexivity
    | repeat (constructor;
              [eexists; split; [reflexivity | vm_compute; reflexivity]|]);
      constructor
    | repeat (constructor;
              [eexists; split; [reflexivity | vm_compute; reflexivity]|]);
      constructor
    | ].
  destruct Hinp0 as [<-|[]]. destruct Hind0 as [<-|[]].
  rewrite (Hscore0 Example.free_option (VInt 0) (VInt 0) 0%float 0%float
             eq_refl eq_refl ltac:(vm_compute; reflexivity)
             ltac:(vm_compute; reflexivity)).
  vm_compute. reflexivity.
Defined.

(** C7 as the specification words it fails: for one option with price
    and duration [0] the maxima are [0]; the code divides by [1] and
    scores the option [1.0], where a substituted [0] would make the
    division fail. *)
Lemma zero_maximum_is_replaced_by_one :
  OptimizerAgent.max_or_1 (RT := Example.codec) "price" (VList [Example.free_option])
  = Ok (VInt 1) /\
  spec_max_or_0 (RT := Example.codec) "price" (VList [Example.free_option])
  = Ok (VInt 0) /\
  OptimizerAgent.calculate_score (RT := Example.codec)
    (VDict []) (VList [Example.free_option]) Example.free_option
  = Ok 1%float /\
  spec_calculate_score (RT := Example.codec)
    (VDict []) (VList [Example.free_option]) Example.free_option
  = Raise (ZeroDivisionError "division by zero") /\
  OptimizerAgent.calculate_score (RT := Example.codec)
    (VDict []) (VList [Example.free_option]) Example.free_option
  <> spec_calculate_score (RT := Example.codec)
       (VDict []) (VList [Example.free_option]) Example.free_option.
Proof.
  repeat split; try (vm_compute; reflexivity).
  vm_compute. discriminate.
Qed.

(* ================================================================== *)
(** * Part VII. Further properties: workflows, agents, endpoints and stores *)
(* ================================================================== *)

Section WorkflowShape.
Context {RT : Runtime} {W : Type}.
Implicit Types (self : AgentManager W) (w : W).

#[local] Arguments process : simpl never.

Ltac split_run H :=
  repeat match type of H with
         | context [match ?x with _ => _ end] =>
             let E := fresh "E" in destruct x eqn:E; simpl in H; try discriminate
         end.

(** What one turn of the loop leaves in [results]. *)
Lemma workflow_step_shape self i step results context w s w' :
  workflow_step self i step results context w = (Ok s, w') ->
  dict_keys results = map step_key (seq 0 i) ->
  match s with
  | Continue r _ => dict_keys r = map step_key (seq 0 (S i))
  | Break r =>
      dict_keys r = map step_key (seq 0 (S i)) ++ ["status"; "failed_step"]%string /\
      dict_get r "status" = Some (VStr "error") /\
      dict_get r "failed_step" = Some (VInt (Z.of_nat i)) /\
      exists result, dict_get r (step_key i) = Some result /\
                     has_error_status result true
  end.
Proof.
  intros Hrun Hkeys.
  assert (Hnext : forall v, dict_keys (dict_set results (step_key i) v)
                            = map step_key (seq 0 (S i))).
  { intros v. rewrite dict_keys_set_new.
    - rewrite Hkeys, seq_S, map_app. reflexivity.
    - rewrite Hkeys. apply step_key_fresh. }
  unfold workflow_step, bind_st, lift, ret in Hrun. simpl in Hrun.
  split_run Hrun; inversion Hrun; subst; clear Hrun.
  - apply Hnext.
  - match goal with
    | |- context [dict_set results (step_key i) ?v] =>
        rename v into result; set (r1 := dict_set results (step_key i) result)
    end.
    assert (H1 : dict_keys r1 = map step_key (seq 0 (S i))) by apply Hnext.
    assert (H2 : dict_keys (dict_set r1 "status" (VStr "error"))
                 = map step_key (seq 0 (S i)) ++ ["status"%string]).
    { rewrite dict_keys_set_new; [now rewrite H1|].
      rewrite H1. apply status_not_step_key. }
    split; [|split; [|split]].
    + rewrite (dict_keys_set_new (dict_set r1 "status" (VStr "error")) "failed_step").
      * rewrite H2, <- app_assoc. reflexivity.
      * rewrite H2. intros H. apply in_app_or in H as [H|[H|[]]].
        -- now apply failed_step_not_step_key in H.
        -- discriminate.
    + rewrite dict_get_set_neq by discriminate. apply dict_get_set_eq.
    + apply dict_get_set_eq.
    + exists result. split.
      * rewrite dict_get_set_neq by apply step_key_not_failed_step.
        rewrite dict_get_set_neq by apply step_key_not_status.
        apply dict_get_set_eq.
      * eexists. split; eassumption.
  - apply Hnext.
Qed.

Lemma workflow_loop_shape self workflow :
  forall i results context w final w',
    workflow_loop self i workflow results context w = (Ok final, w') ->
    dict_keys results = map step_key (seq 0 i) ->
    dict_keys final = map step_key (seq 0 (length workflow + i)) \/
    exists j,
      i <= j < length workflow + i /\
      dict_keys final = map step_key (seq 0 (S j)) ++ ["status"; "failed_step"]%string /\
      dict_get final "status" = Some (VStr "error") /\
      dict_get final "failed_step" = Some (VInt (Z.of_nat j)) /\
      exists result, dict_get final (step_key j) = Some result /\
                     has_error_status result true.
Proof.
  induction workflow as [|step rest IH]; intros i results context w final w' Hrun Hkeys.
  - inversion Hrun; subst. left. exact Hkeys.
  - cbn [workflow_loop] in Hrun. unfold bind_st at 1 in Hrun.
    destruct (workflow_step self i step results context w) as [[s|e] w1] eqn:Hstep;
      [|discriminate].
    pose proof (workflow_step_shape _ _ _ _ _ _ _ _ Hstep Hkeys) as Hshape.
    destruct s as [r c|r].
    + apply IH in Hrun; [|exact Hshape].
      destruct Hrun as [H|(j & Hj & H)].
      * left. replace (length (step :: rest) + i) with (length rest + S i)
          by (simpl; lia).
        exact H.
      * right. exists j. split; [simpl; lia | exact H].
    + inversion Hrun; subst. right. exists i. split; [simpl; lia | exact Hshape].
Qed.

Lemma step_key_not_message (i : nat) : step_key i <> "message"%string.
Proof. unfold step_key. simpl. discriminate. Qed.

Lemma message_not_step_key (n : nat) : ~ In "message"%string (map step_key (seq 0 n)).
Proof.
  intros H. apply in_map_iff in H as (i & H & _). now apply step_key_not_message in H.
Qed.

(** The result of the loop never has a ["message"] of its own. *)
Lemma workflow_loop_no_message self workflow w final w' :
  workflow_loop self 0 workflow [] [] w = (Ok final, w') ->
  dict_get (if negb (dict_mem "status" final)
            then dict_set final "status" (VStr "success")
            else final) "message" = None.
Proof.
  intros Hrun. apply workflow_loop_shape in Hrun; [|reflexivity].
  apply dict_get_None. fold (dict_keys (if negb (dict_mem "status" final)
                                        then dict_set final "status" (VStr "success")
                                        else final)).
  destruct Hrun as [Hk|(j & _ & Hk & _)].
  - assert (Hno : ~ In "status"%string (dict_keys final))
      by (rewrite Hk; apply status_not_step_key).
    apply dict_mem_false in Hno. rewrite Hno. cbn [negb].
    rewrite dict_keys_set_new by (rewrite Hk; apply status_not_step_key).
    rewrite Hk. intros H. apply in_app_or in H as [H|[H|[]]].
    + now apply message_not_step_key in H.
    + discriminate.
  - assert (Hyes : In "status"%string (dict_keys final))
      by (rewrite Hk; apply in_or_app; right; left; reflexivity).
    apply dict_mem_true in Hyes. rewrite Hyes. cbn [negb].
    unfold dict_keys in Hk. rewrite Hk.
    intros H. apply in_app_or in H as [H|[H|[H|[]]]].
    + now apply message_not_step_key in H.
    + discriminate.
    + discriminate.
Qed.

(** X1. Whatever the workflow and the agents, a result that
    [process_workflow] returns has one of two shapes.  Either its keys
    are [step_0 .. step_(n-1)] and then ["status"], for the [n] steps of
    the workflow, and the status is ["success"]; or they are
    [step_0 .. step_j], ["status"] and ["failed_step"] for an index [j]
    of the workflow, the status is ["error"], [failed_step] is [j] and
    the entry of [step_j] has the status ["error"].  In both, the result
    has no ["message"]. *)
Theorem process_workflow_result_shape self workflow w v w' :
  process_workflow self workflow w = (Ok v, w') ->
  exists final,
    v = VDict final /\
    dict_get final "message" = None /\
    ((dict_keys final = map step_key (seq 0 (length workflow)) ++ ["status"%string] /\
      dict_get final "status" = Some (VStr "success")) \/
     (exists j,
         j < length workflow /\
         dict_keys final
         = map step_key (seq 0 (S j)) ++ ["status"; "failed_step"]%string /\
         dict_get final "status" = Some (VStr "error") /\
         dict_get final "failed_step" = Some (VInt (Z.of_nat j)) /\
         exists result, dict_get final (step_key j) = Some result /\
                        has_error_status result true)).
Proof.
  unfold process_workflow, bind_st, ret. intros Hrun.
  destruct (workflow_loop self 0 workflow [] [] w) as [[results|e] w1] eqn:Hloop;
    [|discriminate].
  inversion Hrun; subst. eexists. split; [reflexivity|].
  split; [now apply (workflow_loop_no_message self workflow w results w')|].
  apply workflow_loop_shape in Hloop; [|reflexivity].
  destruct Hloop as [Hk|(j & Hj & Hk & Hrest)].
  - left.
    assert (Hno : ~ In "status"%string (dict_keys results))
      by (rewrite Hk; apply status_not_step_key).
    pose proof Hno as Hmem. apply dict_mem_false in Hmem. rewrite Hmem. cbn [negb].
    split; [|apply dict_get_set_eq].
    rewrite dict_keys_set_new by exact Hno. rewrite Hk. now rewrite Nat.add_0_r.
  - right.
    assert (Hyes : In "status"%string (dict_keys results))
      by (rewrite Hk; apply in_or_app; right; left; reflexivity).
    apply dict_mem_true in Hyes. rewrite Hyes. cbn [negb].
    exists j. split; [lia|]. split; [exact Hk | exact Hrest].
Qed.

End WorkflowShape.

(** ** What escapes [process] and [process_workflow] *)

Section WorkflowErrors.
Context {RT : Runtime} {W : Type}.
Implicit Types (self : AgentManager W) (w : W).

Lemma process_registered self (name : string) agent d input w :
  dict_get (agents self) name = Some agent ->
  AgentInput_new (match dict_get d "query" with Some q => q | None => VStr "" end)
                 (match dict_get d "context" with Some c => c | None => VDict [] end)
  = Ok input ->
  process self (VStr name) (VDict d) w = call_agent agent (VStr name) input w.
Proof.
  intros Hagent Hinput.
  unfold process, bind_st, lift, ret, py_contains, py_lookup, dict_mem. simpl.
  rewrite Hagent. simpl. rewrite Hinput. reflexivity.
Qed.

(** X2. [process] on a registered name and an input whose query and
    context make an [AgentInput]: whatever the agent does, [process]
    returns.  The agent's answer comes back under the status
    ["success"]; an exception of the agent comes back as the result
    [{"status": "error", "message": str(e), "agent": agent_name}], in
    the world the agent had reached when it raised. *)
Theorem process_catches_agent_exceptions self (name : string) agent d input w :
  dict_get (agents self) name = Some agent ->
  AgentInput_new (match dict_get d "query" with Some q => q | None => VStr "" end)
                 (match dict_get d "context" with Some c => c | None => VDict [] end)
  = Ok input ->
  (forall out w',
      agent input w = (Ok out, w') ->
      process self (VStr name) (VDict d) w
      = (Ok (VDict [("status", VStr "success");
                    ("output", VStr (output out));
                    ("metadata", metadata out)]), w')) /\
  (forall e w',
      agent input w = (Raise e, w') ->
      process self (VStr name) (VDict d) w
      = (Ok (VDict [("status", VStr "error");
                    ("message", VStr (str_exn e));
                    ("agent", VStr name)]), w')) /\
  exists result w', process self (VStr name) (VDict d) w = (Ok result, w').
Proof.
  intros Hagent Hinput.
  rewrite (process_registered self name agent d input w Hagent Hinput).
  unfold call_agent, try_except_st, bind_st, ret.
  split; [|split].
  - intros out w' ->. reflexivity.
  - intros e w' ->. reflexivity.
  - destruct (agent input w) as [[out|e] w']; eauto.
Qed.

#[local] Arguments process : simpl never.

Lemma workflow_step_merge_raises self i step results context w a input e :
  py_get step "agent" VNone = Ok a ->
  truthy a = true ->
  py_get step "input" (VDict []) = Ok input ->
  merge_context input context = Raise e ->
  workflow_step self i step results context w = (Raise e, w).
Proof.
  intros Ha Htruthy Hin Hmerge. unfold workflow_step, bind_st, lift.
  rewrite Ha. simpl. rewrite Htruthy. simpl. rewrite Hin. simpl. rewrite Hmerge.
  reflexivity.
Qed.

Lemma passes_then_raises self pre step post w0 results context w1 e :
  passes self 0 pre [] [] w0 results context w1 ->
  workflow_step self (length pre) step results context w1 = (Raise e, w1) ->
  process_workflow self (pre ++ step :: post) w0 = (Raise e, w1).
Proof.
  intros Hpass Hstep. unfold process_workflow, bind_st at 1.
  rewrite (passes_loop _ _ _ _ _ _ _ _ _ Hpass). rewrite Nat.add_0_r.
  cbn [workflow_loop]. unfold bind_st at 1. rewrite Hstep. reflexivity.
Qed.

Lemma merge_context_ok (d : dict) context :
  dict_get d "context" = None \/ (exists c, dict_get d "context" = Some (VDict c)) ->
  exists merged, merge_context (VDict d) context = Ok merged.
Proof.
  unfold merge_context, dict_mem. intros [H|(c & H)]; rewrite H.
  - rewrite dict_get_set_eq. eauto.
  - rewrite H. eauto.
Qed.

(** X3. [process_workflow] does not guard the step's input.  After
    steps that pass, a step that names an agent and whose input is not
    a dict makes it raise [TypeError]; a step whose input has a
    ["context"] that is not a dict (JSON [null], for one) makes it
    raise [AttributeError].  No result is returned then, not even for
    the steps that have run, and the world is the one they left.
    Conversely, when the workflow returns, the input of such a step was
    a dict whose ["context"] was absent or a dict. *)
Theorem workflow_raises_on_malformed_input self pre step post w0 results context w1
    a input :
  passes self 0 pre [] [] w0 results context w1 ->
  py_get step "agent" VNone = Ok a ->
  truthy a = true ->
  py_get step "input" (VDict []) = Ok input ->
  ((forall d, input <> VDict d) ->
   process_workflow self (pre ++ step :: post) w0
   = (Raise (TypeError "the step's input is not a dict"), w1)) /\
  (forall d c,
      input = VDict d -> dict_get d "context" = Some c -> (forall x, c <> VDict x) ->
      process_workflow self (pre ++ step :: post) w0
      = (Raise (AttributeError "object has no attribute 'update'"), w1)) /\
  (forall v w',
      process_workflow self (pre ++ step :: post) w0 = (Ok v, w') ->
      exists d, input = VDict d /\
                (dict_get d "context" = None \/
                 exists c, dict_get d "context" = Some (VDict c))).
Proof.
  intros Hpass Ha Htruthy Hin.
  assert (Hraise : forall e,
             merge_context input context = Raise e ->
             process_workflow self (pre ++ step :: post) w0 = (Raise e, w1)).
  { intros e He. apply (passes_then_raises _ _ _ _ _ results context); [exact Hpass|].
    now apply (workflow_step_merge_raises _ _ _ _ _ _ a input). }
  assert (Hnot_dict : (forall d, input <> VDict d) ->
                      merge_context input context
                      = Raise (TypeError "the step's input is not a dict")).
  { intros Hnd. destruct input as [| | | | | |d0]; try reflexivity. now destruct (Hnd d0). }
  assert (Hbad_context : forall d c,
             input = VDict d -> dict_get d "context" = Some c ->
             (forall x, c <> VDict x) ->
             merge_context input context
             = Raise (AttributeError "object has no attribute 'update'")).
  { intros d c -> Hc Hnd. unfold merge_context, dict_mem. rewrite Hc. rewrite Hc.
    destruct c as [| | | | | |c0]; try reflexivity. now destruct (Hnd c0). }
  split; [|split].
  - intros Hnd. apply Hraise. now apply Hnot_dict.
  - intros d c Hd Hc Hnd. apply Hraise. now apply (Hbad_context d c).
  - intros v w' Hrun.
    destruct input as [| | | | | |d];
      try (rewrite (Hraise _ (Hnot_dict ltac:(intros; discriminate))) in Hrun;
           discriminate).
    exists d. split; [reflexivity|].
    destruct (dict_get d "context") as [c|] eqn:Hc; [|now left].
    right. destruct c as [| | | | | |c];
      try (rewrite (Hraise _ (Hbad_context d _ eq_refl Hc
                                ltac:(intros; discriminate))) in Hrun;
           discriminate).
    eauto.
Qed.

(** X4. The context handed from step to step holds only results of
    steps that succeeded: a binding of the context after steps that
    pass was there before them, or its key is a registered agent name,
    its value does not have the status ["error"], and it is the result
    recorded for a step of that agent. *)
Theorem workflow_context_holds_successes self i steps results context w
    results' context' w' :
  passes self i steps results context w results' context' w' ->
  forall name v,
    dict_get context' name = Some v ->
    dict_get context name = Some v \/
    (dict_mem name (agents self) = true /\
     has_error_status v false /\
     exists j step,
       nth_error steps j = Some step /\
       py_get step "agent" VNone = Ok (VStr name) /\
       dict_get results' (step_key (i + j)) = Some v).
Proof.
  induction 1 as [| i step steps results context w results' context' w' Hlack Hrest IH
                  | i step steps results context w agent_name result w1 context1
                      results' context' w' Hdisp Hok Hctx Hrest IH];
    intros name v Hv.
  - now left.
  - destruct (IH name v Hv) as [H|(Hmem & Hnoerr & j & s & Hj & Hs & Hres)];
      [now left|].
    right. split; [exact Hmem|]. split; [exact Hnoerr|].
    exists (S j), s. split; [exact Hj|]. split; [exact Hs|].
    now rewrite Nat.add_succ_r.
  - destruct Hdisp as (si & merged & Ha & Htruthy & Hin & Hmerge & Hproc).
    destruct (process_success_name _ _ _ _ _ _ Hproc Hok) as (s & -> & Hreg).
    simpl in Hctx. inversion Hctx; subst context1; clear Hctx.
    destruct (IH name v Hv) as [H|(Hmem & Hnoerr & j & s' & Hj & Hs & Hres)].
    + destruct (string_dec name s) as [->|Hne].
      * rewrite dict_get_set_eq in H. inversion H; subst v.
        right. split; [exact Hreg|]. split; [exact Hok|].
        exists 0, step. split; [reflexivity|]. split; [exact Ha|].
        rewrite Nat.add_0_r.
        rewrite (passes_keeps _ _ _ _ _ _ _ _ _ Hrest i) by lia.
        apply dict_get_set_eq.
      * rewrite dict_get_set_neq in H by exact Hne. now left.
    + right. split; [exact Hmem|]. split; [exact Hnoerr|].
      exists (S j), s'. split; [exact Hj|]. split; [exact Hs|].
      now rewrite Nat.add_succ_r.
Qed.

End WorkflowErrors.

(** ** The agents' own [process] *)

Section AgentProcess.
Context {RT : Runtime} {X : Type}.
Implicit Types (self : BaseAgent.t X) (w : BaseAgent.World X).

Lemma executors_get_set_eq (d : list (string * BaseAgent.AgentExecutor X)) k v :
  dict_get (BaseAgent.executors_set d k v) k = Some v.
Proof.
  induction d as [|[k' v'] d IH]; simpl.
  - now rewrite String.eqb_refl.
  - destruct (String.eqb k' k) eqn:E; simpl; now rewrite E.
Qed.

Lemma executors_get_set_neq (d : list (string * BaseAgent.AgentExecutor X)) k k' v :
  k' <> k -> dict_get (BaseAgent.executors_set d k v) k' = dict_get d k'.
Proof.
  intros Hne. induction d as [|[k0 v0] d IH]; simpl.
  - destruct (String.eqb k k') eqn:E; [|reflexivity].
    apply String.eqb_eq in E. congruence.
  - destruct (String.eqb k0 k) eqn:E; simpl.
    + apply String.eqb_eq in E. subst k0.
      destruct (String.eqb k k') eqn:E'; [|reflexivity].
      apply String.eqb_eq in E'. congruence.
    + now rewrite IH.
Qed.

Lemma agent_process_initialised self ex input w :
  dict_get (BaseAgent.executors w) (BaseAgent.name self) = Some ex ->
  BaseAgent.process self input w
  = (Ok match fst (ex (query input) (BaseAgent.env w)) with
        | Ok result =>
            {| output := result;
               metadata := VDict [("agent", VStr (BaseAgent.name self))] |}
        | Raise e =>
            {| output := "An error occurred: " ++ str_exn e;
               metadata := VDict [("agent", VStr (BaseAgent.name self));
                                  ("error", VBool true)] |}
        end,
     {| BaseAgent.executors := BaseAgent.executors w;
        BaseAgent.env := snd (ex (query input) (BaseAgent.env w)) |}).
Proof.
  intros Hex.
  unfold BaseAgent.process, bind_st, get_state, ret, try_except_st, BaseAgent.in_env.
  rewrite Hex. simpl.
  destruct (ex (query input) (BaseAgent.env w)) as [[result|e] x']; reflexivity.
Qed.

(** X5. An agent that has its executor never raises: the planner's
    answer is the output, and an exception of the planner is caught and
    becomes the output ["An error occurred: ..."] with the metadata
    [{"agent": self.name, "error": True}].  The executor is kept. *)
Theorem agent_process_masks_planner_failure self ex input w :
  dict_get (BaseAgent.executors w) (BaseAgent.name self) = Some ex ->
  (forall result x',
      ex (query input) (BaseAgent.env w) = (Ok result, x') ->
      BaseAgent.process self input w
      = (Ok {| output := result;
               metadata := VDict [("agent", VStr (BaseAgent.name self))] |},
         {| BaseAgent.executors := BaseAgent.executors w; BaseAgent.env := x' |})) /\
  (forall e x',
      ex (query input) (BaseAgent.env w) = (Raise e, x') ->
      BaseAgent.process self input w
      = (Ok {| output := "An error occurred: " ++ str_exn e;
               metadata := VDict [("agent", VStr (BaseAgent.name self));
                                  ("error", VBool true)] |},
         {| BaseAgent.executors := BaseAgent.executors w; BaseAgent.env := x' |})) /\
  exists out w',
    BaseAgent.process self input w = (Ok out, w') /\
    BaseAgent.executors w' = BaseAgent.executors w.
Proof.
  intros Hex. rewrite (agent_process_initialised self ex input w Hex).
  split; [|split].
  - intros result x' ->. reflexivity.
  - intros e x' ->. reflexivity.
  - eauto.
Qed.

(** X6. The executor is made on first use, and outside the [try]: an
    exception of [get_agent] escapes [process] and leaves the agent
    without executor, so that the next call tries again; an executor
    that is made is stored under the agent's name, the other agents'
    are untouched, and the call goes on as a call of the initialised
    agent. *)
Theorem agent_process_initialises_on_first_use self input w :
  dict_get (BaseAgent.executors w) (BaseAgent.name self) = None ->
  (forall e x',
      BaseAgent.get_agent self (BaseAgent.env w) = (Raise e, x') ->
      BaseAgent.process self input w
      = (Raise e,
         {| BaseAgent.executors := BaseAgent.executors w; BaseAgent.env := x' |})) /\
  (forall ex x',
      BaseAgent.get_agent self (BaseAgent.env w) = (Ok ex, x') ->
      let w1 := {| BaseAgent.executors :=
                     BaseAgent.executors_set (BaseAgent.executors w)
                                             (BaseAgent.name self) ex;
                   BaseAgent.env := x' |} in
      BaseAgent.process self input w = BaseAgent.process self input w1 /\
      dict_get (BaseAgent.executors w1) (BaseAgent.name self) = Some ex /\
      forall other,
        other <> BaseAgent.name self ->
        dict_get (BaseAgent.executors w1) other
        = dict_get (BaseAgent.executors w) other).
Proof.
  intros Hnone. split.
  - intros e x' Hinit.
    unfold BaseAgent.process, bind_st, get_state, BaseAgent.in_env.
    rewrite Hnone, Hinit. reflexivity.
  - intros ex x' Hinit w1.
    assert (Hset : dict_get (BaseAgent.executors w1) (BaseAgent.name self) = Some ex)
      by apply executors_get_set_eq.
    split; [|split].
    + rewrite (agent_process_initialised self ex input w1 Hset).
      unfold BaseAgent.process, bind_st, get_state, ret, try_except_st,
        BaseAgent.in_env, BaseAgent.set_agent.
      rewrite Hnone, Hinit. simpl.
      destruct (ex (query input) x') as [[result|e] x'']; reflexivity.
    + exact Hset.
    + intros other Hne. now apply executors_get_set_neq.
Qed.

Lemma agent_process_ignores_context self : ignores_context (BaseAgent.process self).
Proof. intros q c1 c2 w. reflexivity. Qed.

Variables search optimizer payment notification : ST X (BaseAgent.AgentExecutor X).

Lemma agent_manager_lookup k agent :
  dict_get (agents (BaseAgent.agent_manager search optimizer payment notification)) k
  = Some agent ->
  k <> ""%string /\
  exists self, agent = BaseAgent.process self /\ In (BaseAgent.name self) agent_names.
Proof.
  unfold BaseAgent.agent_manager, __init__, agent_names. cbn [agents dict_get].
  repeat match goal with
         | |- context [String.eqb ?a k] =>
             let E := fresh "E" in
             destruct (String.eqb a k) eqn:E;
             [apply String.eqb_eq in E; subst k; intros [= <-];
              split; [discriminate|]; eexists; split; [reflexivity|]; simpl; tauto|]
         end.
  discriminate.
Qed.

End AgentProcess.

(** ** Workflows of agents that do not read the context *)

Section ContextFree.
Context {RT : Runtime} {W : Type}.
Implicit Types (self : AgentManager W) (w : W).

Lemma merge_context_plain (d : dict) context :
  plain_input d ->
  exists m c,
    merge_context (VDict d) context = Ok (VDict m) /\
    dict_get m "query" = dict_get d "query" /\
    dict_get m "context" = Some (VDict c).
Proof.
  intros [_ [Hc|(c & Hc)]]; unfold merge_context, dict_mem; rewrite Hc.
  - rewrite dict_get_set_eq. do 2 eexists. split; [reflexivity|].
    split; [|apply dict_get_set_eq].
    now rewrite !dict_get_set_neq by discriminate.
  - rewrite Hc. do 2 eexists. split; [reflexivity|].
    split; [|apply dict_get_set_eq].
    now rewrite dict_get_set_neq by discriminate.
Qed.

Lemma AgentInput_new_plain (m : dict) c :
  dict_get m "query" = None \/ (exists q, dict_get m "query" = Some (VStr q)) ->
  exists q,
    AgentInput_new (match dict_get m "query" with Some q => q | None => VStr "" end)
                   (VDict c)
    = Ok {| query := q; context := VDict c |}.
Proof. intros [H|(q & H)]; rewrite H; simpl; eauto. Qed.

Lemma process_same_query self a m1 m2 c1 c2 w :
  (forall k agent, dict_get (agents self) k = Some agent -> ignores_context agent) ->
  dict_get m1 "query" = dict_get m2 "query" ->
  dict_get m2 "query" = None \/ (exists q, dict_get m2 "query" = Some (VStr q)) ->
  dict_get m1 "context" = Some (VDict c1) ->
  dict_get m2 "context" = Some (VDict c2) ->
  process self a (VDict m1) w = process self a (VDict m2) w.
Proof.
  intros Hign Hq Hplain H1 H2.
  destruct a as [| | | |k| |]; try reflexivity.
  destruct (dict_get (agents self) k) as [agent|] eqn:Hagent.
  - destruct (AgentInput_new_plain m2 c1 Hplain) as (q & Hin1).
    destruct (AgentInput_new_plain m2 c2 Hplain) as (q' & Hin2).
    assert (q' = q) as -> by (destruct Hplain as [H|(q0 & H)]; rewrite H in *;
                              simpl in *; congruence).
    rewrite (process_registered self k agent m1 {| query := q; context := VDict c1 |} w)
      by (try rewrite Hq, H1; assumption).
    rewrite (process_registered self k agent m2 {| query := q; context := VDict c2 |} w)
      by (try rewrite H2; assumption).
    unfold call_agent, try_except_st, bind_st.
    now rewrite (Hign k agent Hagent q (VDict c1) (VDict c2) w).
  - unfold process, bind_st, lift, py_contains, dict_mem. now rewrite Hagent.
Qed.

#[local] Arguments process : simpl never.

Lemma workflow_step_same_request self i step1 step2 results context w :
  (forall k agent, dict_get (agents self) k = Some agent -> ignores_context agent) ->
  same_request step1 step2 ->
  workflow_step self i step1 results context w
  = workflow_step self i step2 results context w.
Proof.
  intros Hign (Ha & d1 & d2 & Hin1 & Hin2 & Hq & Hp1 & Hp2).
  unfold workflow_step, bind_st, lift. rewrite Ha.
  destruct (py_get step2 "agent" VNone) as [a|e]; [|reflexivity].
  destruct (negb (truthy a)); [reflexivity|].
  rewrite Hin1, Hin2.
  destruct (merge_context_plain d1 context Hp1) as (m1 & c1 & -> & Hq1 & Hc1).
  destruct (merge_context_plain d2 context Hp2) as (m2 & c2 & -> & Hq2 & Hc2).
  assert (Hpm : dict_get m2 "query" = None \/
                exists q, dict_get m2 "query" = Some (VStr q))
    by (rewrite Hq2; apply Hp2).
  assert (Hqm : dict_get m1 "query" = dict_get m2 "query") by congruence.
  rewrite (process_same_query self a m1 m2 c1 c2 w Hign Hqm Hpm Hc1 Hc2).
  reflexivity.
Qed.

Lemma workflow_loop_same_request self workflow1 workflow2 :
  (forall k agent, dict_get (agents self) k = Some agent -> ignores_context agent) ->
  Forall2 same_request workflow1 workflow2 ->
  forall i results context w,
    workflow_loop self i workflow1 results context w
    = workflow_loop self i workflow2 results context w.
Proof.
  intros Hign. induction 1 as [|step1 step2 rest1 rest2 Hsame _ IH];
    intros i results context w; [reflexivity|].
  cbn [workflow_loop]. unfold bind_st.
  rewrite (workflow_step_same_request self i step1 step2 results context w Hign Hsame).
  destruct (workflow_step self i step2 results context w) as [[[r c|r]|e] w1];
    try reflexivity.
  apply IH.
Qed.

Lemma passes_process_workflow self workflow w results context w' :
  passes self 0 workflow [] [] w results context w' ->
  process_workflow self workflow w
  = (Ok (VDict (dict_set results "status" (VStr "success"))), w') /\
  dict_keys (dict_set results "status" (VStr "success"))
  = map step_key (seq 0 (length workflow)) ++ ["status"%string].
Proof.
  intros Hpass.
  assert (Hkeys : dict_keys results = map step_key (seq 0 (length workflow))).
  { pose proof (passes_keys _ _ _ _ _ _ _ _ _ Hpass eq_refl) as H.
    now rewrite Nat.add_0_r in H. }
  assert (Hfresh : ~ In "status"%string (dict_keys results)).
  { rewrite Hkeys. apply status_not_step_key. }
  split.
  - unfold process_workflow, bind_st.
    pose proof (passes_loop _ _ _ _ _ _ _ _ _ Hpass []) as Hloop.
    rewrite app_nil_r in Hloop. rewrite Hloop. simpl. unfold ret.
    apply dict_mem_false in Hfresh. unfold dict_keys in Hfresh.
    rewrite Hfresh. reflexivity.
  - rewrite dict_keys_set_new by exact Hfresh. now rewrite Hkeys.
Qed.

End ContextFree.

Section AgentWorkflow.
Context {RT : Runtime} {X : Type}.
Variables search optimizer payment notification : ST X (BaseAgent.AgentExecutor X).

Let am : AgentManager (BaseAgent.World X) :=
  BaseAgent.agent_manager search optimizer payment notification.

Lemma agent_manager_ignores_context k agent :
  dict_get (agents am) k = Some agent -> ignores_context agent.
Proof.
  intros H. apply agent_manager_lookup in H as (_ & self & -> & _).
  apply agent_process_ignores_context.
Qed.

(** X7. The agents give the planner the query alone, so nothing that
    [process_workflow] does with contexts shows: two workflows whose
    steps name the same agents and carry the same queries, with plain
    inputs, have the same outcome (results, exception and world),
    whatever contexts their steps bring. *)
Theorem workflow_outcome_ignores_contexts workflow1 workflow2 w :
  Forall2 same_request workflow1 workflow2 ->
  process_workflow
    (BaseAgent.agent_manager search optimizer payment notification) workflow1 w
  = process_workflow
      (BaseAgent.agent_manager search optimizer payment notification) workflow2 w.
Proof.
  intros Hsame. unfold process_workflow, bind_st.
  now rewrite (workflow_loop_same_request am workflow1 workflow2
                 agent_manager_ignores_context Hsame).
Qed.

#[local] Arguments process : simpl never.

Lemma registered_step_dispatches step context w :
  all_initialised w ->
  registered_step am step ->
  exists k result w',
    dispatches am step context w (VStr k) result w' /\
    has_error_status result false /\
    BaseAgent.executors w' = BaseAgent.executors w.
Proof.
  intros Hinit (k & d & Ha & Hreg & Hin & Hplain).
  unfold dict_mem in Hreg.
  destruct (dict_get (agents am) k) as [agent|] eqn:Hagent; [|discriminate].
  destruct (agent_manager_lookup _ _ _ _ _ _ Hagent) as (Hk & self & -> & Hname).
  specialize (Hinit _ Hname). unfold dict_mem in Hinit.
  destruct (dict_get (BaseAgent.executors w) (BaseAgent.name self)) as [ex|] eqn:Hex;
    [|discriminate].
  destruct (merge_context_plain d context Hplain) as (m & c & Hmerge & Hq & Hc).
  assert (Hpm : dict_get m "query" = None \/
                exists q, dict_get m "query" = Some (VStr q))
    by (rewrite Hq; apply Hplain).
  destruct (AgentInput_new_plain m c Hpm) as (q & Hnew).
  exists k. do 2 eexists. split; [|split].
  - exists (VDict d), (VDict m). split; [exact Ha|]. split.
    { simpl. destruct (String.eqb k "") eqn:E; [|reflexivity].
      apply String.eqb_eq in E. contradiction. }
    split; [exact Hin|]. split; [exact Hmerge|].
    rewrite (process_registered am k _ m {| query := q; context := VDict c |} w Hagent)
      by (rewrite Hc; exact Hnew).
    unfold call_agent, try_except_st, bind_st, ret.
    rewrite (agent_process_initialised self ex _ w Hex). reflexivity.
  - eexists. split; reflexivity.
  - reflexivity.
Qed.

Lemma registered_steps_pass workflow :
  Forall (registered_step am) workflow ->
  forall i results context w,
    all_initialised w ->
    exists results' context' w',
      passes am i workflow results context w results' context' w' /\
      BaseAgent.executors w' = BaseAgent.executors w.
Proof.
  induction 1 as [|step rest Hstep _ IH]; intros i results context w Hinit.
  - do 3 eexists. split; [apply passes_nil | reflexivity].
  - destruct (registered_step_dispatches step context w Hinit Hstep)
      as (k & result & w1 & Hdisp & Hok & Hexec).
    assert (Hinit1 : all_initialised w1)
      by (intros nm Hnm; rewrite Hexec; now apply Hinit).
    destruct (IH (S i) (dict_set results (step_key i) result)
                 (dict_set context k result) w1 Hinit1)
      as (results' & context' & w' & Hpass & Hexec').
    exists results', context', w'. split; [|congruence].
    eapply passes_success; eauto. reflexivity.
Qed.

(** X8. Once the four agents have their executors, a workflow of steps
    for registered agents with plain inputs never fails fast: whatever
    the planners do, also when each of them raises, [process_workflow]
    returns a result for every step and the status ["success"]. *)
Theorem initialised_agents_never_fail_fast workflow w :
  all_initialised w ->
  Forall (registered_step
            (BaseAgent.agent_manager search optimizer payment notification)) workflow ->
  exists results w',
    process_workflow
      (BaseAgent.agent_manager search optimizer payment notification) workflow w
    = (Ok (VDict results), w') /\
    dict_keys results = map step_key (seq 0 (length workflow)) ++ ["status"%string] /\
    dict_get results "status" = Some (VStr "success") /\
    BaseAgent.executors w' = BaseAgent.executors w.
Proof.
  intros Hinit Hsteps.
  destruct (registered_steps_pass workflow Hsteps 0 [] [] w Hinit)
    as (results & context & w' & Hpass & Hexec).
  destruct (passes_process_workflow am workflow w results context w' Hpass)
    as (Hrun & Hkeys).
  exists (dict_set results "status" (VStr "success")), w'.
  split; [exact Hrun|]. split; [exact Hkeys|]. split; [apply dict_get_set_eq | exact Hexec].
Qed.

End AgentWorkflow.

(** ** The endpoints of [api/api_v1/endpoints/agents.py] *)

Section EndpointFacts.
Context {RT : Runtime} {W : Type}.
Variable agent_manager : AgentManager W.
Implicit Types (w : W).

#[local] Arguments process : simpl never.
#[local] Arguments process_workflow : simpl never.

Lemma workflow_step_same_fields i step1 step2 results context w :
  py_get step1 "agent" VNone = py_get step2 "agent" VNone ->
  py_get step1 "input" (VDict []) = py_get step2 "input" (VDict []) ->
  workflow_step agent_manager i step1 results context w
  = workflow_step agent_manager i step2 results context w.
Proof.
  intros Ha Hin. unfold workflow_step, bind_st, lift. now rewrite Ha, Hin.
Qed.

Lemma workflow_loop_same_fields workflow1 workflow2 :
  Forall2 (fun step1 step2 =>
             py_get step1 "agent" VNone = py_get step2 "agent" VNone /\
             py_get step1 "input" (VDict []) = py_get step2 "input" (VDict []))
          workflow1 workflow2 ->
  forall i results context w,
    workflow_loop agent_manager i workflow1 results context w
    = workflow_loop agent_manager i workflow2 results context w.
Proof.
  induction 1 as [|step1 step2 rest1 rest2 [Ha Hin] _ IH];
    intros i results context w; [reflexivity|].
  cbn [workflow_loop]. unfold bind_st.
  rewrite (workflow_step_same_fields i step1 step2 results context w Ha Hin).
  destruct (workflow_step agent_manager i step2 results context w)
    as [[[r c|r]|e] w1]; try reflexivity.
  apply IH.
Qed.

(** What the loop of [execute_workflow] makes of a step. *)
Lemma prepare_step_total user_key user step :
  Endpoints.prepare_step [(user_key, user)] step
  = Ok (VDict [("agent", VStr (WorkflowStep.agent step));
               ("input", AgentRequest.dict (WorkflowStep.input step));
               ("description", optional_str (WorkflowStep.description step));
               ("context", VDict [(user_key, user)])]).
Proof. reflexivity. Qed.

Lemma mapM_total {A B : Type} (f : A -> res B) (g : A -> B) (l : list A) :
  (forall x, f x = Ok (g x)) -> mapM f l = Ok (map g l).
Proof.
  intros Hf. induction l as [|x l IH]; simpl; [reflexivity|].
  now rewrite Hf, IH.
Qed.

Lemma prepared_steps_same_fields user1 user2 steps1 steps2 prepared1 prepared2 :
  map WorkflowStep.agent steps1 = map WorkflowStep.agent steps2 ->
  map WorkflowStep.input steps1 = map WorkflowStep.input steps2 ->
  mapM (Endpoints.prepare_step [("user"%string, user1)]) steps1 = Ok prepared1 ->
  mapM (Endpoints.prepare_step [("user"%string, user2)]) steps2 = Ok prepared2 ->
  Forall2 (fun step1 step2 =>
             py_get step1 "agent" VNone = py_get step2 "agent" VNone /\
             py_get step1 "input" (VDict []) = py_get step2 "input" (VDict []))
          prepared1 prepared2.
Proof.
  rewrite (mapM_total _ _ steps1 (prepare_step_total "user" user1)).
  rewrite (mapM_total _ _ steps2 (prepare_step_total "user" user2)).
  intros Ha Hin [= <-] [= <-]. revert steps2 Ha Hin.
  induction steps1 as [|s1 steps1 IH]; intros [|s2 steps2] Ha Hin;
    try discriminate; simpl; constructor.
  - simpl in Ha, Hin. inversion Ha. inversion Hin. simpl. split; congruence.
  - simpl in Ha, Hin. inversion Ha. inversion Hin. now apply IH.
Qed.

(** X9. [execute_workflow] puts the user context under the key
    ["context"] of the step itself, where [process_workflow] does not
    look: it reads the step's ["agent"] and ["input"] only.  So the
    outcome of the endpoint does not depend on the authenticated user,
    on the workflow's own context or on the steps' descriptions: two
    requests whose steps have the same agents and inputs are answered
    alike, whoever sends them. *)
Theorem execute_workflow_ignores_user workflow1 workflow2 user1 user2 w :
  map WorkflowStep.agent (WorkflowRequest.steps workflow1)
  = map WorkflowStep.agent (WorkflowRequest.steps workflow2) ->
  map WorkflowStep.input (WorkflowRequest.steps workflow1)
  = map WorkflowStep.input (WorkflowRequest.steps workflow2) ->
  Endpoints.execute_workflow agent_manager workflow1 user1 w
  = Endpoints.execute_workflow agent_manager workflow2 user2 w.
Proof.
  intros Ha Hin. unfold Endpoints.execute_workflow.
  pose proof (prepared_steps_same_fields
                (Endpoints.user_info user1) (Endpoints.user_info user2)
                _ _ _ _ Ha Hin
                (mapM_total _ _ _ (prepare_step_total "user" _))
                (mapM_total _ _ _ (prepare_step_total "user" _))) as Hsame.
  rewrite (mapM_total _ _ (WorkflowRequest.steps workflow1)
             (prepare_step_total "user" (Endpoints.user_info user1))).
  rewrite (mapM_total _ _ (WorkflowRequest.steps workflow2)
             (prepare_step_total "user" (Endpoints.user_info user2))).
  unfold bind_st at 1 3. unfold lift.
  unfold bind_st at 1 3. unfold process_workflow, bind_st at 1 4.
  now rewrite (workflow_loop_same_fields _ _ Hsame).
Qed.

(** X10. What [execute_workflow] answers when the workflow returns: a
    failed workflow is a 400 whose detail is always the fixed text
    ["Error executing workflow"] (the result of [process_workflow] has
    no ["message"]), so neither the failing step nor its error reaches
    the client; a body is returned only with the status ["success"],
    and it has an entry for every step. *)
Theorem execute_workflow_responses workflow user w r w' :
  Endpoints.execute_workflow agent_manager workflow user w = (Ok r, w') ->
  match r with
  | Endpoints.HTTPException status_code detail =>
      status_code = 400%Z /\ detail = VStr "Error executing workflow"
  | Endpoints.Returned body =>
      exists final,
        body = VDict final /\
        dict_get final "status" = Some (VStr "success") /\
        dict_keys final
        = map step_key (seq 0 (length (WorkflowRequest.steps workflow)))
          ++ ["status"%string]
  end.
Proof.
  unfold Endpoints.execute_workflow.
  rewrite (mapM_total _ _ (WorkflowRequest.steps workflow)
             (prepare_step_total "user" (Endpoints.user_info user))).
  unfold bind_st at 1. unfold lift at 1. unfold bind_st at 1.
  unfold process_workflow. unfold bind_st at 1.
  match goal with
  | |- context [workflow_loop agent_manager 0 ?l [] [] w] =>
      destruct (workflow_loop agent_manager 0 l [] [] w) as [[results|e] w1] eqn:Hloop;
      [|discriminate];
      assert (Hlen : length l = length (WorkflowRequest.steps workflow))
        by apply length_map
  end.
  pose proof (workflow_loop_no_message _ _ _ _ _ Hloop) as Hmsg.
  apply workflow_loop_shape in Hloop; [|reflexivity].
  rewrite Nat.add_0_r, Hlen in Hloop.
  unfold ret at 1. cbn beta iota.
  destruct Hloop as [Hk|(j & _ & Hk & Hs & _)].
  - assert (Hno : ~ In "status"%string (dict_keys results))
      by (rewrite Hk; apply status_not_step_key).
    pose proof Hno as Hmem. apply dict_mem_false in Hmem.
    rewrite Hmem in *. cbn [negb] in *.
    unfold bind_st, lift, ret. cbn [py_get]. rewrite dict_get_set_eq. cbn [is_str].
    intros [= <- <-]. eexists. split; [reflexivity|]. split; [apply dict_get_set_eq|].
    rewrite dict_keys_set_new by exact Hno. now rewrite Hk.
  - assert (Hyes : In "status"%string (dict_keys results))
      by (rewrite Hk; apply in_or_app; right; left; reflexivity).
    apply dict_mem_true in Hyes. rewrite Hyes in *. cbn [negb] in *.
    unfold bind_st, lift, ret. cbn [py_get]. rewrite Hs. cbn [is_str].
    rewrite Hmsg. intros [= <- <-]. split; reflexivity.
Qed.

(** X11. A step whose input has the context [null], which the request
    schema allows, is fatal: once the steps before it have passed,
    [execute_workflow] raises [AttributeError] (no HTTP 400, no body),
    whatever agent the step names.  The steps before it have run. *)
Theorem execute_workflow_null_context workflow user pre step post prepared
    w0 results context w1 :
  WorkflowRequest.steps workflow = pre ++ step :: post ->
  mapM (Endpoints.prepare_step [("user"%string, Endpoints.user_info user)]) pre
  = Ok prepared ->
  passes agent_manager 0 prepared [] [] w0 results context w1 ->
  WorkflowStep.agent step <> ""%string ->
  AgentRequest.context (WorkflowStep.input step) = None ->
  Endpoints.execute_workflow agent_manager workflow user w0
  = (Raise (AttributeError "object has no attribute 'update'"), w1).
Proof.
  intros Hsteps Hprep Hpass Hagent Hnull. unfold Endpoints.execute_workflow.
  rewrite (mapM_total _ _ (WorkflowRequest.steps workflow)
             (prepare_step_total "user" (Endpoints.user_info user))).
  rewrite (mapM_total _ _ pre (prepare_step_total "user" (Endpoints.user_info user)))
    in Hprep.
  inversion Hprep; subst prepared; clear Hprep.
  rewrite Hsteps, map_app. cbn [map].
  unfold bind_st at 1. unfold lift at 1. unfold bind_st at 1.
  erewrite passes_then_raises; [reflexivity | exact Hpass |].
  eapply workflow_step_merge_raises.
  - reflexivity.
  - simpl. destruct (String.eqb (WorkflowStep.agent step) "") eqn:E; [|reflexivity].
    apply String.eqb_eq in E. contradiction.
  - reflexivity.
  - unfold AgentRequest.dict. rewrite Hnull. reflexivity.
Qed.

(** The request [process_agent_request] hands to [process]. *)
Lemma process_agent_request_registered (name : string) agent request user w :
  dict_get (agents agent_manager) name = Some agent ->
  process agent_manager (VStr name)
    (AgentRequest.dict
       {| AgentRequest.query := AgentRequest.query request;
          AgentRequest.context :=
            Some (dict_set
                    match AgentRequest.context request with
                    | Some c => if truthy (VDict c) then c else []
                    | None => []
                    end "user" (Endpoints.user_info user));
          AgentRequest.parameters := AgentRequest.parameters request |}) w
  = call_agent agent (VStr name)
      {| query := AgentRequest.query request;
         context :=
           VDict (dict_set
                    match AgentRequest.context request with
                    | Some c => c
                    | None => []
                    end "user" (Endpoints.user_info user)) |} w.
Proof.
  intros Hagent. unfold AgentRequest.dict. cbn [AgentRequest.query AgentRequest.context
    AgentRequest.parameters optional_dict].
  erewrite process_registered; [|exact Hagent|reflexivity].
  destruct (AgentRequest.context request) as [[|kv c]|]; reflexivity.
Qed.

(** X12. [process_agent_request] for a registered agent.  The agent
    is called with the request's query and with the request's context
    in which ["user"] is bound to the authenticated user: a ["user"]
    the client sent is overwritten, the other bindings are kept.  The
    agent's answer is returned under the status ["success"]; an
    exception of the agent becomes a 400 whose detail is its text. *)
Theorem process_agent_request_binds_user (name : string) agent request user w :
  dict_get (agents agent_manager) name = Some agent ->
  let sent : dict :=
    match AgentRequest.context request with Some c => c | None => [] end in
  let input := {| query := AgentRequest.query request;
                  context := VDict (dict_set sent "user" (Endpoints.user_info user)) |} in
  dict_get (dict_set sent "user" (Endpoints.user_info user)) "user"
  = Some (Endpoints.user_info user) /\
  (forall k, k <> "user"%string ->
             dict_get (dict_set sent "user" (Endpoints.user_info user)) k
             = dict_get sent k) /\
  (forall out w',
      agent input w = (Ok out, w') ->
      Endpoints.process_agent_request agent_manager name request user w
      = (Ok (Endpoints.Returned
               (VDict [("status", VStr "success");
                       ("output", VStr (output out));
                       ("metadata", metadata out)])), w')) /\
  (forall e w',
      agent input w = (Raise e, w') ->
      Endpoints.process_agent_request agent_manager name request user w
      = (Ok (Endpoints.HTTPException 400 (VStr (str_exn e))), w')).
Proof.
  intros Hagent sent input.
  split; [apply dict_get_set_eq|].
  split; [intros k Hk; now apply dict_get_set_neq|].
  subst input sent.
  split; intros r w' Hrun;
    unfold Endpoints.process_agent_request; unfold bind_st at 1;
    rewrite (process_agent_request_registered name agent request user w Hagent);
    unfold call_agent, try_except_st, bind_st, ret; rewrite Hrun; reflexivity.
Qed.

(** X13. [process_agent_request] for a name that is not registered: a
    400 whose detail names the agent; no agent runs. *)
Theorem process_agent_request_unknown_agent (name : string) request user w :
  dict_mem name (agents agent_manager) = false ->
  Endpoints.process_agent_request agent_manager name request user w
  = (Ok (Endpoints.HTTPException 400
           (VStr ("Agent '" ++ name ++ "' not found")%string)), w).
Proof.
  intros Hmem. unfold Endpoints.process_agent_request, bind_st at 1.
  unfold process, bind_st, lift, ret, py_contains. rewrite Hmem. reflexivity.
Qed.

End EndpointFacts.

(** ** Computations that leave the state alone *)

Section ReadOnly.
Context {S : Type}.

Lemma read_only_lift {A : Type} (r : res A) : read_only (lift r : ST S A).
Proof. intros s. reflexivity. Qed.

Lemma read_only_ret {A : Type} (a : A) : read_only (ret a : ST S A).
Proof. intros s. reflexivity. Qed.

Lemma read_only_get_state : read_only (get_state : ST S S).
Proof. intros s. reflexivity. Qed.

Lemma read_only_bind {A B : Type} (m : ST S A) (k : A -> ST S B) :
  read_only m -> (forall a, read_only (k a)) -> read_only (bind_st m k).
Proof.
  intros Hm Hk s. unfold bind_st. specialize (Hm s).
  destruct (m s) as [[a|e] s']; simpl in Hm; subst s'; [apply Hk | reflexivity].
Qed.

Lemma read_only_try {A : Type} (m : ST S A) (h : exn -> ST S A) :
  read_only m -> (forall e, read_only (h e)) -> read_only (try_except_st m h).
Proof.
  intros Hm Hh s. unfold try_except_st. specialize (Hm s).
  destruct (m s) as [[a|e] s']; simpl in Hm; subst s'; [reflexivity | apply Hh].
Qed.

End ReadOnly.

(** ** The store of the notification agent *)

Section NotificationStore.
Context {RT : Runtime}.

Lemma get_user_notifications_keeps query :
  read_only (NotificationAgent._get_user_notifications query).
Proof.
  unfold NotificationAgent._get_user_notifications,
    NotificationAgent.get_user_notifications_body, tool_handler_st.
  apply read_only_try; [|intros; apply read_only_lift].
  repeat (apply read_only_bind;
          [first [apply read_only_lift | apply read_only_get_state
                 | match goal with
                   | |- read_only (if ?b then _ else _) =>
                       destruct b; [apply read_only_lift | apply read_only_ret]
                   end]
          | intros ?]).
  apply read_only_ret.
Qed.

(** The tool on a JSON object, by what the write of its line does. *)
Lemma send_notification_object query data st :
  json_loads query = Ok (VDict data) ->
  NotificationAgent._send_notification query st
  = match stdout_write (sent_line data) with
    | Ok _ => (Ok (sent_answer st), sent st data)
    | Raise e => (Ok (json_dumps (VDict [("status", VStr "error");
                                         ("message", VStr (str_exn e))])),
                  unsent st)
    end.
Proof.
  intros Hparse.
  unfold NotificationAgent._send_notification, NotificationAgent.send_notification_body,
    NotificationAgent.notifications, try_except_st, bind_st, lift, get_state, ret,
    utcnow, print, table_set, set_table, tool_handler_st, tool_handler, lift,
    error_result.
  rewrite Hparse. cbn [py_get table clock_reads uuid_draws stdout].
  unfold sent, unsent, sent_answer, sent_notification, sent_line, get_or,
    notification_key.
  destruct (is_str match dict_get data "notification_type" with
                   | Some v => v
                   | None => VStr "email"
                   end "email");
    [destruct (stdout_write _); reflexivity|].
  destruct (is_str match dict_get data "notification_type" with
                   | Some v => v
                   | None => VStr "email"
                   end "sms");
    destruct (stdout_write _); reflexivity.
Qed.

Lemma send_notification_found query data st :
  json_loads query = Ok (VDict data) ->
  stdout_write (sent_line data) = Ok tt ->
  NotificationAgent._send_notification query st = (Ok (sent_answer st), sent st data).
Proof.
  intros Hparse Hwrite.
  now rewrite (send_notification_object query data st Hparse), Hwrite.
Qed.

Lemma send_notification_refused query data st e :
  json_loads query = Ok (VDict data) ->
  stdout_write (sent_line data) = Raise e ->
  NotificationAgent._send_notification query st
  = (Ok (json_dumps (VDict [("status", VStr "error"); ("message", VStr (str_exn e))])),
     unsent st).
Proof.
  intros Hparse Hwrite.
  now rewrite (send_notification_object query data st Hparse), Hwrite.
Qed.

(** In every other case the store is left as it was. *)
Lemma send_notification_cases query st :
  table (snd (NotificationAgent._send_notification query st)) = table st \/
  exists data,
    json_loads query = Ok (VDict data) /\
    NotificationAgent._send_notification query st = (Ok (sent_answer st), sent st data).
Proof.
  destruct (json_loads query) as [data|e] eqn:Hparse.
  - destruct data as [| | | | | |data];
      try (left; unfold NotificationAgent._send_notification,
             NotificationAgent.send_notification_body, try_except_st, bind_st, lift,
             get_state;
           rewrite Hparse; reflexivity).
    rewrite (send_notification_object query data st Hparse).
    destruct (stdout_write (sent_line data)) as [u|e].
    + right. exists data. split; reflexivity.
    + left. reflexivity.
  - left. unfold NotificationAgent._send_notification,
      NotificationAgent.send_notification_body, try_except_st, bind_st, lift.
    rewrite Hparse. reflexivity.
Qed.

Lemma notification_key_inj i j : notification_key i = notification_key j -> i = j.
Proof.
  unfold notification_key. intros H. apply string_of_nat_inj.
  simpl in H. now inversion H.
Qed.

Lemma notification_key_fresh n : ~ In (notification_key (n + 1))
                                      (map notification_key (seq 1 n)).
Proof.
  intros H. apply in_map_iff in H as (i & Hi & Hin).
  apply notification_key_inj in Hi. apply in_seq in Hin. lia.
Qed.

Lemma wf_notifications_nil : wf_notifications [].
Proof. split; [reflexivity|]. intros id v H. discriminate. Qed.

Lemma wf_notifications_sent st data :
  wf_notifications (table st) ->
  wf_notifications (table (sent st data)) /\
  length (table (sent st data)) = S (length (table st)).
Proof.
  intros [Hkeys Hall]. simpl.
  assert (Hfresh : ~ In (notification_key (length (table st) + 1))
                        (dict_keys (table st)))
    by (rewrite Hkeys; apply notification_key_fresh).
  assert (Hk : dict_keys (dict_set (table st)
                            (notification_key (length (table st) + 1))
                            (sent_notification st data))
               = map notification_key (seq 1 (S (length (table st))))).
  { rewrite dict_keys_set_new by exact Hfresh.
    rewrite Hkeys, seq_S, map_app. simpl. now rewrite Nat.add_1_r. }
  assert (Hlen : length (dict_set (table st)
                           (notification_key (length (table st) + 1))
                           (sent_notification st data))
                 = S (length (table st))).
  { pose proof (f_equal (@length string) Hk) as Hlen.
    unfold dict_keys in Hlen. now rewrite !length_map, length_seq in Hlen. }
  split; [split|exact Hlen].
  - now rewrite Hk, Hlen.
  - intros id v. destruct (string_dec id (notification_key (length (table st) + 1)))
      as [->|Hne].
    + rewrite dict_get_set_eq. intros [= <-].
      unfold sent_notification. do 4 eexists. repeat split; reflexivity.
    + rewrite dict_get_set_neq by exact Hne. apply Hall.
Qed.

Lemma wf_notifications_marked st nid n :
  wf_notifications (table st) ->
  dict_get (table st) nid = Some (VDict n) ->
  wf_notifications (table (marked st nid n)) /\
  length (table (marked st nid n)) = length (table st).
Proof.
  intros [Hkeys Hall] Hn. simpl.
  assert (Hin : In nid (dict_keys (table st))).
  { apply dict_mem_true. unfold dict_mem. now rewrite Hn. }
  assert (Hk : dict_keys (dict_set (table st) nid
                            (VDict (dict_set (dict_set n "is_read" (VBool true))
                                      "read_at"
                                      (VStr (utcnow_isoformat (clock_reads st))))))
               = dict_keys (table st))
    by now apply dict_keys_set_old.
  assert (Hlen : length (dict_set (table st) nid
                           (VDict (dict_set (dict_set n "is_read" (VBool true))
                                     "read_at"
                                     (VStr (utcnow_isoformat (clock_reads st))))))
                 = length (table st)).
  { pose proof (f_equal (@length string) Hk) as Hlen.
    unfold dict_keys in Hlen. now rewrite !length_map in Hlen. }
  split; [split|exact Hlen].
  - now rewrite Hk, Hlen.
  - intros id v. destruct (string_dec id nid) as [->|Hne].
    + rewrite dict_get_set_eq. intros [= <-].
      destruct (Hall nid _ Hn) as (n' & user_id & is_read & created_at & [= <-]
                                   & Hid & Huser & _ & Hcreated).
      exists (dict_set (dict_set n "is_read" (VBool true)) "read_at"
                (VStr (utcnow_isoformat (clock_reads st)))),
        user_id, true, created_at.
      split; [reflexivity|].
      repeat split; rewrite ?dict_get_set_neq by discriminate;
        try assumption.
      apply dict_get_set_eq.
    + rewrite dict_get_set_neq by exact Hne. apply Hall.
Qed.

Lemma notification_tool_keeps_wf t query st :
  In t notification_tools ->
  wf_notifications (table st) ->
  wf_notifications (table (snd (func t query st))) /\
  length (table st) <= length (table (snd (func t query st))).
Proof.
  intros [<-|[<-|[<-|[]]]] Hwf; cbn [func].
  - destruct (send_notification_cases query st) as [->|(data & _ & ->)];
      [now split|].
    destruct (wf_notifications_sent st data Hwf) as [H Hlen].
    split; [exact H|]. cbn [snd]. lia.
  - rewrite get_user_notifications_keeps. now split.
  - destruct (mark_read_cases query st) as [->|(data & nid & n & _ & _ & Hn & ->)];
      [now split|].
    destruct (wf_notifications_marked st nid n Hwf Hn) as [H Hlen].
    split; [exact H|]. cbn [snd]. lia.
Qed.

(** X14. The invariant of the notification store.  [self.notifications]
    starts empty, and whatever tools of the notification agent are
    called, with whatever payloads and in whatever order, the ids in the
    store are [notif_1], [notif_2], ..., [notif_n] in the order of their
    making, and every stored notification is a dict that carries its own
    id, a user, a flag [is_read] and a [created_at] text.  The ids that
    were in the store stay, in their places: an id is never given twice
    and no notification is ever removed or replaced by a new one. *)
Theorem notification_store_invariant calls st :
  Forall (fun call => In (fst call) notification_tools) calls ->
  wf_notifications (NotificationAgent.notifications st) ->
  wf_notifications (NotificationAgent.notifications (run_tools calls st)) /\
  exists added,
    dict_keys (NotificationAgent.notifications (run_tools calls st))
    = dict_keys (NotificationAgent.notifications st)
      ++ map notification_key
           (seq (S (length (NotificationAgent.notifications st))) added).
Proof.
  unfold NotificationAgent.notifications. intros Hcalls Hwf.
  assert (H : wf_notifications (table (run_tools calls st)) /\
              length (table st) <= length (table (run_tools calls st))).
  { revert st Hwf. induction Hcalls as [|[t query] calls Ht _ IH]; intros st Hwf.
    - now split.
    - cbn [run_tools fold_left fst snd].
      fold (run_tools calls (snd (func t query st))).
      destruct (notification_tool_keeps_wf t query st Ht Hwf) as [Hwf1 Hlen1].
      destruct (IH _ Hwf1) as [Hwf' Hlen']. split; [exact Hwf' | lia]. }
  destruct H as [Hwf' Hlen]. split; [exact Hwf'|].
  exists (length (table (run_tools calls st)) - length (table st)).
  destruct Hwf as [Hk _]. destruct Hwf' as [Hk' _]. rewrite Hk, Hk'.
  rewrite <- map_app. f_equal.
  replace (length (table (run_tools calls st)))
    with (length (table st) + (length (table (run_tools calls st)) - length (table st)))
    at 1 by lia.
  now rewrite seq_app.
Qed.

End NotificationStore.

(** ** The listing of a user's notifications *)

Section TextOrder.

Lemma ascii_compare_trans a b c o :
  Ascii.compare a b = o -> Ascii.compare b c = o -> Ascii.compare a c = o.
Proof.
  unfold Ascii.compare. destruct o.
  - rewrite !N.compare_eq_iff. congruence.
  - rewrite !N.compare_lt_iff. lia.
  - rewrite !N.compare_gt_iff. lia.
Qed.

Lemma string_compare_trans s1 :
  forall s2 s3 o,
    String.compare s1 s2 = o -> String.compare s2 s3 = o -> String.compare s1 s3 = o.
Proof.
  induction s1 as [|c1 s1 IH]; intros [|c2 s2] [|c3 s3] o; simpl;
    try congruence.
  destruct (Ascii.compare c1 c2) eqn:E12.
  - apply Ascii.compare_eq_iff in E12. subst c2.
    destruct (Ascii.compare c1 c3); [apply IH | congruence | congruence].
  - intros <-. destruct (Ascii.compare c2 c3) eqn:E23; intros H.
    + apply Ascii.compare_eq_iff in E23. subst c3. now rewrite E12.
    + now rewrite (ascii_compare_trans _ _ _ _ E12 E23).
    + discriminate.
  - intros <-. destruct (Ascii.compare c2 c3) eqn:E23; intros H.
    + apply Ascii.compare_eq_iff in E23. subst c3. now rewrite E12.
    + discriminate.
    + now rewrite (ascii_compare_trans _ _ _ _ E12 E23).
Qed.

Lemma string_leb_trans s1 s2 s3 :
  String.leb s1 s2 = true -> String.leb s2 s3 = true -> String.leb s1 s3 = true.
Proof.
  unfold String.leb.
  destruct (String.compare s1 s2) eqn:E12; try discriminate;
    destruct (String.compare s2 s3) eqn:E23; try discriminate; intros _ _.
  - now rewrite (string_compare_trans _ _ _ _ E12 E23).
  - apply String.compare_eq_iff in E12. subst s2. now rewrite E23.
  - apply String.compare_eq_iff in E23. subst s3. now rewrite E12.
  - now rewrite (string_compare_trans _ _ _ _ E12 E23).
Qed.

Lemma text_ltb_leb a b : text_ltb a b = true -> text_leb a b = true.
Proof.
  destruct a, b; simpl; try discriminate. unfold String.ltb, String.leb.
  now destruct (String.compare s s0).
Qed.

Lemma text_leb_trans a b c :
  text_leb a b = true -> text_leb b c = true -> text_leb a c = true.
Proof.
  destruct a, b, c; simpl; try discriminate. apply string_leb_trans.
Qed.

Lemma text_total a b :
  is_text a -> is_text b -> text_ltb a b = false -> text_leb b a = true.
Proof.
  intros [s ->] [t ->]. simpl. unfold String.ltb, String.leb.
  rewrite (String.compare_antisym s t). now destruct (String.compare t s).
Qed.

End TextOrder.

Section NotificationListing.
Context {RT : Runtime}.

Lemma filterM_total {A : Type} (p : A -> res bool) (g : A -> bool) (l : list A) :
  (forall x, In x l -> p x = Ok (g x)) -> filterM p l = Ok (filter g l).
Proof.
  induction l as [|x l IH]; intros Hp; simpl; [reflexivity|].
  rewrite (Hp x) by now left. simpl.
  rewrite IH by (intros y Hy; apply Hp; now right). reflexivity.
Qed.

Lemma mapM_total_in {A B : Type} (f : A -> res B) (g : A -> B) (l : list A) :
  (forall x, In x l -> f x = Ok (g x)) -> mapM f l = Ok (map g l).
Proof.
  induction l as [|x l IH]; intros Hf; simpl; [reflexivity|].
  rewrite (Hf x) by now left.
  rewrite IH by (intros y Hy; apply Hf; now right). reflexivity.
Qed.

Lemma Forall_perm {A : Type} (P : A -> Prop) (l l' : list A) :
  Permutation l l' -> Forall P l -> Forall P l'.
Proof.
  intros Hp H. rewrite Forall_forall in *. intros x Hx. apply H.
  eapply Permutation_in; [apply Permutation_sym; exact Hp | exact Hx].
Qed.

Lemma insert_descM_total {A : Type} (x : value * A) (l : list (value * A)) :
  is_text (fst x) -> Forall (fun y => is_text (fst y)) l ->
  insert_descM py_lt x l = Ok (insert_desc text_ltb x l).
Proof.
  destruct x as [kx a]. intros [s Hs]. simpl in Hs. subst kx.
  induction 1 as [|[ky b] l [t Ht] _ IH]; [reflexivity|].
  simpl in Ht. subst ky. cbn [insert_descM insert_desc fst text_ltb].
  unfold py_lt at 1. cbn [as_num bind]. destruct (String.ltb s t); [|reflexivity].
  now rewrite IH.
Qed.

Lemma insert_desc_texts {A : Type} (x : value * A) (l : list (value * A)) :
  is_text (fst x) -> Forall (fun y => is_text (fst y)) l ->
  Forall (fun y => is_text (fst y)) (insert_desc text_ltb x l).
Proof.
  intros Hx Hl. apply (Forall_perm _ (x :: l)).
  - apply Permutation_sym, insert_desc_perm.
  - now constructor.
Qed.

Lemma sort_descM_total {A : Type} (l : list (value * A)) :
  Forall (fun y => is_text (fst y)) l ->
  sort_descM py_lt l = Ok (sort_desc text_ltb l).
Proof.
  induction 1 as [|x l Hx Hl IH]; simpl; [reflexivity|].
  rewrite IH. simpl. apply insert_descM_total; [exact Hx|].
  apply (Forall_perm _ l); [|exact Hl].
  apply Permutation_sym, sort_desc_perm.
Qed.

Lemma sorted_by_key {A : Type} (f : A -> value) (l : list (value * A)) :
  Forall (fun p => fst p = f (snd p)) l ->
  StronglySorted (before text_leb) l ->
  StronglySorted (fun x y => text_leb (f y) (f x) = true) (map snd l).
Proof.
  intros Hkeys. induction 1 as [|p l _ IH Hall]; simpl; constructor.
  - apply IH. now inversion Hkeys.
  - inversion Hkeys as [|? ? Hp Hl]; subst.
    apply Forall_map. rewrite Forall_forall in *. intros q Hq.
    specialize (Hall q Hq). unfold before in Hall.
    now rewrite <- Hp, <- (Hl q Hq).
Qed.

Lemma combine_keys {A : Type} (f : A -> value) (l : list A) :
  Forall (fun p => fst p = f (snd p)) (combine (map f l) l) /\
  map snd (combine (map f l) l) = l.
Proof.
  induction l as [|x l [IH1 IH2]]; simpl; [now split|].
  split; [now constructor | now rewrite IH2].
Qed.

Lemma notification_keys_NoDup n : NoDup (map notification_key (seq 1 n)).
Proof.
  apply NoDup_map_NoDup_ForallPairs; [|apply seq_NoDup].
  intros i j _ _. apply notification_key_inj.
Qed.

Lemma stored_values t v :
  wf_notifications t -> In v (dict_values t) -> exists id, stored_notification id v.
Proof.
  intros [Hkeys Hall] Hin. apply in_map_iff in Hin as ([id v'] & Hv & Hin).
  simpl in Hv. subst v'. exists id. apply Hall. apply In_dict_get; [|exact Hin].
  fold (dict_keys t). rewrite Hkeys. apply notification_keys_NoDup.
Qed.

Lemma stored_is_of_user user_id id v :
  stored_notification id v ->
  (u <- py_getitem v "user_id" ;; Ok (py_eq u user_id)) = Ok (is_of_user user_id v).
Proof.
  intros (n & u & r & c & -> & _ & Hu & _). unfold is_of_user. simpl.
  now rewrite Hu.
Qed.

Lemma stored_is_unread id v :
  stored_notification id v -> NotificationAgent.is_unread v = Ok (unread_flag v).
Proof.
  intros (n & u & r & c & -> & _ & _ & Hr & _).
  unfold NotificationAgent.is_unread, unread_flag. simpl. now rewrite Hr.
Qed.

Lemma stored_created_at id v :
  stored_notification id v ->
  py_getitem v "created_at" = Ok (created_at v) /\ is_text (created_at v).
Proof.
  intros (n & u & r & c & -> & _ & _ & _ & Hc). unfold created_at. simpl.
  rewrite Hc. split; [reflexivity | now exists c].
Qed.

(** X15. [_get_user_notifications] on a well-formed store, for a
    payload that is a JSON object whose ["limit"] is an integer or
    absent.  The tool answers ["success"] and changes nothing.  The
    notifications it counts under ["total"] are exactly the stored
    notifications of the user (the unread ones alone when
    ["unread_only"] is set), put newest first by their [created_at]
    text; ["notifications"] is the slice [[:limit]] of them (the first
    [limit] of them for a [limit >= 0], the first ten when there is no
    limit), and ["unread_count"] counts the unread ones among all of
    them, not among the slice. *)
Theorem get_user_notifications_lists_user query data st :
  wf_notifications (NotificationAgent.notifications st) ->
  json_loads query = Ok (VDict data) ->
  dict_get data "limit" = None \/ (exists z, dict_get data "limit" = Some (VInt z)) ->
  let candidates :=
    filter (is_of_user (get_or data "user_id" VNone))
           (dict_values (NotificationAgent.notifications st)) in
  let wanted :=
    if truthy (get_or data "unread_only" (VBool false))
    then filter unread_flag candidates
    else candidates in
  let limit := match dict_get data "limit" with Some (VInt z) => z | _ => 10%Z end in
  exists listed shown,
    NotificationAgent._get_user_notifications query st
    = (Ok (json_dumps
             (VDict [("status", VStr "success");
                     ("notifications", VList shown);
                     ("total", VInt (Z.of_nat (length listed)));
                     ("unread_count",
                      VInt (Z.of_nat (length (filter unread_flag listed))))])),
       st) /\
    Permutation listed wanted /\
    StronglySorted not_older listed /\
    (exists rest, listed = shown ++ rest) /\
    ((0 <= limit)%Z -> shown = firstn (Z.to_nat limit) listed).
Proof.
  intros Hwf Hparse Hlimit candidates wanted limit.
  unfold NotificationAgent.notifications in *.
  assert (Hcand : forall v, In v candidates -> exists id, stored_notification id v).
  { intros v Hv. apply filter_In in Hv as [Hv _]. now apply (stored_values (table st)). }
  assert (Hwanted : forall v, In v wanted -> exists id, stored_notification id v).
  { intros v Hv. apply Hcand. subst wanted.
    destruct (truthy (get_or data "unread_only" (VBool false))); [|exact Hv].
    now apply filter_In in Hv as [Hv _]. }
  set (sorted := sort_desc text_ltb (combine (map created_at wanted) wanted)).
  set (listed := map snd sorted).
  assert (Hperm : Permutation listed wanted).
  { subst listed sorted.
    apply (Permutation_trans
             (l' := map snd (combine (map created_at wanted) wanted))).
    - apply Permutation_map, sort_desc_perm.
    - now rewrite (proj2 (combine_keys created_at wanted)). }
  assert (Hlisted : forall v, In v listed -> exists id, stored_notification id v).
  { intros v Hv. apply Hwanted. eapply Permutation_in; eassumption. }
  assert (Htexts : Forall (fun y : value * value => is_text (fst y))
                          (combine (map created_at wanted) wanted)).
  { assert (H : Forall (fun y : value * value =>
                          fst y = created_at (snd y) /\ In (snd y) wanted)
                       (combine (map created_at wanted) wanted)).
    { apply Forall_forall. intros [k v] Hin. simpl. split.
      - pose proof (proj1 (combine_keys created_at wanted)) as Hk.
        rewrite Forall_forall in Hk. apply (Hk (k, v) Hin).
      - now apply in_combine_r in Hin. }
    eapply Forall_impl; [|exact H].
    intros [k v] [Hk Hv]. simpl in *. subst k.
    destruct (Hwanted v Hv) as (id & Hst).
    now destruct (stored_created_at id v Hst). }
  assert (Hsorted : StronglySorted not_older listed).
  { subst listed. apply (sorted_by_key created_at).
    - apply (Forall_perm _ (combine (map created_at wanted) wanted));
        [apply Permutation_sym, sort_desc_perm | apply combine_keys].
    - apply (sort_desc_sorted text_ltb text_leb is_text
               text_ltb_leb text_leb_trans text_total).
      exact Htexts. }
  set (shown := if (0 <=? limit)%Z
                then firstn (Z.to_nat limit) listed
                else firstn (Z.to_nat (Z.of_nat (length listed) + limit)) listed).
  exists listed, shown.
  split; [|split; [exact Hperm|split; [exact Hsorted|split]]].
  - assert (F1 : filterM (fun n => u <- py_getitem n "user_id" ;;
                                   Ok (py_eq u (get_or data "user_id" VNone)))
                         (dict_values (table st))
                 = Ok candidates).
    { apply filterM_total. intros v Hv.
      destruct (stored_values (table st) v Hwf Hv) as (id & Hst).
      now apply (stored_is_of_user _ id). }
    assert (F2 : (if truthy (get_or data "unread_only" (VBool false))
                  then filterM NotificationAgent.is_unread candidates
                  else Ok candidates)
                 = Ok wanted).
    { subst wanted. destruct (truthy (get_or data "unread_only" (VBool false)));
        [|reflexivity].
      apply filterM_total. intros v Hv. destruct (Hcand v Hv) as (id & Hst).
      now apply (stored_is_unread id). }
    assert (F3 : mapM (fun x => py_getitem x "created_at") wanted
                 = Ok (map created_at wanted)).
    { apply mapM_total_in. intros v Hv. destruct (Hwanted v Hv) as (id & Hst).
      now destruct (stored_created_at id v Hst). }
    assert (F4 : sort_descM py_lt (combine (map created_at wanted) wanted) = Ok sorted)
      by now apply sort_descM_total.
    assert (F5 : py_slice_to listed (get_or data "limit" (VInt 10)) = Ok shown).
    { subst shown limit. unfold get_or.
      destruct Hlimit as [Hn|(z & Hz)]; [rewrite Hn | rewrite Hz]; simpl.
      - reflexivity.
      - now destruct (0 <=? z)%Z. }
    assert (F6 : filterM NotificationAgent.is_unread listed
                 = Ok (filter unread_flag listed)).
    { apply filterM_total. intros v Hv. destruct (Hlisted v Hv) as (id & Hst).
      now apply (stored_is_unread id). }
    unfold get_or in F1, F2, F5.
    unfold NotificationAgent._get_user_notifications,
      NotificationAgent.get_user_notifications_body, NotificationAgent.notifications,
      try_except_st, bind_st, lift, get_state, ret.
    rewrite Hparse. cbn [py_get]. rewrite F1.
    subst shown. subst listed.
    destruct (truthy match dict_get data "unread_only" with
                     | Some v => v
                     | None => VBool false
                     end) eqn:Eu; cbn beta iota.
    + rewrite F2, F3, F4, F5, F6. reflexivity.
    + injection F2 as F2. rewrite F2, F3, F4, F5, F6. reflexivity.
  - subst shown. destruct (0 <=? limit)%Z; eexists; symmetry; apply firstn_skipn.
  - intros Hpos. subst shown. apply Z.leb_le in Hpos. now rewrite Hpos.
Qed.

End NotificationListing.

Section NotificationRoundTrip.
Context {RT : Runtime}.

Lemma mark_read_missing query data nid st :
  json_loads query = Ok (VDict data) ->
  dict_get data "notification_id" = Some (VStr nid) ->
  dict_get (table st) nid = None ->
  NotificationAgent._mark_notification_read query st
  = (Ok (json_dumps (VDict [("status", VStr "error");
                            ("message", VStr "Notification not found")])), st).
Proof.
  intros Hparse Hid Hn.
  unfold NotificationAgent._mark_notification_read,
    NotificationAgent.mark_notification_read_body,
    NotificationAgent.notifications, try_except_st, bind_st, lift, get_state, ret.
  rewrite Hparse. simpl. rewrite Hid.
  unfold py_contains, dict_mem. rewrite Hn. reflexivity.
Qed.

(** X16. Sending and then marking.  On a well-formed store of [n]
    notifications, [_send_notification] with a JSON object first prints
    its line, and what the write does decides the rest.  When the line
    is written, the tool answers with the id [notif_(n+1)] and appends
    the notification under that id; [_mark_notification_read] with that
    id then succeeds, and the stored notification is read, has the time
    of the marking as [read_at], and has the user, title, message, type
    and creation time it was sent with.  When the write raises (a title
    or message the stream cannot encode), the tool answers with the
    error result of that exception, nothing is printed and nothing is
    stored, and marking that id answers that the notification was not
    found. *)
Theorem send_then_mark_round_trip q data qm dm st :
  wf_notifications (NotificationAgent.notifications st) ->
  json_loads q = Ok (VDict data) ->
  json_loads qm = Ok (VDict dm) ->
  dict_get dm "notification_id"
  = Some (VStr (notification_key (length (NotificationAgent.notifications st) + 1))) ->
  (stdout_write (sent_line data) = Ok tt ->
   exists st1 st2 n,
    NotificationAgent._send_notification q st = (Ok (sent_answer st), st1) /\
    NotificationAgent._mark_notification_read qm st1 = (Ok marked_answer, st2) /\
    dict_keys (NotificationAgent.notifications st2)
    = dict_keys (NotificationAgent.notifications st)
      ++ [notification_key (length (NotificationAgent.notifications st) + 1)] /\
    dict_get (NotificationAgent.notifications st2)
             (notification_key (length (NotificationAgent.notifications st) + 1))
    = Some (VDict n) /\
    dict_get n "is_read" = Some (VBool true) /\
    dict_get n "read_at" = Some (VStr (utcnow_isoformat (S (clock_reads st)))) /\
    dict_get n "created_at" = Some (VStr (utcnow_isoformat (clock_reads st))) /\
    dict_get n "user_id" = Some (get_or data "user_id" VNone) /\
    dict_get n "title" = Some (get_or data "title" VNone) /\
    dict_get n "message" = Some (get_or data "message" VNone) /\
    dict_get n "notification_type"
    = Some (get_or data "notification_type" (VStr "email")) /\
    stdout st2 = stdout st ++ [sent_line data]) /\
  (forall e, stdout_write (sent_line data) = Raise e ->
   exists st1,
    NotificationAgent._send_notification q st
    = (Ok (json_dumps (VDict [("status", VStr "error");
                              ("message", VStr (str_exn e))])), st1) /\
    NotificationAgent.notifications st1 = NotificationAgent.notifications st /\
    stdout st1 = stdout st /\
    NotificationAgent._mark_notification_read qm st1
    = (Ok (json_dumps (VDict [("status", VStr "error");
                              ("message", VStr "Notification not found")])), st1)).
Proof.
  unfold NotificationAgent.notifications.
  intros [Hkeys _] Hparse Hparse_m Hid.
  set (id := notification_key (length (table st) + 1)) in *.
  assert (Hfresh : ~ In id (dict_keys (table st)))
    by (rewrite Hkeys; apply notification_key_fresh).
  split.
  - intros Hwrite.
    pose proof (send_notification_found q data st Hparse Hwrite) as Hsend.
    assert (Hstored : dict_get (table (sent st data)) id
                      = Some (sent_notification st data))
      by apply dict_get_set_eq.
    unfold sent_notification in Hstored.
    pose proof (mark_read_found qm dm id (sent st data) _ Hparse_m Hid Hstored) as Hmark.
    do 3 eexists. split; [exact Hsend|]. split; [exact Hmark|].
    cbn [marked table stdout sent clock_reads].
    split.
    { fold id. rewrite dict_set_set. now apply dict_keys_set_new. }
    split; [apply dict_get_set_eq|].
    repeat split; reflexivity.
  - intros e Hwrite. exists (unsent st).
    split; [now apply (send_notification_refused q data)|].
    split; [reflexivity|]. split; [reflexivity|].
    apply (mark_read_missing qm dm id); [assumption | assumption |].
    cbn [unsent table].
    destruct (dict_get (table st) id) as [v|] eqn:Hget; [|reflexivity].
    exfalso. apply Hfresh. apply dict_mem_true. unfold dict_mem. now rewrite Hget.
Qed.

End NotificationRoundTrip.

(** ** The store of the payment agent *)

Section PaymentStore.
Context {RT : Runtime}.

Lemma process_payment_found query data st :
  json_loads query = Ok (VDict data) ->
  PaymentAgent._process_payment query st = (Ok (paid_answer st), paid st data).
Proof.
  intros Hparse.
  unfold PaymentAgent._process_payment, PaymentAgent.process_payment_body,
    try_except_st, bind_st, lift, ret, uuid4, utcnow, table_set, set_table.
  rewrite Hparse. reflexivity.
Qed.

Lemma process_payment_cases query st :
  table (snd (PaymentAgent._process_payment query st)) = table st \/
  exists data,
    json_loads query = Ok (VDict data) /\
    PaymentAgent._process_payment query st = (Ok (paid_answer st), paid st data).
Proof.
  destruct (json_loads query) as [data|e] eqn:Hparse.
  - destruct data as [| | | | | |data];
      try (left; unfold PaymentAgent._process_payment,
             PaymentAgent.process_payment_body, try_except_st, bind_st, lift, uuid4;
           rewrite Hparse; reflexivity).
    right. exists data. split; [reflexivity|]. now apply process_payment_found.
  - left. unfold PaymentAgent._process_payment, PaymentAgent.process_payment_body,
      try_except_st, bind_st, lift.
    rewrite Hparse. reflexivity.
Qed.

Lemma all_stored_set t tid v :
  all_stored t -> stored_transaction tid v -> all_stored (dict_set t tid v).
Proof.
  intros Hall Hv k x. destruct (string_dec k tid) as [->|Hne].
  - rewrite dict_get_set_eq. now intros [= <-].
  - rewrite dict_get_set_neq by exact Hne. apply Hall.
Qed.

Lemma payment_tool_keeps_stored t query st :
  In t payment_tools ->
  all_stored (table st) ->
  all_stored (table (snd (func t query st))).
Proof.
  intros [<-|[<-|[<-|[]]]] Hall; cbn [func].
  - destruct (process_payment_cases query st) as [->|(data & _ & ->)]; [exact Hall|].
    apply all_stored_set; [exact Hall|].
    unfold paid_transaction. do 2 eexists. repeat split; reflexivity.
  - destruct (process_refund_cases query st)
      as [->|(data & tid & txn & original & amount & Hentry & Horig & -> & _)];
      [exact Hall|].
    apply all_stored_set; [exact Hall|].
    destruct (Hall tid _ Hentry) as (txn' & a & [= <-] & Hid & Hstatus & Ha).
    do 2 eexists. split; [reflexivity|].
    repeat split; rewrite !dict_get_set_neq by discriminate; eassumption.
  - now rewrite get_transaction_status_keeps.
Qed.

(** X17. The invariant of the transaction store.  [self.transactions]
    starts empty, and whatever tools of the payment agent are called,
    with whatever payloads and in whatever order, every stored
    transaction is a dict kept under its own [transaction_id], with an
    ["amount"] and with the status ["completed"]: a refund records its
    three fields and leaves the status as it was, so that a refunded
    transaction still reads ["completed"]. *)
Theorem payment_store_invariant calls st :
  Forall (fun call => In (fst call) payment_tools) calls ->
  all_stored (PaymentAgent.transactions st) ->
  all_stored (PaymentAgent.transactions (run_tools calls st)).
Proof.
  unfold PaymentAgent.transactions. intros Hcalls. revert st.
  induction Hcalls as [|[t query] calls Ht _ IH]; intros st Hall; [exact Hall|].
  cbn [run_tools fold_left fst snd]. fold (run_tools calls (snd (func t query st))).
  apply IH. now apply payment_tool_keeps_stored.
Qed.

#[local] Arguments table_set_field : simpl never.

(** X18. Paying and then asking.  [_process_payment] with a JSON
    object answers with the id [txn_<token>] and stores the transaction
    under it; [_get_transaction_status] with that id then answers with
    the stored transaction, which has the payload's amount, method,
    booking reference and user (or [null]), the payload's currency or
    ["USD"], and the status ["completed"], and it changes nothing. *)
Theorem payment_then_status_round_trip q data qs ds st :
  json_loads q = Ok (VDict data) ->
  json_loads qs = Ok (VDict ds) ->
  dict_get ds "transaction_id"
  = Some (VStr ("txn_" ++ uuid4_hex16 (uuid_draws st))%string) ->
  exists st1,
    PaymentAgent._process_payment q st = (Ok (paid_answer st), st1) /\
    PaymentAgent._get_transaction_status qs st1
    = (Ok (json_dumps (VDict [("status", VStr "success");
                              ("transaction", VDict (paid_transaction st data))])),
       st1) /\
    dict_get (PaymentAgent.transactions st1)
             ("txn_" ++ uuid4_hex16 (uuid_draws st))%string
    = Some (VDict (paid_transaction st data)) /\
    dict_get (paid_transaction st data) "amount" = Some (get_or data "amount" VNone) /\
    dict_get (paid_transaction st data) "currency"
    = Some (get_or data "currency" (VStr "USD")) /\
    dict_get (paid_transaction st data) "status" = Some (VStr "completed") /\
    uuid_draws st1 = S (uuid_draws st).
Proof.
  intros Hparse Hparse_s Hid.
  exists (paid st data). split; [now apply process_payment_found|].
  assert (Hstored : dict_get (table (paid st data))
                             ("txn_" ++ uuid4_hex16 (uuid_draws st))%string
                    = Some (VDict (paid_transaction st data)))
    by apply dict_get_set_eq.
  split.
  { unfold PaymentAgent._get_transaction_status,
      PaymentAgent.get_transaction_status_body, PaymentAgent.transactions,
      try_except_st, bind_st, lift, get_state, ret.
    rewrite Hparse_s. cbn [py_get]. rewrite Hid.
    unfold py_contains, py_lookup, dict_mem. rewrite Hstored. reflexivity. }
  split; [exact Hstored|]. repeat split; reflexivity.
Qed.

(** X19. Refunds are not guarded.  A refund of a stored transaction
    succeeds whether or not the transaction was refunded before, and
    for whatever ["amount"] the payload carries: the amount is echoed
    and stored as it is, without comparison with the transaction's
    amount.  A second refund gets a new refund id and overwrites the
    record of the first.  The transaction's other fields (its amount
    and status among them) and the other transactions are left as they
    were. *)
Theorem refund_can_be_repeated q1 q2 d1 d2 tid txn original st :
  json_loads q1 = Ok (VDict d1) ->
  dict_get d1 "transaction_id" = Some (VStr tid) ->
  json_loads q2 = Ok (VDict d2) ->
  dict_get d2 "transaction_id" = Some (VStr tid) ->
  dict_get (PaymentAgent.transactions st) tid = Some (VDict txn) ->
  dict_get txn "amount" = Some original ->
  exists st1 st2 txn2,
    PaymentAgent._process_refund q1 st
    = (Ok (json_dumps
             (VDict [("status", VStr "success");
                     ("refund_id", VStr ("ref_" ++ uuid4_hex16 (uuid_draws st))%string);
                     ("amount_refunded", get_or d1 "amount" original);
                     ("message", VStr "Refund processed successfully")])), st1) /\
    PaymentAgent._process_refund q2 st1
    = (Ok (json_dumps
             (VDict [("status", VStr "success");
                     ("refund_id",
                      VStr ("ref_" ++ uuid4_hex16 (S (uuid_draws st)))%string);
                     ("amount_refunded", get_or d2 "amount" original);
                     ("message", VStr "Refund processed successfully")])), st2) /\
    dict_get (PaymentAgent.transactions st2) tid = Some (VDict txn2) /\
    dict_get txn2 "refund_id"
    = Some (VStr ("ref_" ++ uuid4_hex16 (S (uuid_draws st)))%string) /\
    dict_get txn2 "refund_amount" = Some (get_or d2 "amount" original) /\
    (forall field,
        field <> "refund_id"%string -> field <> "refund_amount"%string ->
        field <> "refund_timestamp"%string ->
        dict_get txn2 field = dict_get txn field) /\
    (forall other,
        other <> tid ->
        dict_get (PaymentAgent.transactions st2) other
        = dict_get (PaymentAgent.transactions st) other).
Proof.
  unfold PaymentAgent.transactions. intros Hp1 Hid1 Hp2 Hid2 Hentry Horig.
  pose proof (process_refund_found q1 d1 tid st txn original _
                Hp1 Hid1 Hentry Horig eq_refl) as Hfirst.
  set (a1 := match dict_get d1 "amount" with Some a => a | None => original end) in *.
  set (st1 := refunded st tid txn a1) in *.
  assert (Hentry1 : dict_get (table st1) tid
                    = Some (VDict (dict_set
                                     (dict_set
                                        (dict_set txn "refund_id"
                                           (VStr ("ref_" ++ uuid4_hex16 (uuid_draws st))%string))
                                        "refund_amount" a1)
                                     "refund_timestamp"
                                     (VStr (utcnow_isoformat (clock_reads st))))))
    by apply dict_get_set_eq.
  assert (Horig1 : dict_get (dict_set
                               (dict_set
                                  (dict_set txn "refund_id"
                                     (VStr ("ref_" ++ uuid4_hex16 (uuid_draws st))%string))
                                  "refund_amount" a1)
                               "refund_timestamp"
                               (VStr (utcnow_isoformat (clock_reads st)))) "amount"
                   = Some original)
    by (rewrite !dict_get_set_neq by discriminate; exact Horig).
  pose proof (process_refund_found q2 d2 tid st1 _ original _
                Hp2 Hid2 Hentry1 Horig1 eq_refl) as Hsecond.
  do 3 eexists. split; [exact Hfirst|]. split; [exact Hsecond|].
  cbn [refunded table st1 uuid_draws clock_reads].
  split; [apply dict_get_set_eq|].
  split.
  { rewrite dict_get_set_neq by discriminate.
    rewrite dict_get_set_neq by discriminate. apply dict_get_set_eq. }
  split.
  { rewrite dict_get_set_neq by discriminate. apply dict_get_set_eq. }
  split.
  - intros field H1 H2 H3. now rewrite !dict_get_set_neq by assumption.
  - intros other Hne. subst st1. cbn [refunded table].
    now rewrite !dict_get_set_neq by exact Hne.
Qed.

End PaymentStore.

(** ** Ties and edge cases of the optimizer's tools *)

Section MinByFirst.
Context {K A : Type}.
Variables (ltb leb : K -> K -> bool) (good : K -> Prop) (key : A -> res K).
Hypothesis ltb_leb : forall a b, ltb a b = true -> leb a b = true.
Hypothesis leb_trans : forall a b c, leb a b = true -> leb b c = true -> leb a c = true.
Hypothesis total : forall a b, good a -> good b -> ltb a b = false -> leb b a = true.
Hypothesis leb_not_ltb : forall a b, leb b a = true -> ltb a b = false.



End MinByFirst.

Section OptimizerEdges.
Context {RT : Runtime}.

Lemma mapM_raises {A B : Type} (f : A -> res B) (l : list A) x e :
  In x l -> f x = Raise e -> exists e', mapM f l = Raise e'.
Proof.
  induction l as [|y l IH]; intros Hin Hx; [destruct Hin|].
  destruct Hin as [<-|Hin]; simpl.
  - rewrite Hx. eauto.
  - destruct (f y); [|eauto].
    destruct (IH Hin Hx) as (e' & ->). eauto.
Qed.


(** X21. The three tools of the optimizer answer
    ["No options provided"] whenever the payload's ["options"] is
    missing or falsy: an empty list, but also [null], [0], [false], the
    empty text or an empty object. *)
Theorem optimizer_tools_need_options query data options :
  json_loads query = Ok data ->
  py_get data "options" (VList []) = Ok options ->
  truthy options = false ->
  OptimizerAgent._find_cheapest_option query
  = Ok (json_dumps (VDict [("status", VStr "error");
                           ("message", VStr "No options provided")])) /\
  OptimizerAgent._find_fastest_option query
  = Ok (json_dumps (VDict [("status", VStr "error");
                           ("message", VStr "No options provided")])) /\
  OptimizerAgent._recommend_based_on_preferences query
  = Ok (json_dumps (VDict [("status", VStr "error");
                           ("message", VStr "No options provided")])).
Proof.
  intros Hparse Hopts Hfalsy.
  unfold OptimizerAgent._find_cheapest_option, OptimizerAgent.find_cheapest_option_body,
    OptimizerAgent._find_fastest_option, OptimizerAgent.find_fastest_option_body,
    OptimizerAgent._recommend_based_on_preferences,
    OptimizerAgent.recommend_based_on_preferences_body, try_except, bind.
  rewrite Hparse, Hopts, Hfalsy.
  destruct data; try discriminate. simpl. repeat split; reflexivity.
Qed.

(** X22. The two selections treat a missing key differently.  An
    option without ["price"] counts as infinitely dear, so it is
    returned by [_find_cheapest_option] only if no option is cheaper;
    an option without ["duration_minutes"] makes [int(float('inf'))]
    raise [OverflowError], so [_find_fastest_option] answers an error
    result for the whole list, wherever in the list the option is. *)
Theorem fastest_needs_every_duration query data items d :
  json_loads query = Ok data ->
  py_get data "options" (VList []) = Ok (VList items) ->
  In (VDict d) items ->
  dict_get d "duration_minutes" = None ->
  OptimizerAgent.duration_key (VDict d)
  = Raise (OverflowError "cannot convert float infinity to integer") /\
  (exists e,
      OptimizerAgent._find_fastest_option query
      = Ok (json_dumps (VDict [("status", VStr "error");
                               ("message", VStr (str_exn e))]))) /\
  (dict_get d "price" = None -> OptimizerAgent.price_key (VDict d) = Ok infinity).
Proof.
  intros Hparse Hopts Hin Hmissing.
  assert (Hkey : OptimizerAgent.duration_key (VDict d)
                 = Raise (OverflowError "cannot convert float infinity to integer")).
  { unfold OptimizerAgent.duration_key. simpl. rewrite Hmissing. reflexivity. }
  split; [exact Hkey|]. split; [|apply price_key_missing].
  destruct (mapM_raises _ items _ _ Hin Hkey) as (e & He).
  exists e.
  unfold OptimizerAgent._find_fastest_option, OptimizerAgent.find_fastest_option_body,
    try_except, bind.
  rewrite Hparse, Hopts.
  rewrite nonempty_truthy by (intros ->; destruct Hin). simpl.
  rewrite (py_min_by_raise Z.ltb OptimizerAgent.duration_key items e He).
  reflexivity.
Qed.

End OptimizerEdges.

(** ** Payloads that are JSON but not objects *)

Section NonObjects.
Context {RT : Runtime}.

Lemma try_block_non_object t query data st :
  In t all_tools ->
  json_loads query = Ok data ->
  (forall d, data <> VDict d) ->
  exists st',
    try_block t query st
    = (Raise (AttributeError "object has no attribute 'get'"), st') /\
    table st' = table st /\
    clock_reads st' = clock_reads st /\
    stdout st' = stdout st.
Proof.
  intros Hin Hparse Hnd.
  assert (Hget : forall k default,
             py_get data k default
             = Raise (AttributeError "object has no attribute 'get'")).
  { intros k default. destruct data as [| | | | | |d]; try reflexivity.
    now destruct (Hnd d). }
  unfold all_tools in Hin. simpl in Hin.
  repeat (destruct Hin as [<-|Hin]; [simpl; unfold stateless, lift|]);
    try contradiction.
  all: try (unfold SearchAgent.search_flights_body, SearchAgent.search_trains_body,
              OptimizerAgent.find_cheapest_option_body,
              OptimizerAgent.find_fastest_option_body,
              OptimizerAgent.recommend_based_on_preferences_body, bind;
            rewrite Hparse, Hget; eexists; repeat split; reflexivity).
  all: unfold PaymentAgent.process_payment_body, PaymentAgent.process_refund_body,
         PaymentAgent.get_transaction_status_body,
         NotificationAgent.send_notification_body,
         NotificationAgent.get_user_notifications_body,
         NotificationAgent.mark_notification_read_body, bind_st, lift, uuid4, get_state;
       rewrite Hparse, Hget; eexists; repeat split; reflexivity.
Qed.

(** X23. A payload that is valid JSON but not an object (a list, a
    number, a text, [null]): every tool of every agent answers the
    error result that carries the text of the [AttributeError] of
    [data.get], and leaves the agent's table, the clock and the output
    as they were. *)
Theorem tools_reject_non_objects t query data st :
  In t all_tools ->
  json_loads query = Ok data ->
  (forall d, data <> VDict d) ->
  exists st',
    func t query st
    = (Ok (json_dumps
             (VDict [("status", VStr "error");
                     ("message",
                      VStr (str_exn (AttributeError "object has no attribute 'get'")))])),
       st') /\
    table st' = table st /\
    clock_reads st' = clock_reads st /\
    stdout st' = stdout st.
Proof.
  intros Hin Hparse Hnd.
  destruct (try_block_non_object t query data st Hin Hparse Hnd)
    as (st' & Hblock & Hframe).
  exists st'. split; [|exact Hframe].
  assert (Hcontract : error_contract t query st).
  { unfold all_tools in Hin. simpl in Hin.
    repeat (destruct Hin as [<-|Hin];
            [first [ eapply try_except_contract; reflexivity
                   | eapply try_except_st_contract; reflexivity ]|]).
    contradiction. }
  destruct Hcontract as (_ & _ & Hraise). now apply Hraise.
Qed.

End NonObjects.

(** ** The requests of [bookings.py] to the agents *)

Section BookingRequests.
Context {RT : Runtime} {X : Type}.
Variables search optimizer payment notification : ST X (BaseAgent.AgentExecutor X).

(** X24. What [create_booking] and [cancel_booking] ask of the agents
    does not reach them.  The notification and the refund are
    dispatched with the data in the context and a fixed query, and the
    agents give their planner the query alone: the outcome of the call
    is the same whatever the user, the title, the message, the
    transaction and the amount are. *)
Theorem booking_requests_carry_no_data w :
  (forall user_id title message user_id' title' message',
      process (BaseAgent.agent_manager search optimizer payment notification)
              (VStr "notification")
              (Bookings.notification_request user_id title message) w
      = process (BaseAgent.agent_manager search optimizer payment notification)
                (VStr "notification")
                (Bookings.notification_request user_id' title' message') w) /\
  (forall payment_reference amount payment_reference' amount',
      process (BaseAgent.agent_manager search optimizer payment notification)
              (VStr "payment")
              (Bookings.refund_request payment_reference amount) w
      = process (BaseAgent.agent_manager search optimizer payment notification)
                (VStr "payment")
                (Bookings.refund_request payment_reference' amount') w).
Proof.
  split; intros; unfold Bookings.notification_request, Bookings.refund_request;
    eapply process_same_query;
    try (intros k agent H; apply agent_manager_lookup in H as (_ & self & -> & _);
         apply agent_process_ignores_context);
    try reflexivity.
  - right. now eexists.
  - right. now eexists.
Qed.

End BookingRequests.

(** [GET /list] against the registry and the toolsets. *)

Section Catalog.
Context {RT : Runtime} {W : Type}.

(** X25. The catalog that [list_agents] returns is hard-coded, and it
    agrees with the code it describes: its keys are the keys of
    [AgentManager.agents], in the same order, and the capabilities it
    lists for an agent are the names of the tools the agent registers
    in [_setup_tools], in the same order. *)
Theorem list_agents_matches_registry (search optimizer payment notification : Agent W) :
  py_get Endpoints.list_agents "agents" VNone = Ok (VDict Endpoints.agents_info) /\
  dict_keys Endpoints.agents_info
  = map fst (agents (__init__ search optimizer payment notification)) /\
  map (fun entry => py_get (snd entry) "capabilities" VNone) Endpoints.agents_info
  = map (fun tools => Ok (VList (map (fun t => VStr (name t)) tools)))
        [search_tools; optimizer_tools; payment_tools; notification_tools].
Proof. repeat split; reflexivity. Qed.

End Catalog.

(** ** The further properties on the test data *)

Lemma search_step_passes :
  passes (RT := TestDouble.runtime []) TestDouble.manager 0 [Example.search_step]
         [] [] []
         [(step_key 0, Example.search_result)]
         [("search"%string, Example.search_result)]
         Example.calls_after_search.
Proof.
  eapply passes_success with (agent_name := VStr "search").
  - exists (VDict [("query", VStr "search_flights");
                   ("context", VDict Example.search_context)]).
    eexists. repeat split; reflexivity.
  - eexists. split; reflexivity.
  - reflexivity.
  - apply passes_nil.
Qed.

Lemma process_workflow_result_shape_witness :
  exists v w',
    process_workflow (RT := TestDouble.runtime []) TestDouble.manager
      [Example.search_step; Example.bad_step; Example.payment_step] []
    = (Ok v, w') /\
    exists final,
      v = VDict final /\
      dict_get final "message" = None /\
      ((dict_keys final = map step_key (seq 0 3) ++ ["status"%string] /\
        dict_get final "status" = Some (VStr "success")) \/
       (exists j,
           j < 3 /\
           dict_keys final
           = map step_key (seq 0 (S j)) ++ ["status"; "failed_step"]%string /\
           dict_get final "status" = Some (VStr "error") /\
           dict_get final "failed_step" = Some (VInt (Z.of_nat j)) /\
           exists result, dict_get final (step_key j) = Some result /\
                          has_error_status result true)).
Proof.
  do 2 eexists. split; [reflexivity|].
  eapply (process_workflow_result_shape (RT := TestDouble.runtime []) TestDouble.manager
            [Example.search_step; Example.bad_step; Example.payment_step] []).
  reflexivity.
Defined.

Lemma process_catches_agent_exceptions_witness :
  process (RT := TestDouble.runtime []) Scenario.flaky_manager
          (VStr "payment") (VDict [("query", VStr "pay")]) []
  = (Ok (VDict [("status", VStr "error");
                ("message", VStr "card declined");
                ("agent", VStr "payment")]),
     [("PaymentAgent"%string, {| query := "pay"; context := VDict [] |})]).
Proof.
  apply (proj1 (proj2 (process_catches_agent_exceptions
                         (RT := TestDouble.runtime []) Scenario.flaky_manager
                         "payment" (Scenario.failing_agent "PaymentAgent" "card declined")
                         [("query", VStr "pay")]
                         {| query := "pay"; context := VDict [] |} []
                         eq_refl eq_refl))
          (AgentFailure "card declined")).
  reflexivity.
Defined.

Lemma workflow_raises_on_malformed_input_witness :
  process_workflow (RT := TestDouble.runtime []) TestDouble.manager
    ([Example.search_step] ++ Scenario.null_context_step :: [Example.payment_step]) []
  = (Raise (AttributeError "object has no attribute 'update'"),
     Example.calls_after_search).
Proof.
  apply (proj1 (proj2 (workflow_raises_on_malformed_input
                         (RT := TestDouble.runtime []) TestDouble.manager
                         [Example.search_step] Scenario.null_context_step
                         [Example.payment_step] [] _ _ _ (VStr "payment")
                         (VDict [("query", VStr "pay"); ("context", VNone)])
                         search_step_passes eq_refl eq_refl eq_refl))
          [("query", VStr "pay"); ("context", VNone)] VNone eq_refl eq_refl).
  intros x. discriminate.
Defined.

Lemma workflow_context_holds_successes_witness :
  dict_get [] "search" = Some Example.search_result \/
  (dict_mem "search" (agents TestDouble.manager) = true /\
   has_error_status Example.search_result false /\
   exists j step,
     nth_error [Example.search_step] j = Some step /\
     py_get step "agent" VNone = Ok (VStr "search") /\
     dict_get [(step_key 0, Example.search_result)] (step_key (0 + j))
     = Some Example.search_result).
Proof.
  apply (workflow_context_holds_successes (RT := TestDouble.runtime [])
           TestDouble.manager 0 [Example.search_step] [] [] []
           [(step_key 0, Example.search_result)]
           [("search"%string, Example.search_result)]
           Example.calls_after_search search_step_passes "search").
  reflexivity.
Defined.

Lemma agent_process_masks_planner_failure_witness :
  BaseAgent.process (RT := TestDouble.runtime []) Scenario.payment_agent
    {| query := "pay"; context := VDict [("amount", VInt 300)] |} Scenario.initialised
  = (Ok {| output := "An error occurred: rate limit reached";
           metadata := VDict [("agent", VStr "PaymentAgent"); ("error", VBool true)] |},
     {| BaseAgent.executors := BaseAgent.executors Scenario.initialised;
        BaseAgent.env := 1 |}).
Proof.
  apply (proj1 (proj2 (agent_process_masks_planner_failure
                         (RT := TestDouble.runtime []) Scenario.payment_agent
                         Scenario.refusing
                         {| query := "pay"; context := VDict [("amount", VInt 300)] |}
                         Scenario.initialised eq_refl))
          (AgentFailure "rate limit reached") 1).
  reflexivity.
Defined.

Lemma agent_process_initialises_on_first_use_witness :
  BaseAgent.process (RT := TestDouble.runtime []) Scenario.payment_agent
    {| query := "pay"; context := VDict [] |} Scenario.fresh
  = (Raise (AgentFailure "no API key"), Scenario.fresh).
Proof.
  apply (proj1 (agent_process_initialises_on_first_use
                  (RT := TestDouble.runtime []) Scenario.payment_agent
                  {| query := "pay"; context := VDict [] |} Scenario.fresh eq_refl)
          (AgentFailure "no API key") 0).
  reflexivity.
Defined.

Lemma workflow_outcome_ignores_contexts_witness :
  process_workflow (RT := TestDouble.runtime []) Scenario.agent_manager Scenario.book_and_pay Scenario.initialised
  = process_workflow (RT := TestDouble.runtime []) Scenario.agent_manager Scenario.book_and_pay_bare
      Scenario.initialised.
Proof.
  apply (workflow_outcome_ignores_contexts (RT := TestDouble.runtime [])
           Scenario.no_key Scenario.no_key Scenario.no_key Scenario.no_key
           Scenario.book_and_pay Scenario.book_and_pay_bare Scenario.initialised).
  repeat constructor.
  - exists [("query", VStr "find flights")],
      [("query", VStr "find flights"); ("context", VDict [("budget", VInt 500)])].
    repeat split; try reflexivity.
    + right. now exists "find flights"%string.
    + now left.
    + right. now exists "find flights"%string.
    + right. now exists [("budget"%string, VInt 500)].
  - exists [("query", VStr "pay"); ("context", VDict [("amount", VInt 300)])],
      [("query", VStr "pay")].
    repeat split; try reflexivity.
    + right. now exists "pay"%string.
    + right. now exists [("amount"%string, VInt 300)].
    + right. now exists "pay"%string.
    + now left.
  - exists [("query", VStr "tell the user")],
      [("query", VStr "tell the user"); ("context", VDict [])].
    repeat split; try reflexivity.
    + right. now exists "tell the user"%string.
    + now left.
    + right. now exists "tell the user"%string.
    + right. now exists [].
Defined.

Lemma initialised_agents_never_fail_fast_witness :
  exists results w',
    process_workflow (RT := TestDouble.runtime []) Scenario.agent_manager Scenario.book_and_pay Scenario.initialised
    = (Ok (VDict results), w') /\
    dict_keys results = map step_key (seq 0 3) ++ ["status"%string] /\
    dict_get results "status" = Some (VStr "success") /\
    BaseAgent.executors w' = BaseAgent.executors Scenario.initialised.
Proof.
  apply (initialised_agents_never_fail_fast (RT := TestDouble.runtime [])
           Scenario.no_key Scenario.no_key Scenario.no_key Scenario.no_key
           Scenario.book_and_pay Scenario.initialised).
  - intros nm [<-|[<-|[<-|[<-|[]]]]]; reflexivity.
  - repeat constructor.
    + exists "search"%string, [("query", VStr "find flights")].
      repeat split; try reflexivity.
      * right. now exists "find flights"%string.
      * now left.
    + exists "payment"%string,
        [("query", VStr "pay"); ("context", VDict [("amount", VInt 300)])].
      repeat split; try reflexivity.
      * right. now exists "pay"%string.
      * right. now exists [("amount"%string, VInt 300)].
    + exists "notification"%string, [("query", VStr "tell the user")].
      repeat split; try reflexivity.
      * right. now exists "tell the user"%string.
      * now left.
Defined.

Lemma execute_workflow_ignores_user_witness :
  Endpoints.execute_workflow (RT := TestDouble.runtime []) TestDouble.manager
    Scenario.alice_workflow Scenario.alice []
  = Endpoints.execute_workflow (RT := TestDouble.runtime []) TestDouble.manager
      Scenario.bob_workflow Scenario.bob [].
Proof.
  apply (execute_workflow_ignores_user (RT := TestDouble.runtime []) TestDouble.manager
           Scenario.alice_workflow Scenario.bob_workflow Scenario.alice Scenario.bob []);
    reflexivity.
Defined.

Lemma execute_workflow_responses_witness :
  exists status_code detail,
    Endpoints.execute_workflow (RT := TestDouble.runtime []) TestDouble.manager
      Scenario.failing_workflow Scenario.alice []
    = (Ok (Endpoints.HTTPException status_code detail), []) /\
    status_code = 400%Z /\ detail = VStr "Error executing workflow".
Proof.
  do 2 eexists. split; [reflexivity|].
  apply (execute_workflow_responses (RT := TestDouble.runtime []) TestDouble.manager
           Scenario.failing_workflow Scenario.alice []
           (Endpoints.HTTPException _ _) []).
  reflexivity.
Defined.

Lemma execute_workflow_null_context_witness :
  Endpoints.execute_workflow (RT := TestDouble.runtime []) TestDouble.manager
    Scenario.null_context_workflow Scenario.alice []
  = (Raise (AttributeError "object has no attribute 'update'"), []).
Proof.
  apply (execute_workflow_null_context (RT := TestDouble.runtime []) TestDouble.manager
           Scenario.null_context_workflow Scenario.alice []
           (Scenario.request_step "search" "find flights" None None) [] []
           [] [] [] []).
  - reflexivity.
  - reflexivity.
  - apply passes_nil.
  - discriminate.
  - reflexivity.
Defined.

Lemma process_agent_request_binds_user_witness :
  Endpoints.process_agent_request (RT := TestDouble.runtime []) TestDouble.manager
    "search" Scenario.spoofed_request Scenario.alice []
  = (Ok (Endpoints.Returned Example.search_result),
     [("SearchAgent"%string,
       {| query := "find flights";
          context := VDict [("user", Endpoints.user_info Scenario.alice);
                            ("budget", VInt 500)] |})]).
Proof.
  apply (proj1 (proj2 (proj2 (process_agent_request_binds_user
                                (RT := TestDouble.runtime []) TestDouble.manager
                                "search"
                                (TestDouble.recording_agent "SearchAgent" "1 flight found")
                                Scenario.spoofed_request Scenario.alice [] eq_refl)))
          {| output := "1 flight found";
             metadata := VDict [("agent", VStr "SearchAgent")] |}).
  reflexivity.
Defined.

Lemma process_agent_request_unknown_agent_witness :
  Endpoints.process_agent_request (RT := TestDouble.runtime []) TestDouble.manager
    "teleport" Scenario.spoofed_request Scenario.alice []
  = (Ok (Endpoints.HTTPException 400 (VStr "Agent 'teleport' not found")), []).
Proof.
  apply (process_agent_request_unknown_agent (RT := TestDouble.runtime [])
           TestDouble.manager "teleport" Scenario.spoofed_request Scenario.alice []).
  reflexivity.
Defined.

Lemma after_send_wf : wf_notifications (table Scenario.after_send).
Proof.
  unfold Scenario.after_send.
  rewrite (send_notification_found (RT := Scenario.codec) _
             [("user_id", VStr "u1"); ("title", VStr "Booked");
              ("message", VStr "Your flight is booked")]
             TestDouble.empty_state)
    by (vm_compute; reflexivity).
  apply wf_notifications_sent, wf_notifications_nil.
Qed.

Lemma notification_store_invariant_witness :
  wf_notifications
    (NotificationAgent.notifications
       (run_tools Scenario.notification_calls TestDouble.empty_state)) /\
  exists added,
    dict_keys (NotificationAgent.notifications
                 (run_tools Scenario.notification_calls TestDouble.empty_state))
    = dict_keys (NotificationAgent.notifications TestDouble.empty_state)
      ++ map notification_key
           (seq (S (length (NotificationAgent.notifications TestDouble.empty_state)))
                added).
Proof.
  apply (notification_store_invariant (RT := Scenario.codec)
           Scenario.notification_calls TestDouble.empty_state).
  - apply Forall_forall. intros [t q] Hin.
    apply in_combine_l in Hin. exact Hin.
  - exact wf_notifications_nil.
Defined.

Lemma send_notification_wf {RT : Runtime} query st :
  wf_notifications (table st) ->
  wf_notifications (table (snd (NotificationAgent._send_notification query st))).
Proof.
  intros Hwf.
  exact (proj1 (notification_tool_keeps_wf
                  {| name := "send_notification";
                     func := NotificationAgent._send_notification;
                     try_block := NotificationAgent.send_notification_body |}
                  query st (or_introl eq_refl) Hwf)).
Qed.

Lemma mark_notification_read_wf {RT : Runtime} query st :
  wf_notifications (table st) ->
  wf_notifications (table (snd (NotificationAgent._mark_notification_read query st))).
Proof.
  intros Hwf.
  exact (proj1 (notification_tool_keeps_wf
                  {| name := "mark_notification_read";
                     func := NotificationAgent._mark_notification_read;
                     try_block := NotificationAgent.mark_notification_read_body |}
                  query st (or_intror (or_intror (or_introl eq_refl))) Hwf)).
Qed.

Lemma inbox_wf : wf_notifications (table Scenario.inbox).
Proof.
  unfold Scenario.inbox, Scenario.send.
  apply mark_notification_read_wf.
  do 3 apply send_notification_wf.
  exact after_send_wf.
Qed.

(** Two sorted lists with the same elements are the same list, when no
    two different elements are each before the other. *)
Lemma sorted_perm_eq {A : Type} (R : A -> A -> Prop) (l l' : list A) :
  (forall a b, In a l' -> In b l' -> R a b -> R b a -> a = b) ->
  Permutation l l' -> StronglySorted R l -> StronglySorted R l' -> l = l'.
Proof.
  revert l'. induction l as [|a t IH]; intros l' Hanti Hperm Hs Hs'.
  - apply Permutation_nil in Hperm. now subst.
  - destruct l' as [|b t'].
    { apply Permutation_sym, Permutation_nil in Hperm. discriminate. }
    inversion Hs as [|? ? Hst Hat]; subst.
    inversion Hs' as [|? ? Hst' Hbt']; subst.
    rewrite Forall_forall in Hat, Hbt'.
    assert (Ha : In a (b :: t')) by (apply (Permutation_in _ Hperm); now left).
    assert (Hb : In b (a :: t))
      by (apply (Permutation_in _ (Permutation_sym Hperm)); now left).
    assert (Hab : a = b).
    { destruct Ha as [Ha|Ha]; [now symmetry|].
      destruct Hb as [Hb|Hb]; [exact Hb|].
      apply Hanti; [now right | now left | now apply Hat | now apply Hbt']. }
    subst b. f_equal. apply IH; try assumption.
    + intros x y Hx Hy. apply Hanti; now right.
    + now apply Permutation_cons_inv in Hperm.
Qed.

(** The first user's inbox: of the two unread notifications the newest
    is shown under a limit of one; of all three the newest two, the
    read one being the oldest, and two of the three are unread. *)
Lemma get_user_notifications_lists_user_witness :
  NotificationAgent._get_user_notifications (RT := Scenario.codec)
    (TestDouble.dumps Scenario.newest_unread_payload) Scenario.inbox
  = (Ok (TestDouble.dumps
           (VDict [("status", VStr "success");
                   ("notifications", VList [Scenario.delay_notification]);
                   ("total", VInt 2);
                   ("unread_count", VInt 2)])),
     Scenario.inbox) /\
  NotificationAgent._get_user_notifications (RT := Scenario.codec)
    (TestDouble.dumps Scenario.newest_two_payload) Scenario.inbox
  = (Ok (TestDouble.dumps
           (VDict [("status", VStr "success");
                   ("notifications",
                    VList [Scenario.delay_notification; Scenario.gate_notification]);
                   ("total", VInt 3);
                   ("unread_count", VInt 2)])),
     Scenario.inbox).
Proof.
  split.
  - pose proof (get_user_notifications_lists_user (RT := Scenario.codec)
                  (TestDouble.dumps Scenario.newest_unread_payload)
                  [("user_id", VStr "u1"); ("limit", VInt 1);
                   ("unread_only", VBool true)]
                  Scenario.inbox inbox_wf ltac:(vm_compute; reflexivity)
                  (or_intror (ex_intro _ 1%Z eq_refl))) as H.
    cbv zeta in H.
    destruct H as (listed & shown & Hrun & Hperm & Hsorted & _ & Hshown).
    assert (Hlisted : listed = [Scenario.delay_notification; Scenario.gate_notification]).
    { apply (sorted_perm_eq not_older).
      - intros a b Ha Hb Hab Hba.
        destruct Ha as [<-|[<-|[]]], Hb as [<-|[<-|[]]]; try reflexivity;
          vm_compute in Hab, Hba; discriminate.
      - vm_compute in Hperm.
        apply (Permutation_trans Hperm).
        apply (Permutation_rev [Scenario.gate_notification; Scenario.delay_notification]).
      - exact Hsorted.
      - repeat (constructor; try (vm_compute; reflexivity)). }
    subst listed.
    rewrite (Hshown ltac:(vm_compute; intros E; discriminate E)) in Hrun.
    exact Hrun.
  - pose proof (get_user_notifications_lists_user (RT := Scenario.codec)
                  (TestDouble.dumps Scenario.newest_two_payload)
                  [("user_id", VStr "u1"); ("limit", VInt 2)]
                  Scenario.inbox inbox_wf ltac:(vm_compute; reflexivity)
                  (or_intror (ex_intro _ 2%Z eq_refl))) as H.
    cbv zeta in H.
    destruct H as (listed & shown & Hrun & Hperm & Hsorted & _ & Hshown).
    assert (Hlisted : listed = [Scenario.delay_notification; Scenario.gate_notification;
                                Scenario.booked_notification]).
    { apply (sorted_perm_eq not_older).
      - intros a b Ha Hb Hab Hba.
        destruct Ha as [<-|[<-|[<-|[]]]], Hb as [<-|[<-|[<-|[]]]]; try reflexivity;
          vm_compute in Hab, Hba; discriminate.
      - vm_compute in Hperm.
        apply (Permutation_trans Hperm).
        apply (Permutation_rev [Scenario.booked_notification; Scenario.gate_notification;
                                Scenario.delay_notification]).
      - exact Hsorted.
      - repeat (constructor; try (vm_compute; reflexivity)). }
    subst listed.
    rewrite (Hshown ltac:(vm_compute; intros E; discriminate E)) in Hrun.
    exact Hrun.
Defined.

Lemma send_then_mark_round_trip_witness :
  (exists st1 st2 n,
    NotificationAgent._send_notification (RT := Scenario.codec)
      (TestDouble.dumps Example.send_payload) TestDouble.empty_state
    = (Ok (TestDouble.dumps
             (VDict [("status", VStr "success");
                     ("notification_id", VStr "notif_1");
                     ("message", VStr "Notification sent successfully")])), st1) /\
    NotificationAgent._mark_notification_read (RT := Scenario.codec)
      (TestDouble.dumps Example.mark_payload) st1
    = (Ok (TestDouble.dumps
             (VDict [("status", VStr "success");
                     ("message", VStr "Notification marked as read")])), st2) /\
    dict_get (NotificationAgent.notifications st2) "notif_1" = Some (VDict n) /\
    dict_get n "is_read" = Some (VBool true) /\
    dict_get n "read_at" = Some (VStr "2024-01-01T00:00:1") /\
    dict_get n "title" = Some (VStr "Booked") /\
    stdout st2 = ["[EMAIL] Booked" ++ newline ++ "Your flight is booked"]%string) /\
  (exists st1,
    NotificationAgent._send_notification (RT := Scenario.codec)
      (TestDouble.dumps Scenario.accented_payload) TestDouble.empty_state
    = (Ok (TestDouble.dumps
             (VDict [("status", VStr "error");
                     ("message", VStr "'ascii' codec can't encode character")])),
       st1) /\
    NotificationAgent.notifications st1 = [] /\
    stdout st1 = [] /\
    NotificationAgent._mark_notification_read (RT := Scenario.codec)
      (TestDouble.dumps Example.mark_payload) st1
    = (Ok (TestDouble.dumps
             (VDict [("status", VStr "error");
                     ("message", VStr "Notification not found")])), st1)).
Proof.
  split.
  - destruct (send_then_mark_round_trip (RT := Scenario.codec)
                (TestDouble.dumps Example.send_payload)
                [("user_id", VStr "u1"); ("title", VStr "Booked");
                 ("message", VStr "Your flight is booked")]
                (TestDouble.dumps Example.mark_payload)
                [("notification_id", VStr "notif_1")]
                TestDouble.empty_state wf_notifications_nil
                ltac:(vm_compute; reflexivity) ltac:(vm_compute; reflexivity) eq_refl)
      as [Hwritten _].
    destruct (Hwritten ltac:(vm_compute; reflexivity))
      as (st1 & st2 & n & Hsend & Hmark & _ & Hn & Hread & Hat & _ & _ & Htitle & _
          & _ & Hout).
    exists st1, st2, n. repeat split; assumption.
  - destruct (send_then_mark_round_trip (RT := Scenario.codec)
                (TestDouble.dumps Scenario.accented_payload)
                [("user_id", VStr "u1");
                 ("title", VStr ("R" ++ Scenario.e_acute ++ "serv" ++ Scenario.e_acute));
                 ("message", VStr "Votre vol")]
                (TestDouble.dumps Example.mark_payload)
                [("notification_id", VStr "notif_1")]
                TestDouble.empty_state wf_notifications_nil
                ltac:(vm_compute; reflexivity) ltac:(vm_compute; reflexivity) eq_refl)
      as [_ Hrefused].
    destruct (Hrefused (UnicodeEncodeError "'ascii' codec can't encode character")
                ltac:(vm_compute; reflexivity))
      as (st1 & Hsend & Htable & Hout & Hmark).
    exists st1. repeat split; assumption.
Defined.

Lemma payment_store_invariant_witness :
  all_stored (PaymentAgent.transactions
                (run_tools Scenario.payment_calls TestDouble.empty_state)).
Proof.
  apply (payment_store_invariant (RT := Scenario.codec)
           Scenario.payment_calls TestDouble.empty_state).
  - apply Forall_forall. intros [t q] Hin.
    apply in_combine_l in Hin. exact Hin.
  - intros tid v H. discriminate H.
Defined.

Lemma payment_then_status_round_trip_witness :
  exists st1 txn,
    PaymentAgent._process_payment (RT := Scenario.codec)
      (TestDouble.dumps Example.payment_payload) TestDouble.empty_state
    = (Ok (paid_answer (RT := Scenario.codec) TestDouble.empty_state), st1) /\
    PaymentAgent._get_transaction_status (RT := Scenario.codec)
      (TestDouble.dumps Example.refund_payload) st1
    = (Ok (TestDouble.dumps (VDict [("status", VStr "success");
                                    ("transaction", VDict txn)])), st1) /\
    dict_get txn "amount" = Some (VFloat 299.99) /\
    dict_get txn "currency" = Some (VStr "USD") /\
    dict_get txn "status" = Some (VStr "completed").
Proof.
  destruct (payment_then_status_round_trip (RT := Scenario.codec)
              (TestDouble.dumps Example.payment_payload)
              [("amount", VFloat 299.99); ("payment_method", VStr "card");
               ("booking_reference", VStr "BK-1"); ("user_id", VStr "u1")]
              (TestDouble.dumps Example.refund_payload)
              [("transaction_id", VStr "txn_token0")]
              TestDouble.empty_state
              ltac:(vm_compute; reflexivity) ltac:(vm_compute; reflexivity) eq_refl)
    as (st1 & Hpay & Hstatus & _ & Hamount & Hcurrency & Hcompleted & _).
  exists st1. eexists. repeat split; eassumption.
Defined.

Lemma refund_can_be_repeated_witness :
  exists st1 st2 txn2,
    PaymentAgent._process_refund (RT := Scenario.codec)
      (TestDouble.dumps Example.refund_payload) Scenario.after_payment
    = (Ok (TestDouble.dumps
             (VDict [("status", VStr "success");
                     ("refund_id", VStr "ref_token1");
                     ("amount_refunded", VFloat 299.99);
                     ("message", VStr "Refund processed successfully")])), st1) /\
    PaymentAgent._process_refund (RT := Scenario.codec)
      (TestDouble.dumps Example.refund_payload) st1
    = (Ok (TestDouble.dumps
             (VDict [("status", VStr "success");
                     ("refund_id", VStr "ref_token2");
                     ("amount_refunded", VFloat 299.99);
                     ("message", VStr "Refund processed successfully")])), st2) /\
    dict_get (PaymentAgent.transactions st2) "txn_token0" = Some (VDict txn2) /\
    dict_get txn2 "refund_id" = Some (VStr "ref_token2") /\
    dict_get txn2 "status" = Some (VStr "completed").
Proof.
  destruct (refund_can_be_repeated (RT := Scenario.codec)
              (TestDouble.dumps Example.refund_payload)
              (TestDouble.dumps Example.refund_payload)
              [("transaction_id", VStr "txn_token0")]
              [("transaction_id", VStr "txn_token0")]
              "txn_token0"
              (paid_transaction (RT := Scenario.codec) TestDouble.empty_state
                 [("amount", VFloat 299.99); ("payment_method", VStr "card");
                  ("booking_reference", VStr "BK-1"); ("user_id", VStr "u1")])
              (VFloat 299.99) Scenario.after_payment
              ltac:(vm_compute; reflexivity) eq_refl
              ltac:(vm_compute; reflexivity) eq_refl
              ltac:(vm_compute; reflexivity) eq_refl)
    as (st1 & st2 & txn2 & H1 & H2 & Hentry & Hid & _ & Hframe & _).
  exists st1, st2, txn2.
  split; [exact H1|]. split; [exact H2|]. split; [exact Hentry|]. split; [exact Hid|].
  rewrite Hframe by discriminate. reflexivity.
Defined.


Lemma optimizer_tools_need_options_witness :
  OptimizerAgent._find_cheapest_option (RT := Scenario.codec)
    (TestDouble.dumps Scenario.null_options)
  = Ok (TestDouble.dumps (VDict [("status", VStr "error");
                                 ("message", VStr "No options provided")])) /\
  OptimizerAgent._find_fastest_option (RT := Scenario.codec)
    (TestDouble.dumps Scenario.null_options)
  = Ok (TestDouble.dumps (VDict [("status", VStr "error");
                                 ("message", VStr "No options provided")])) /\
  OptimizerAgent._recommend_based_on_preferences (RT := Scenario.codec)
    (TestDouble.dumps Scenario.null_options)
  = Ok (TestDouble.dumps (VDict [("status", VStr "error");
                                 ("message", VStr "No options provided")])).
Proof.
  apply (optimizer_tools_need_options (RT := Scenario.codec)
           (TestDouble.dumps Scenario.null_options) Scenario.null_options VNone).
  - vm_compute. reflexivity.
  - reflexivity.
  - reflexivity.
Defined.

Lemma fastest_needs_every_duration_witness :
  OptimizerAgent.duration_key (RT := Scenario.codec) Scenario.bare_option
  = Raise (OverflowError "cannot convert float infinity to integer") /\
  (exists e,
      OptimizerAgent._find_fastest_option (RT := Scenario.codec)
        (TestDouble.dumps Scenario.sparse_options)
      = Ok (TestDouble.dumps (VDict [("status", VStr "error");
                                     ("message", VStr (TestDouble.show_exn e))]))) /\
  OptimizerAgent.price_key (RT := Scenario.codec) Scenario.bare_option = Ok infinity.
Proof.
  destruct (fastest_needs_every_duration (RT := Scenario.codec)
              (TestDouble.dumps Scenario.sparse_options) Scenario.sparse_options
              [VDict [("duration_minutes", VInt 90)]; Scenario.bare_option]
              [("id", VStr "x")])
    as (Hkey & Hrun & Hprice).
  - vm_compute. reflexivity.
  - reflexivity.
  - right. left. reflexivity.
  - reflexivity.
  - split; [exact Hkey|]. split; [exact Hrun | exact (Hprice eq_refl)].
Defined.

Lemma tools_reject_non_objects_witness :
  exists st',
    PaymentAgent._process_payment (RT := Scenario.codec)
      (TestDouble.dumps Scenario.bare_list) TestDouble.empty_state
    = (Ok (TestDouble.dumps (VDict [("status", VStr "error");
                                    ("message", VStr "object has no attribute 'get'")])), st') /\
    table st' = table TestDouble.empty_state /\
    clock_reads st' = clock_reads TestDouble.empty_state /\
    stdout st' = stdout TestDouble.empty_state.
Proof.
  pose (t := {| name := "process_payment";
                func := PaymentAgent._process_payment (RT := Scenario.codec);
                try_block := PaymentAgent.process_payment_body
                               (RT := Scenario.codec) |}).
  change (exists st',
             func t (TestDouble.dumps Scenario.bare_list) TestDouble.empty_state
             = (Ok (@json_dumps Scenario.codec
                      (VDict [("status", VStr "error");
                              ("message",
                               VStr (@str_exn Scenario.codec
                                       (AttributeError
                                          "object has no attribute 'get'")))])),
                st') /\
             table st' = table TestDouble.empty_state /\
             clock_reads st' = clock_reads TestDouble.empty_state /\
             stdout st' = stdout TestDouble.empty_state).
  apply (tools_reject_non_objects (RT := Scenario.codec) t
           (TestDouble.dumps Scenario.bare_list) Scenario.bare_list
           TestDouble.empty_state).
  - unfold all_tools. apply in_or_app. right. apply in_or_app. right.
    apply in_or_app. left. left. reflexivity.
  - vm_compute. reflexivity.
  - intros d. discriminate.
Defined.
